(** * ai-webtester: the instruction compiler and the action execution engine

    A shallow embedding of [Milestone4/agent/universal_parser.py]
    ([UniversalParser]), of [Milestone4/agent/universal_executor.py]
    ([UniversalExecutor]) and of what [api_run_test] and
    [api_analyze_instruction] of [Milestone4/app/app.py] do with them, with
    the properties of the specification that concern them and further
    properties of the code.

    Conventions.
    - A Python [str] is a [string]; a character is a code point below 256,
      and the instructions and the pages the properties speak of are made
      of such characters. On that range [Py.lower], [Py.is_space] and
      [Py.is_upper] agree with [str.lower], [str.isspace] and [str.isupper],
      and the classes of the patterns with those of [re]. Above it Python
      has upper-case letters that [str.lower] leaves as they are (U+2115):
      what is said of the case of a value is said of strings of this range.
      [Py.capitalize] agrees with [str.capitalize] but for a first character
      of code point 181 or 255, whose capital lies above the range and
      which is left as it is.
    - The marks that open some messages of the engine lie above that range:
      they are written as their UTF-8 bytes, and are only concatenated.
    - A Python [set] of strings is a [gset string]; the order in which
      Python lists it is left open, and no property depends on the order of
      [elements].
    - A Python [dict] with a fixed set of optional keys is a record of
      options, [None] standing for an absent key; a [dict] whose iteration
      order is observed is an association list; the [dict] of extracted
      fields is a [gmap string string].
    - The parser is embedded in its regex mode ([use_ai = False]): the
      Gemini client is an external service. [Api.parse] adds the branch of
      [parse] that returns the reply of the client, for the caller that
      builds its parser with an API key.
    - The browser, the screenshot module, the clock and the random number
      generator are parameters of the development. A run starts on the page
      of a browser session that did open.
    - Of the executor object, the fields that the list returned by [run]
      depends on are kept: [execution_state], [generated_data] and
      [used_provided_data]. *)

From Stdlib Require Import ZArith QArith Ascii String DecimalString.
From stdpp Require Import base option list strings gmap.

Set Default Proof Using "Type".
Local Open Scope nat_scope.

(** ** Python string operations *)

Module Py.

Definition code (c : ascii) : nat := nat_of_ascii c.

Definition in_range (lo hi : nat) (c : ascii) : bool :=
  (lo <=? code c) && (code c <=? hi).

(** [str.isupper] on one character. *)
Definition is_upper (c : ascii) : bool :=
  in_range 65 90 c || (in_range 192 222 c && negb (code c =? 215)).

Definition is_lower_letter (c : ascii) : bool :=
  in_range 97 122 c || (in_range 224 254 c && negb (code c =? 247)).

Definition lower_char (c : ascii) : ascii :=
  if is_upper c then ascii_of_nat (code c + 32) else c.

Definition upper_char (c : ascii) : ascii :=
  if is_lower_letter c then ascii_of_nat (code c - 32) else c.

(** [str.isspace] on one character; also the class [\s] of [re]. *)
Definition is_space (c : ascii) : bool :=
  in_range 9 13 c || in_range 28 32 c || (code c =? 133) || (code c =? 160).

Definition is_digit (c : ascii) : bool := in_range 48 57 c.

Definition is_ascii_letter (c : ascii) : bool :=
  in_range 65 90 c || in_range 97 122 c.

Definition truthy (s : string) : bool :=
  match s with EmptyString => false | String _ _ => true end.

(** [s.lower()] *)
Fixpoint lower (s : string) : string :=
  match s with
  | EmptyString => EmptyString
  | String c s' => String (lower_char c) (lower s')
  end.

(** [s.capitalize()]; the capital of code point 223 is written "Ss". *)
Definition capitalize (s : string) : string :=
  match s with
  | EmptyString => EmptyString
  | String c s' =>
      if code c =? 223 then "Ss" +:+ lower s' else String (upper_char c) (lower s')
  end.

(** [s.startswith(p)] *)
Fixpoint startswith (p s : string) : bool :=
  match p, s with
  | EmptyString, _ => true
  | String a p', String b s' => Ascii.eqb a b && startswith p' s'
  | String _ _, EmptyString => false
  end.

(** [sub in s] *)
Fixpoint contains (sub s : string) : bool :=
  startswith sub s ||
  match s with
  | EmptyString => false
  | String _ s' => contains sub s'
  end.

(** [c in chars], for a character and a string of characters. *)
Fixpoint mem_char (c : ascii) (chars : string) : bool :=
  match chars with
  | EmptyString => false
  | String x r => Ascii.eqb c x || mem_char c r
  end.

(** [s[:n]] *)
Fixpoint take (n : nat) (s : string) : string :=
  match n, s with
  | S k, String c s' => String c (take k s')
  | _, _ => EmptyString
  end.

Fixpoint lstrip_by (p : ascii -> bool) (s : string) : string :=
  match s with
  | EmptyString => EmptyString
  | String c s' => if p c then lstrip_by p s' else s
  end.

Fixpoint rstrip_by (p : ascii -> bool) (s : string) : string :=
  match s with
  | EmptyString => EmptyString
  | String c s' =>
      match rstrip_by p s' with
      | EmptyString => if p c then EmptyString else String c EmptyString
      | r => String c r
      end
  end.

(** [s.strip()], [s.strip(chars)], [s.rstrip(chars)] *)
Definition strip (s : string) : string := rstrip_by is_space (lstrip_by is_space s).
Definition strip_chars (chars s : string) : string :=
  rstrip_by (fun c => mem_char c chars) (lstrip_by (fun c => mem_char c chars) s).
Definition rstrip_chars (chars s : string) : string :=
  rstrip_by (fun c => mem_char c chars) s.

(** [s.split(sep)] for a separator of one character. *)
Fixpoint split_char (sep : ascii) (s : string) : list string :=
  match s with
  | EmptyString => [EmptyString]
  | String c s' =>
      if Ascii.eqb c sep then EmptyString :: split_char sep s'
      else match split_char sep s' with
           | w :: ws => String c w :: ws
           | [] => [String c EmptyString]
           end
  end.

(** [s.split()]: the maximal runs of characters that are not white space. *)
Fixpoint split_ws_go (cur : option string) (s : string) : list string :=
  match s with
  | EmptyString => option_list (String.rev <$> cur)
  | String c s' =>
      if is_space c
      then option_list (String.rev <$> cur) ++ split_ws_go None s'
      else split_ws_go (Some (String c (default EmptyString cur))) s'
  end.
Definition split_ws (s : string) : list string := split_ws_go None s.

(** [sep.join(l)] *)
Fixpoint join (sep : string) (l : list string) : string :=
  match l with
  | [] => EmptyString
  | [x] => x
  | x :: r => x +:+ sep +:+ join sep r
  end.

(** [s.replace(old, new)] for a non-empty [old]: occurrences are replaced
    from the left and do not overlap. *)
Fixpoint replace_go (old new s : string) (skip : nat) : string :=
  match s with
  | EmptyString => EmptyString
  | String c s' =>
      match skip with
      | S k => replace_go old new s' k
      | 0 =>
          if startswith old s
          then new +:+ replace_go old new s' (String.length old - 1)
          else String c (replace_go old new s' 0)
      end
  end.
Definition replace (old new s : string) : string := replace_go old new s 0.

(** [" ".join(s.split())] *)
Definition squeeze (s : string) : string := join " " (split_ws s).

(** [str(n)] and [f"{n}"] for integers. *)
Definition str_of_nat (n : nat) : string := NilZero.string_of_uint (Nat.to_uint n).
Definition str_of_Z (z : Z) : string := NilZero.string_of_int (Z.to_int z).

(** [s.isdigit()] on the characters modelled. *)
Fixpoint all_chars (p : ascii -> bool) (s : string) : bool :=
  match s with
  | EmptyString => true
  | String c s' => p c && all_chars p s'
  end.
Definition isdigit (s : string) : bool := truthy s && all_chars is_digit s.

End Py.

(** ** The fragment of Python's [re] the parser uses

    A backtracking matcher: [run_re] lists the ways a pattern can match at
    the head of the subject, in the order in which [re] tries them
    (alternatives left to right, greedy repetition longest first, lazy
    repetition shortest first). [search] takes the first way at the first
    position that has one, as [re.search] does. *)

Module Re.

Inductive regex : Type :=
| Emp
| Lit (c : ascii)
| Cls (p : ascii -> bool)
| Seq (a b : regex)
| Alt (a b : regex)
| Rep (lo : nat) (hi : option nat) (greedy : bool) (a : regex)
| Grp (i : nat) (a : regex)
| Eos.

(** The remaining subject and the groups captured so far (latest first). *)
Definition mstate : Type := string * list (nat * string).

Definition char_matches (ic : bool) (c x : ascii) : bool :=
  if ic then Ascii.eqb (Py.lower_char c) (Py.lower_char x) else Ascii.eqb c x.

Definition class_matches (ic : bool) (p : ascii -> bool) (x : ascii) : bool :=
  if ic then p x || p (Py.lower_char x) || p (Py.upper_char x) else p x.

(** [$]: the end of the subject, or just before a final newline. *)
Definition at_end (s : string) : bool :=
  match s with
  | EmptyString => true
  | String c EmptyString => Ascii.eqb c "010"%char
  | _ => false
  end.

Fixpoint rep_from (step : mstate -> list mstate) (fuel lo : nat)
    (hi : option nat) (greedy : bool) (st : mstate) : list mstate :=
  let stop := match lo with 0 => [st] | S _ => [] end in
  let more :=
    match fuel with
    | 0 => []
    | S fuel' =>
        match hi with
        | Some 0 => []
        | _ =>
            flat_map
              (fun st' =>
                 if String.length (fst st') <? String.length (fst st)
                 then rep_from step fuel' (pred lo) (pred <$> hi) greedy st'
                 else [])
              (step st)
        end
    end in
  if greedy then more ++ stop else stop ++ more.

Fixpoint run_re (ic : bool) (r : regex) (st : mstate) : list mstate :=
  match r with
  | Emp => [st]
  | Lit c =>
      match fst st with
      | String x s' => if char_matches ic c x then [(s', snd st)] else []
      | EmptyString => []
      end
  | Cls p =>
      match fst st with
      | String x s' => if class_matches ic p x then [(s', snd st)] else []
      | EmptyString => []
      end
  | Seq a b => flat_map (run_re ic b) (run_re ic a st)
  | Alt a b => run_re ic a st ++ run_re ic b st
  | Rep lo hi greedy a =>
      rep_from (run_re ic a) (S (String.length (fst st))) lo hi greedy st
  | Grp i a =>
      map (fun st' =>
             (fst st',
              (i, Py.take (String.length (fst st) - String.length (fst st')) (fst st))
                :: snd st'))
          (run_re ic a st)
  | Eos => if at_end (fst st) then [st] else []
  end.

(** A match object: [m.start()], [m.group(0)] and the captured groups. *)
Record match_obj := MatchObj {
  m_start : nat;
  m_text : string;
  m_groups : list (nat * string)
}.

Fixpoint lookup_group (i : nat) (gs : list (nat * string)) : option string :=
  match gs with
  | [] => None
  | (j, v) :: r => if i =? j then Some v else lookup_group i r
  end.

(** [m.group(i)] for [i >= 1]. *)
Definition group (i : nat) (m : match_obj) : option string :=
  lookup_group i (m_groups m).

Fixpoint search_from (ic : bool) (r : regex) (s : string) (pos : nat)
    : option match_obj :=
  match run_re ic r (s, []) with
  | (rest, gs) :: _ =>
      Some (MatchObj pos (Py.take (String.length s - String.length rest) s) gs)
  | [] =>
      match s with
      | EmptyString => None
      | String _ s' => search_from ic r s' (S pos)
      end
  end.

(** [re.search(r, s)] and [re.search(r, s, re.IGNORECASE)] *)
Definition search (r : regex) (s : string) : option match_obj :=
  search_from false r s 0.
Definition search_ic (r : regex) (s : string) : option match_obj :=
  search_from true r s 0.

(** Pattern combinators, named after the syntax they stand for. *)
Fixpoint lit (s : string) : regex :=
  match s with
  | EmptyString => Emp
  | String c EmptyString => Lit c
  | String c s' => Seq (Lit c) (lit s')
  end.

Fixpoint seq (l : list regex) : regex :=
  match l with
  | [] => Emp
  | [r] => r
  | r :: l' => Seq r (seq l')
  end.

Fixpoint alt (l : list regex) : regex :=
  match l with
  | [] => Emp
  | [r] => r
  | r :: l' => Alt r (alt l')
  end.

Definition plus (a : regex) : regex := Rep 1 None true a.       (* a+ *)
Definition plus_lazy (a : regex) : regex := Rep 1 None false a. (* a+? *)
Definition star (a : regex) : regex := Rep 0 None true a.       (* a* *)
Definition opt (a : regex) : regex := Rep 0 (Some 1) true a.    (* a? *)
Definition at_least (n : nat) (a : regex) : regex := Rep n None true a. (* a{n,} *)

Definition space : regex := Cls Py.is_space.                     (* \s *)
Definition nonspace : regex := Cls (fun c => negb (Py.is_space c)). (* \S, [^\s] *)
Definition dot : regex := Cls (fun c => negb (Ascii.eqb c "010"%char)). (* . *)
Definition letter : regex := Cls Py.is_ascii_letter.             (* [a-zA-Z] *)
Definition spaces : regex := plus space.                          (* \s+ *)

End Re.

(** ** Actions

    The parser emits, and the executor consumes, a list of dictionaries.
    [action_data] has one optional field per key that either of them
    writes or reads; [None] is an absent key. *)

Record action_data := ActionData {
  a_action : option string;
  a_url : option string;
  a_seconds : option Q;
  a_query : option string;
  a_selector : option string;
  a_value : option string;
  a_field_type : option string;
  a_text : option string;
  a_type : option string;
  a_min_indicators : option Z;
  a_description : option string;
  a_is_random_data : option bool;
  a_message : option string;
  a_error : option string;
  a_missing_fields : option (list string);
  a_details : option string;
  a_suggestion : option string
}.

(** [{"action": "navigate", "url": url}] *)
Definition navigate (url : string) : action_data :=
  ActionData (Some "navigate") (Some url) None None None None None None None None
             None None None None None None None.

(** [{"action": "wait", "seconds": s}] *)
Definition wait (s : Q) : action_data :=
  ActionData (Some "wait") None (Some s) None None None None None None None
             None None None None None None None.

(** [{"action": "search", "query": .., "selector": .., "description": ..}] *)
Definition search_action (query selector description : string) : action_data :=
  ActionData (Some "search") None None (Some query) (Some selector) None None None None None
             (Some description) None None None None None None.

(** [{"action": "type", "selector": .., "value": .., "field_type": ..,
      "description": ..}], with ["is_random_data"] where the source sets it. *)
Definition type_action (selector value field_type description : string)
    (is_random : option bool) : action_data :=
  ActionData (Some "type") None None None (Some selector) (Some value) (Some field_type)
             None None None (Some description) is_random None None None None None.

(** [{"action": "select", ...}] *)
Definition select_action (selector value field_type description : string) : action_data :=
  ActionData (Some "select") None None None (Some selector) (Some value) (Some field_type)
             None None None (Some description) None None None None None None.

(** [{"action": "click", "selector": .., "text": .., "description": ..}],
    with ["field_type"] where the source sets it. *)
Definition click_action (selector text : string) (field_type : option string)
    (description : string) : action_data :=
  ActionData (Some "click") None None None (Some selector) None field_type
             (Some text) None None (Some description) None None None None None None.

(** [{"action": "validate_page", "type": .., "text": .., "min_indicators": ..,
      "description": ..}] *)
Definition validate_page (type text : string) (min_indicators : Z)
    (description : string) : action_data :=
  ActionData (Some "validate_page") None None None None None None
             (Some text) (Some type) (Some min_indicators) (Some description)
             None None None None None None.

(** [{"action": "error", "error": .., ...}] *)
Definition error_action (error : string) (missing_fields : option (list string))
    (details suggestion : option string) : action_data :=
  ActionData (Some "error") None None None None None None None None None
             None None None (Some error) missing_fields details suggestion.

(** [parsed[0].get("action") == "error"] *)
Definition is_error (a : action_data) : bool :=
  match a_action a with
  | Some name => String.eqb name "error"
  | None => false
  end.

(** ** The instruction compiler: [UniversalParser] *)

Module Parser.

(** *** Site table ([self.site_configs])

    The keys the parser reads: ["url"], ["login_url"], ["signup_url"],
    ["signup_fields"] and ["search_selector"]. The table is a list because
    [_detect_site] and [_extract_search_query] walk its keys in order. *)

Record site_config := SiteConfig {
  url : string;
  login_url : option string;
  signup_url : option string;
  signup_fields : option (list string);
  search_selector : option string
}.

Definition site_configs : list (string * site_config) :=
  [ ("facebook", SiteConfig "https://facebook.com" (Some "https://facebook.com") None
       (Some ["first_name"; "last_name"; "email"; "password";
              "birth_day"; "birth_month"; "birth_year"; "gender"]) None);
    ("twitter", SiteConfig "https://twitter.com" (Some "https://twitter.com/i/flow/login")
       (Some "https://twitter.com/i/flow/signup")
       (Some ["name"; "email"; "password"; "birth_month"; "birth_day"; "birth_year"]) None);
    ("x.com", SiteConfig "https://x.com" (Some "https://x.com/i/flow/login")
       (Some "https://x.com/i/flow/signup")
       (Some ["name"; "email"; "password"; "birth_month"; "birth_day"; "birth_year"]) None);
    ("instagram", SiteConfig "https://instagram.com"
       (Some "https://instagram.com/accounts/login/") None
       (Some ["email"; "name"; "username"; "password"]) None);
    ("linkedin", SiteConfig "https://linkedin.com" (Some "https://linkedin.com/login")
       (Some "https://linkedin.com/signup")
       (Some ["first_name"; "last_name"; "email"; "password"]) None);
    ("amazon", SiteConfig "https://amazon.com" (Some "https://amazon.com/ap/signin") None
       (Some ["name"; "email"; "password"])
       (Some "#twotabsearchtextbox, input[name='field-keywords']"));
    ("flipkart", SiteConfig "https://flipkart.com" None None
       (Some ["email"; "password"])
       (Some "input[name='q'], input[title='Search for products, brands and more']"));
    ("google", SiteConfig "https://google.com" (Some "https://accounts.google.com") None
       (Some ["first_name"; "last_name"; "email"; "password"])
       (Some "textarea[name='q'], input[name='q']"));
    ("youtube", SiteConfig "https://youtube.com" None None None
       (Some "input[name='search_query'], input[id='search']"));
    ("wikipedia", SiteConfig "https://wikipedia.org" None None None
       (Some "#searchInput, input[name='search']"));
    ("wiki", SiteConfig "https://wikipedia.org" None None None
       (Some "#searchInput, input[name='search']"));
    ("reddit", SiteConfig "https://reddit.com" None None
       (Some ["email"; "username"; "password"]) None);
    ("github", SiteConfig "https://github.com" None None
       (Some ["email"; "username"; "password"]) None) ].

(** [self.site_configs.get(site)] *)
Fixpoint assoc {A} (k : string) (l : list (string * A)) : option A :=
  match l with
  | [] => None
  | (k', v) :: r => if String.eqb k k' then Some v else assoc k r
  end.

Definition config_of (site : string) : option site_config := assoc site site_configs.

(** [x in l] for a list of strings. *)
Definition mem (x : string) (l : list string) : bool :=
  existsb (String.eqb x) l.

(** [any(kw in s for kw in kws)] *)
Definition any_in (kws : list string) (s : string) : bool :=
  existsb (fun kw => Py.contains kw s) kws.

(** *** The environment of a parser instance

    [use_random_data] is the constructor argument. The module
    [agent.random_data] is not part of the sources at hand: whether its
    import succeeded ([RANDOM_DATA_AVAILABLE]) and its [get_random_data]
    are parameters. [clock] is [int(time.time())] and [dice] the random
    draws, both indexed by the number of draws made so far. *)

Record env := Env {
  use_random_data : bool;
  RANDOM_DATA_AVAILABLE : bool;
  get_random_data : nat -> string -> string;
  clock : nat -> Z;
  dice : nat -> nat
}.

(** Computations that draw from the environment: the number of draws made
    is threaded through. *)
Definition R (A : Type) : Type := nat -> A * nat.
Definition ret {A} (x : A) : R A := fun t => (x, t).
Definition bind {A B} (m : R A) (k : A -> R B) : R B :=
  fun t => let '(x, t') := m t in k x t'.
Notation "'let*' x ':=' m 'in' k" := (bind m (fun x => k))
  (at level 10, x name, m at level 100, k at level 200).

Section WithEnv.
Variable E : env.

(** [int(time.time())] *)
Definition now : R Z := fun t => (clock E t, S t).

(** [random.choice(l)] *)
Definition choice (l : list string) : R string :=
  fun t => (nth (dice E t mod length l) l EmptyString, S t).

Fixpoint nth_char (n : nat) (s : string) : string :=
  match s with
  | EmptyString => EmptyString
  | String c s' => match n with 0 => String c EmptyString | S k => nth_char k s' end
  end.

(** [''.join(random.choices(alphabet, k=k))] *)
Fixpoint choices (alphabet : string) (k : nat) : R string :=
  match k with
  | 0 => ret EmptyString
  | S k' =>
      fun t =>
        let c := nth_char (dice E t mod String.length alphabet) alphabet in
        let '(r, t') := choices alphabet k' (S t) in
        (c +:+ r, t')
  end.

Definition lower_alnum : string := "abcdefghijklmnopqrstuvwxyz0123456789".
Definition password_chars : string :=
  "abcdefghijklmnopqrstuvwxyzABCDEFGHIJKLMNOPQRSTUVWXYZ0123456789!@#$%^&*".
Definition domains : list string :=
  ["gmail.com"; "yahoo.com"; "outlook.com"; "mail.com"; "protonmail.com"; "hotmail.com"].
Definition first_names : list string :=
  ["John"; "Jane"; "David"; "Sarah"; "Michael"; "Emily"; "Robert"; "Lisa"; "William"; "Maria"].
Definition last_names : list string :=
  ["Smith"; "Johnson"; "Williams"; "Brown"; "Jones"; "Miller"; "Davis"; "Garcia";
   "Rodriguez"; "Wilson"].

(** The value of a field the user provided, if it is not empty. *)
Definition provided (field_name : string) (extracted_fields : gmap string string)
    : option string :=
  match extracted_fields !! field_name with
  | Some v => if Py.truthy v then Some v else None
  | None => None
  end.

(** The random value for a missing field. *)
Definition generate (field_name site : string) : R string :=
  if String.eqb field_name "email" then
    let* timestamp := now in
    let* random_str := choices lower_alnum 10 in
    let* domain := choice domains in
    ret ((if String.eqb site "linkedin" then "linkedin_test_"
          else if String.eqb site "twitter" then "twitter_test_"
          else "test")
         +:+ Py.str_of_Z timestamp +:+ "_" +:+ random_str +:+ "@" +:+ domain)
  else if String.eqb field_name "password" then
    choices password_chars 12
  else if mem field_name ["first_name"; "name"] then
    choice first_names
  else if String.eqb field_name "last_name" then
    choice last_names
  else if String.eqb field_name "username" then
    let* timestamp := now in
    let* random_str := choices lower_alnum 8 in
    ret ("user_" +:+ Py.str_of_Z timestamp +:+ "_" +:+ random_str)
  else
    fun t => (get_random_data E t field_name, S t).

(** [_get_field_value]: [None] is Python's [None]. *)
Definition _get_field_value (field_name : string)
    (extracted_fields : gmap string string) (site : string) : R (option string) :=
  match provided field_name extracted_fields with
  | Some v => ret (Some v)
  | None =>
      if use_random_data E && RANDOM_DATA_AVAILABLE E
      then let* v := generate field_name site in ret (Some v)
      else ret None
  end.


(** *** Field extraction patterns (step 1 of [_parse_simple]) *)

(** [[a-zA-Z0-9._%+-]] *)
Definition email_local_char (c : ascii) : bool :=
  Py.is_ascii_letter c || Py.is_digit c || Py.mem_char c "._%+-".
(** [[a-zA-Z0-9.-]] *)
Definition email_domain_char (c : ascii) : bool :=
  Py.is_ascii_letter c || Py.is_digit c || Py.mem_char c ".-".

(** [([a-zA-Z0-9._%+-]+@[a-zA-Z0-9.-]+\.[a-zA-Z]{2,})] *)
Definition email_address : Re.regex :=
  Re.Grp 1 (Re.seq [Re.plus (Re.Cls email_local_char); Re.Lit "@";
                    Re.plus (Re.Cls email_domain_char); Re.Lit ".";
                    Re.at_least 2 Re.letter]).

(** [(?:is\s+|as\s+)?] *)
Definition is_or_as : Re.regex :=
  Re.opt (Re.Alt (Re.Seq (Re.lit "is") Re.spaces) (Re.Seq (Re.lit "as") Re.spaces)).

Definition email_patterns : list Re.regex :=
  [ Re.seq [Re.lit "email"; Re.spaces; is_or_as; email_address];
    Re.seq [Re.lit "with"; Re.spaces; Re.lit "email"; Re.spaces; email_address];
    email_address ].

(** [(\S+)] *)
Definition word : Re.regex := Re.Grp 1 (Re.plus Re.nonspace).

(** [kw\s+(?:is\s+|as\s+)?(\S+)], [short\s+(?:is\s+|as\s+)?(\S+)],
    [with\s+kw\s+(\S+)] *)
Definition keyword_patterns (kw short : string) : list Re.regex :=
  [ Re.seq [Re.lit kw; Re.spaces; is_or_as; word];
    Re.seq [Re.lit short; Re.spaces; is_or_as; word];
    Re.seq [Re.lit "with"; Re.spaces; Re.lit kw; Re.spaces; word] ].

Definition pass_patterns : list Re.regex := keyword_patterns "password" "pass".
Definition user_patterns : list Re.regex := keyword_patterns "username" "user".

(** [([a-zA-Z]+(?:\s+[a-zA-Z]+)?)] *)
Definition one_or_two_names : Re.regex :=
  Re.Grp 1 (Re.Seq (Re.plus Re.letter)
                   (Re.opt (Re.Seq Re.spaces (Re.plus Re.letter)))).

Definition name_patterns : list Re.regex :=
  [ Re.seq [Re.lit "name"; Re.spaces; is_or_as; one_or_two_names];
    Re.seq [Re.lit "with"; Re.spaces; Re.lit "name"; Re.spaces; one_or_two_names] ].

(** [which[\s_-]?name\s+(?:is\s+|as\s+)?([a-zA-Z]+)],
    [which\s+name\s+([a-zA-Z]+)] *)
Definition part_name_patterns (which : string) : list Re.regex :=
  [ Re.seq [Re.lit which;
            Re.opt (Re.Cls (fun c => Py.is_space c || Py.mem_char c "_-"));
            Re.lit "name"; Re.spaces; is_or_as; Re.Grp 1 (Re.plus Re.letter)];
    Re.seq [Re.lit which; Re.spaces; Re.lit "name"; Re.spaces;
            Re.Grp 1 (Re.plus Re.letter)] ].

Definition first_patterns : list Re.regex := part_name_patterns "first".
Definition last_patterns : list Re.regex := part_name_patterns "last".

(** The [for pattern in patterns: match = re.search(..); if match: ..;
    break] loops: group 1 of the first pattern that matches. *)
Fixpoint first_match (ic : bool) (patterns : list Re.regex) (s : string)
    : option string :=
  match patterns with
  | [] => None
  | p :: ps =>
      match Re.search_from ic p s 0 with
      | Some m => Re.group 1 m
      | None => first_match ic ps s
      end
  end.

(** The loop over [email_patterns]: a match is kept, and ends the loop, when
    it holds an "@". *)
Fixpoint first_email (patterns : list Re.regex) (instruction : string) : option string :=
  match patterns with
  | [] => None
  | p :: ps =>
      match Re.search_from true p instruction 0 with
      | Some m =>
          match Re.group 1 m with
          | Some email =>
              if Py.contains "@" email then Some email else first_email ps instruction
          | None => first_email ps instruction
          end
      | None => first_email ps instruction
      end
  end.

(** [extracted_fields[k] = v] when [o] is a match. *)
Definition set_field (k : string) (o : option string) (fields : gmap string string)
    : gmap string string :=
  match o with
  | Some v => <[k := v]> fields
  | None => fields
  end.

(** Step 1 of [_parse_simple]: the e-mail is searched in the instruction
    as written, every other field in its lower-cased copy. *)
Definition extract_fields (instruction : string) : gmap string string :=
  let instruction_lower := Py.lower instruction in
  let email := first_email email_patterns instruction in
  let password := Py.rstrip_chars ".,;:!?" <$> first_match false pass_patterns instruction_lower in
  let username := Py.rstrip_chars ".,;:!?" <$> first_match false user_patterns instruction_lower in
  let name := first_match false name_patterns instruction_lower in
  let first_name := first_match false first_patterns instruction_lower in
  let last_name := first_match false last_patterns instruction_lower in
  set_field "last_name" last_name
    (set_field "first_name" first_name
      (set_field "name" name
        (set_field "username" username
          (set_field "password" password
            (set_field "email" email ∅))))).

(** *** Site and intent detection *)

Fixpoint first_domain (words : list string) : option string :=
  match words with
  | [] => None
  | word :: rest =>
      let clean_word := Py.strip_chars ".,;:!?()" word in
      if Py.contains "." clean_word && negb (Py.startswith "." clean_word)
      then head (Py.split_char "." (Py.replace "www." EmptyString clean_word))
      else first_domain rest
  end.

Definition _detect_site (instruction_lower : string) : string :=
  if Py.contains "wikipedia" instruction_lower || Py.contains "wiki" instruction_lower
  then "wikipedia"
  else if Py.contains "linkedin" instruction_lower
          || Py.contains "linked in" instruction_lower
  then "linkedin"
  else
    match find (fun site => Py.contains site instruction_lower) (map fst site_configs) with
    | Some site => site
    | None => default "unknown" (first_domain (Py.split_ws instruction_lower))
    end.

Definition _detect_action_type (instruction_lower : string) : string :=
  if any_in ["search"; "find"; "look for"] instruction_lower then "search"
  else if any_in ["login"; "signin"; "sign in"; "log in"] instruction_lower then "login"
  else if any_in ["signup"; "register"; "sign up"; "join"; "create account"; "create"]
                 instruction_lower then "signup"
  else if any_in ["go to"; "open"; "visit"; "navigate"; "launch"; "move to"]
                 instruction_lower then "navigate"
  else "unknown".

Definition _get_site_url (site : string) : string :=
  match config_of site with
  | Some c => url c
  | None =>
      if Py.contains "." site
      then (if negb (Py.startswith "http" site) then "https://" +:+ site else site)
      else "https://" +:+ site +:+ ".com"
  end.

Definition _get_search_selector (site : string) : string :=
  match config_of site with
  | Some c =>
      default "input[type='search'], input[name='search'], input[type='text'], textarea[name='q'], input[name='q']"
              (search_selector c)
  | None =>
      "input[type='search'], input[name='search'], #search, .search-input, input[placeholder*='search' i], input[type='text']"
  end.

(** *** Search *)

(** [(?:\s+on|\s+in|\s+and|\s+then|$)] *)
Definition query_end : Re.regex :=
  Re.alt [Re.Seq Re.spaces (Re.lit "on"); Re.Seq Re.spaces (Re.lit "in");
          Re.Seq Re.spaces (Re.lit "and"); Re.Seq Re.spaces (Re.lit "then"); Re.Eos].

(** [(.+?)] *)
Definition lazy_text : Re.regex := Re.Grp 1 (Re.plus_lazy Re.dot).

(** [(?:for\s+)?] *)
Definition opt_for : Re.regex := Re.opt (Re.Seq (Re.lit "for") Re.spaces).

Definition query_patterns : list Re.regex :=
  [ Re.seq [Re.lit "search"; Re.spaces; opt_for; lazy_text; Re.spaces; Re.lit "on";
            Re.spaces; Re.lit "wikipedia"];
    Re.seq [Re.lit "find"; Re.spaces; lazy_text; Re.spaces; Re.lit "on";
            Re.spaces; Re.lit "wikipedia"];
    Re.seq [Re.lit "search"; Re.spaces; opt_for; lazy_text; query_end];
    Re.seq [Re.lit "find"; Re.spaces; lazy_text; query_end];
    Re.seq [Re.lit "look for"; Re.spaces; lazy_text; query_end] ].

Definition remove_words : list string :=
  map fst site_configs ++
  ["add to cart"; "add"; "buy"; "purchase"; "and then";
   "login"; "signup"; "then"; "wikipedia"; "wiki"].

Definition _extract_search_query (instruction : string) : string :=
  match first_match false query_patterns (Py.lower instruction) with
  | Some g =>
      let query := Py.strip g in
      let query := fold_left (fun q word => Py.replace word " " q) remove_words query in
      Py.strip (Py.squeeze query)
  | None => EmptyString
  end.

Definition _handle_search (instruction instruction_lower site : string)
    (fields : gmap string string) : list action_data :=
  let actions := [navigate (_get_site_url site); wait 3] in
  let query := _extract_search_query instruction in
  if Py.truthy query then
    let actions := actions ++
      [search_action query (_get_search_selector site)
         ("Search for " +:+ query +:+ " on " +:+ site);
       wait 3] in
    if Py.contains "add to cart" instruction_lower || Py.contains "add" instruction_lower
    then
      let actions := actions ++ [wait 5] in
      let actions :=
        if mem site ["flipkart"; "amazon"] then
          let product_selector :=
            default "a"
              (assoc site
                 [("flipkart", "a[href*='/p/'], ._1fQZEK, div[data-tkid]");
                  ("amazon", "a[href*='/dp/'], .s-result-item h2 a, .s-title-instructions-style h2 a")]) in
          actions ++ [click_action product_selector "Product" None "Click on first product";
                      wait 5]
        else actions in
      let selector :=
        default "button:has-text('Add to Cart'), #add-to-cart-button"
          (assoc site
             [("amazon", "#add-to-cart-button, #addToCart, input[name='submit.add-to-cart']");
              ("flipkart", "button:has-text('ADD TO CART'), button._2KpZ6l, ._3v1-ww");
              ("default", "button:has-text('Add to Cart'), #add-to-cart-button")]) in
      actions ++
        [click_action selector "Add to Cart" None "Click Add to Cart button";
         wait 3;
         validate_page "shopping" "Added to Cart,Cart,Added,Proceed to checkout" 1
           "Verify item added to cart"]
    else actions
  else actions.

(** *** Login *)

Definition _handle_twitter_login (email password site : string) : list action_data :=
  [ type_action "input[autocomplete='username'], input[name='text'], input[type='text']"
      email "username" ("Enter username: " +:+ email) None;
    wait 2;
    click_action "button[type='submit'], button:has-text('Next'), div[role='button']:has-text('Next'), span:has-text('Next')"
      "Next" None "Click Next button";
    wait 3;
    type_action "input[type='password'], input[name='password'], input[data-testid='LoginForm_Login_Button'] ~ input[type='password']"
      password "password" "Enter password" None;
    wait 2;
    click_action "button[type='submit'], button[data-testid*='Login'], button:has-text('Log in'), div[role='button']:has-text('Log in')"
      "Log in" None "Click Login button";
    wait 5;
    validate_page "login" "@" 1 "Verify login successful" ].

Definition _handle_linkedin_login (email password site : string) : list action_data :=
  [ type_action "input[name='session_key'], input[id='username'], input[type='text']"
      email "email" ("Enter email: " +:+ email) None;
    wait 1;
    type_action "input[name='session_password'], input[id='password'], input[type='password']"
      password "password" "Enter password" None;
    wait 1;
    click_action "button[type='submit'], button:has-text('Sign in')"
      "Sign in" None "Click Sign in button";
    wait 5;
    validate_page "login" "Feed" 2 "Verify login successful" ].

Definition _handle_facebook_login (email password site : string) : list action_data :=
  [ type_action "input[name='email'], input[type='email'], input[id='email']"
      email "email" ("Enter email: " +:+ email) None;
    wait 1;
    type_action "input[name='pass'], input[type='password']"
      password "password" "Enter password" None;
    wait 1;
    click_action "button[name='login'], button[type='submit']"
      "Log in" None "Click Login button";
    wait 5;
    validate_page "login" "Profile" 2 "Verify login successful" ].

Definition _handle_generic_login (email password site : string) : list action_data :=
  [ if Py.contains "@" email
    then type_action "input[type='email'], input[name='email'], input[placeholder*='email']"
           email "email" ("Enter email: " +:+ email) None
    else type_action "input[name='username'], input[placeholder*='username']"
           email "username" ("Enter username: " +:+ email) None;
    wait 1;
    type_action "input[type='password'], input[name='password']"
      password "password" "Enter password" None;
    wait 1;
    click_action "button[type='submit'], button:has-text('Log in'), button:has-text('Sign in')"
      "Log in" None "Click Login button";
    wait 5;
    validate_page "login" "Profile" 2 "Verify login successful" ].

(** [x or y] on values that are [None] or a string. *)
Definition nonempty (o : option string) : option string :=
  match o with
  | Some v => if Py.truthy v then Some v else None
  | None => None
  end.

(** The credentials [_handle_login] resolves:
    [email = get("email") or get("username")], [password = get("password")]. *)
Definition login_credentials (site : string) (fields : gmap string string)
    : R (option string * option string) :=
  let* e := _get_field_value "email" fields site in
  let* email :=
    match nonempty e with
    | Some v => ret (Some v)
    | None => _get_field_value "username" fields site
    end in
  let* password := _get_field_value "password" fields site in
  ret (email, password).

Definition login_missing (email password : option string) : list string :=
  (match nonempty email with Some _ => [] | None => ["email or username"] end) ++
  (match nonempty password with Some _ => [] | None => ["password"] end).

Definition _handle_login (instruction instruction_lower site : string)
    (fields : gmap string string) : R (list action_data) :=
  let actions :=
    [ navigate (match config_of site with
                | Some c => default (url c) (login_url c)
                | None => _get_site_url site
                end);
      wait 5 ] in
  let* creds := login_credentials site fields in
  let email := fst creds in
  let password := snd creds in
  let missing := login_missing email password in
  match missing with
  | _ :: _ =>
      let error_msg :=
        "Login failed: Missing required fields: " +:+ Py.join ", " missing +:+
        (if use_random_data E then EmptyString
         else ". Enable 'Use Random Data' to auto-fill missing fields.") in
      ret [error_action error_msg (Some missing)
             (Some ("Required: " +:+ Py.join ", " missing)) None]
  | [] =>
      let email := default EmptyString email in
      let password := default EmptyString password in
      ret (actions ++
           (if mem site ["twitter"; "x.com"] then _handle_twitter_login email password site
            else if String.eqb site "facebook" then _handle_facebook_login email password site
            else if String.eqb site "linkedin" then _handle_linkedin_login email password site
            else _handle_generic_login email password site))
  end.

(** *** Signup *)

(** [fields.get(k, d)] *)
Definition get_or (fields : gmap string string) (k d : string) : string :=
  default d (fields !! k).

(** ["k" not in fields] *)
Definition not_in (fields : gmap string string) (k : string) : bool :=
  match fields !! k with Some _ => false | None => true end.

Definition _handle_twitter_signup (fields : gmap string string) (site : string)
    : list action_data :=
  let name := get_or fields "name" "Test User" in
  let email := get_or fields "email" EmptyString in
  let password := get_or fields "password" EmptyString in
  let birth_month := get_or fields "birth_month" "January" in
  let birth_day := get_or fields "birth_day" "1" in
  let birth_year := get_or fields "birth_year" "1990" in
  [ type_action "input[name='name'], input[placeholder*='name']"
      name "name" ("Enter name: " +:+ name) None;
    wait 1;
    type_action "input[name='email'], input[type='email']"
      email "email" ("Enter email: " +:+ email) None;
    wait 1;
    click_action "button[type='submit'], button:has-text('Next'), div[role='button']:has-text('Next')"
      "Next" None "Click Next button";
    wait 3;
    select_action "select[aria-label='Month']" birth_month "birth_month"
      ("Select birth month: " +:+ birth_month);
    wait 1;
    select_action "select[aria-label='Day']" birth_day "birth_day"
      ("Select birth day: " +:+ birth_day);
    wait 1;
    select_action "select[aria-label='Year']" birth_year "birth_year"
      ("Select birth year: " +:+ birth_year);
    wait 1;
    click_action "button[type='submit'], button:has-text('Next'), div[role='button']:has-text('Next')"
      "Next" None "Click Next after birthday";
    wait 3;
    type_action "input[name='password'], input[type='password']"
      password "password" "Enter password" None;
    wait 1;
    click_action "button[type='submit'], button:has-text('Next'), div[role='button']:has-text('Next')"
      "Next" None "Click Next after password";
    wait 5;
    validate_page "signup" "Verify" 1 "Verify signup successful" ].

Definition _handle_linkedin_signup (fields : gmap string string) (site : string)
    : list action_data :=
  let first_name := get_or fields "first_name" "Test" in
  let last_name := get_or fields "last_name" "User" in
  let email := get_or fields "email" EmptyString in
  let password := get_or fields "password" EmptyString in
  [ type_action "input[name='first-name'], input[id='first-name']"
      first_name "first_name" ("Enter first name: " +:+ first_name)
      (Some (not_in fields "first_name"));
    wait (1 # 2);
    type_action "input[name='last-name'], input[id='last-name']"
      last_name "last_name" ("Enter last name: " +:+ last_name)
      (Some (not_in fields "last_name"));
    wait (1 # 2);
    type_action "input[name='email-address'], input[id='email-address']"
      email "email" ("Enter email: " +:+ email)
      (Some (not_in fields "email"));
    wait (1 # 2);
    type_action "input[name='password'], input[id='password']"
      password "password" "Enter password"
      (Some (not_in fields "password"));
    wait (1 # 2);
    click_action "button[type='submit'], button:has-text('Agree & Join'), button:has-text('Join now')"
      "Agree & Join" None "Click Agree & Join button";
    wait 5;
    validate_page "signup" "Verify,Check your email,Enter confirmation code,Welcome" 1
      "Verify signup successful (even if email verification needed)" ].

Definition _handle_facebook_signup (fields : gmap string string) (site : string)
    : list action_data :=
  let first_name := get_or fields "first_name" "Test" in
  let last_name := get_or fields "last_name" "User" in
  let email := get_or fields "email" EmptyString in
  let password := get_or fields "password" EmptyString in
  let birth_day := get_or fields "birth_day" "1" in
  let birth_month := get_or fields "birth_month" "January" in
  let birth_year := get_or fields "birth_year" "1990" in
  let gender := get_or fields "gender" "female" in
  let gender_value :=
    if Py.truthy gender && String.eqb (Py.lower gender) "male" then "2" else "1" in
  [ click_action "a[data-testid='open-registration-form-button']"
      "Create Account" None "Click Create Account button";
    wait 3;
    type_action "input[name='firstname']" first_name "first_name"
      ("Enter first name: " +:+ first_name) None;
    wait (1 # 2);
    type_action "input[name='lastname']" last_name "last_name"
      ("Enter last name: " +:+ last_name) None;
    wait (1 # 2);
    type_action "input[name='reg_email__']" email "email"
      ("Enter email: " +:+ email) None;
    wait (1 # 2);
    type_action "input[name='reg_email_confirmation__']" email "email_confirm"
      "Confirm email" None;
    wait (1 # 2);
    type_action "input[name='reg_passwd__']" password "password"
      "Enter password" None;
    wait (1 # 2);
    select_action "select[name='birthday_day']" birth_day "birth_day"
      ("Select birth day: " +:+ birth_day);
    wait (1 # 2);
    select_action "select[name='birthday_month']" birth_month "birth_month"
      ("Select birth month: " +:+ birth_month);
    wait (1 # 2);
    select_action "select[name='birthday_year']" birth_year "birth_year"
      ("Select birth year: " +:+ birth_year);
    wait (1 # 2);
    click_action ("input[value='" +:+ gender_value +:+ "']")
      (if Py.truthy gender then Py.capitalize gender else "Female")
      (Some "gender")
      ("Select gender: " +:+ (if Py.truthy gender then gender else "Female"));
    wait 1;
    click_action "button[name='websubmit']" "Sign Up" None "Click Sign Up button";
    wait 5;
    validate_page "signup" "Confirm" 1 "Verify signup successful" ].

Definition _handle_generic_signup (fields : gmap string string) (site : string)
    : list action_data :=
  let name := get_or fields "name" "Test User" in
  let email := get_or fields "email" EmptyString in
  let password := get_or fields "password" EmptyString in
  [ click_action "a:has-text('Sign up'), a:has-text('Create New Account'), button:has-text('Sign up'), button:has-text('Join')"
      "Sign up" None "Click Sign up button";
    wait 3 ] ++
  (if Py.truthy name
   then [ type_action "input[name='name'], input[placeholder*='name']"
            name "name" ("Enter name: " +:+ name) None;
          wait (1 # 2) ]
   else []) ++
  [ type_action "input[type='email'], input[name='email']"
      email "email" ("Enter email: " +:+ email) None;
    wait (1 # 2);
    type_action "input[type='password'], input[name='password']"
      password "password" "Enter password" None;
    wait (1 # 2);
    click_action "button[type='submit'], button:has-text('Sign up'), button:has-text('Next'), button:has-text('Join')"
      "Sign up" None "Click Sign up button";
    wait 5;
    validate_page "signup" "Confirm" 1 "Verify signup successful" ].

(** [for field in l: value = self._get_field_value(field, fields, site);
    if value: generated_fields[field] = value] *)
Fixpoint resolve_fields (l : list string) (fields : gmap string string)
    (site : string) (generated_fields : gmap string string)
    : R (gmap string string) :=
  match l with
  | [] => ret generated_fields
  | field :: rest =>
      let* value := _get_field_value field fields site in
      resolve_fields rest fields site
        (match nonempty value with
         | Some v => <[field := v]> generated_fields
         | None => generated_fields
         end)
  end.

(** [field not in generated_fields or not generated_fields[field]] *)
Definition is_missing (generated_fields : gmap string string) (field : string) : bool :=
  match generated_fields !! field with
  | Some v => negb (Py.truthy v)
  | None => true
  end.

Definition _handle_signup (instruction instruction_lower site : string)
    (fields : gmap string string) : R (list action_data) :=
  let required_fields :=
    match config_of site with
    | Some c => default ["email"; "password"] (signup_fields c)
    | None => ["email"; "password"]
    end in
  let* generated_fields := resolve_fields required_fields fields site ∅ in
  let linkedin := String.eqb site "linkedin" in
  let required_fields :=
    if linkedin then
      let r := if mem "first_name" required_fields then required_fields
               else required_fields ++ ["first_name"] in
      if mem "last_name" r then r else r ++ ["last_name"]
    else required_fields in
  let* generated_fields :=
    if linkedin
    then resolve_fields ["first_name"; "last_name"] fields site generated_fields
    else ret generated_fields in
  let missing := filter (fun f => is_missing generated_fields f = true) required_fields in
  match missing with
  | _ :: _ =>
      let error_msg :=
        "Signup failed: Missing required fields: " +:+ Py.join ", " missing +:+
        (if use_random_data E then EmptyString
         else ". Enable 'Use Random Data' to auto-fill missing fields.") in
      ret [error_action error_msg (Some missing) None
             (Some ("For " +:+ site +:+ " signup, you need: " +:+
                    Py.join ", " required_fields))]
  | [] =>
      let actions :=
        [ navigate (match config_of site with
                    | Some c => default (url c) (signup_url c)
                    | None => _get_site_url site
                    end);
          wait 3 ] in
      ret (actions ++
           (if mem site ["twitter"; "x.com"] then _handle_twitter_signup generated_fields site
            else if String.eqb site "facebook" then _handle_facebook_signup generated_fields site
            else if String.eqb site "linkedin" then _handle_linkedin_signup generated_fields site
            else _handle_generic_signup generated_fields site))
  end.

(** *** Navigation *)

(** The alternatives [https?://[^\s]+], [www\.[^\s]+] and
    [\S+\.(com|org|net|in)] followed by any run of [[^\s]], as group 1. *)
Definition url_pattern : Re.regex :=
  Re.Grp 1
    (Re.alt
       [ Re.seq [Re.lit "http"; Re.opt (Re.Lit "s"); Re.lit "://"; Re.plus Re.nonspace];
         Re.seq [Re.lit "www"; Re.Lit "."; Re.plus Re.nonspace];
         Re.seq [Re.plus Re.nonspace; Re.Lit ".";
                 Re.Grp 2 (Re.alt [Re.lit "com"; Re.lit "org"; Re.lit "net"; Re.lit "in"]);
                 Re.star Re.nonspace] ]).

Definition _handle_navigation (instruction instruction_lower site : string)
    (fields : gmap string string) : list action_data :=
  if negb (String.eqb site "unknown") then
    [navigate (_get_site_url site); wait 3]
  else
    match Re.search url_pattern instruction with
    | Some url_match =>
        let url := Re.m_text url_match in
        let url := if negb (Py.startswith "http" url) then "https://" +:+ url else url in
        [navigate url; wait 3]
    | None =>
        [error_action ("Could not find URL in: " +:+ instruction) None None
           (Some "Try: 'go to google.com' or 'open wikipedia.org'")]
    end.

(** *** [_parse_simple] and [parse] *)

Definition _parse_simple (instruction : string) : R (list action_data) :=
  let instruction_lower := Py.lower instruction in
  let extracted_fields := extract_fields instruction in
  let site := _detect_site instruction_lower in
  let action_type := _detect_action_type instruction_lower in
  if String.eqb action_type "search" then
    ret (_handle_search instruction instruction_lower site extracted_fields)
  else if String.eqb action_type "login" then
    _handle_login instruction instruction_lower site extracted_fields
  else if String.eqb action_type "signup" then
    _handle_signup instruction instruction_lower site extracted_fields
  else if String.eqb action_type "navigate" then
    ret (_handle_navigation instruction instruction_lower site extracted_fields)
  else if negb (String.eqb site "unknown") then
    ret [navigate (_get_site_url site)]
  else
    ret [error_action ("Could not understand: " +:+ instruction) None None
           (Some "Try: 'login to facebook with email test@mail.com password pass123' or 'search laptop on amazon'")].

(** [parse], the compiler's entry point. *)
Definition parse (instruction : string) : list action_data :=
  let instruction := Py.strip instruction in
  if negb (Py.truthy instruction) then
    [error_action "Empty instruction" None None None]
  else fst (_parse_simple instruction 0).

End WithEnv.

End Parser.

(** ** The action execution engine: [UniversalExecutor] *)

Module Executor.

(** *** Selector catalog ([self.field_selectors], [self.action_selectors]) *)

Definition field_selectors : list (string * list string) :=
  [ ("search",
     ["#searchInput"; "input[name='search']"; "#twotabsearchtextbox"; "#search";
      ".search-input"; "input[type='search']"; "input[name='q']"; "textarea[name='q']";
      "input[name='search_query']"; "input[placeholder*='Search' i]";
      "input[title='Search']"; "input[type='text']"; "input"]);
    ("email",
     ["input[name='email-address']"; "input[type='email']"; "input[name='email']";
      "input[name='session_key']"; "input[name='reg_email__']"; "input[id='email']";
      "input[placeholder*='email' i]"; "input[autocomplete='email']"]);
    ("username",
     ["input[autocomplete='username']"; "input[name='text']"; "input[type='text']";
      "input[name='username']"; "input[name='session_username']"; "input[id='username']";
      "input[placeholder*='username' i]"; "input[placeholder*='Phone' i]"]);
    ("password",
     ["input[type='password']"; "input[name='pass']"; "input[name='password']";
      "input[name='session_password']"; "input[name='reg_passwd__']";
      "input[placeholder*='password' i]"; "input[autocomplete='new-password']"]);
    ("name",
     ["input[name='name']"; "input[data-testid*='name']"; "input[placeholder*='name' i]";
      "input[placeholder*='Full name' i]"]);
    ("first_name",
     ["input[name='first-name']"; "input[id='first-name']"; "input[name='firstname']";
      "input[name='firstName']"; "input[placeholder*='first name' i]"]);
    ("last_name",
     ["input[name='last-name']"; "input[id='last-name']"; "input[name='lastname']";
      "input[name='lastName']"; "input[placeholder*='last name' i]"]) ].

Definition action_selectors : list (string * list string) :=
  [ ("login_button",
     ["button[name='login']"; "button:has-text('Log in')"; "button:has-text('Sign in')";
      "button[type='submit']"; "button[data-testid*='Login']";
      "div[role='button']:has-text('Log in')"; "input[type='submit'][value='Sign in']"]);
    ("signup_button",
     ["a[data-testid='open-registration-form-button']"; "a:has-text('Create New Account')";
      "a:has-text('Sign up')"; "button:has-text('Sign up')";
      "button:has-text('Create account')"; "button:has-text('Join')";
      "button:has-text('Agree & Join')"; "button:has-text('Join now')"]);
    ("submit_button",
     ["button[name='websubmit']"; "button[type='submit']"; "button:has-text('Next')";
      "button:has-text('Continue')"; "button:has-text('Submit')"]);
    ("next_button",
     ["button:has-text('Next')"; "div[role='button']:has-text('Next')";
      "button[type='submit']"; "span:has-text('Next')"]);
    ("add_to_cart",
     ["#add-to-cart-button"; "button:has-text('Add to Cart' i)";
      "input[value='Add to Cart']"; "button[id*='add-to-cart' i]";
      "button[class*='add-to-cart' i]"]);
    ("search_button",
     ["#searchButton"; ".search-button"; "button[aria-label*='search' i]";
      "input[type='submit'][value='Google Search']"; "button[type='submit']";
      "input[value='Search']"; "button:has-text('Search')";
      "input[type='submit'][value*='Search' i]"]) ].

Definition selectors_for (key : string) (table : list (string * list string))
    : list string :=
  default [] (Parser.assoc key table).

(** *** Step results, screenshots and the run state *)

(** One dictionary of the list [run] returns. *)
Record step_result := StepResult {
  r_action : string;
  r_status : string;
  r_details : string;
  r_step : option nat;
  r_description : option string;
  r_field_type : option string;
  r_suggestion : option string;
  r_screenshot : option string;
  r_page_analysis : option string;
  r_result_content : option string;
  r_result_summary : option string;
  r_full_content : option string;
  r_is_result_page : bool
}.

(** [{"action": a, "status": s, "details": d}] *)
Definition result (a s d : string) : step_result :=
  StepResult a s d None None None None None None None None None false.

(** What [capture_with_analysis] hands back when it returns a record. *)
Record screenshot_info := ScreenshotInfo {
  screenshot_path : option string;
  analysis : option string;
  full_content : option string
}.

Inductive capture_outcome :=
| CaptureRaised
| CaptureNothing
| Captured (info : screenshot_info).

(** [self.execution_state] *)
Record exec_state := ExecState {
  current_site : option string;
  is_signup_flow : bool;
  has_provided_credentials : bool;
  has_generated_data : bool;
  search_query : option string;
  is_search_operation : bool;
  result_page_content : option string;
  result_summary : option string
}.

Definition initial_state : exec_state :=
  ExecState None false false false None false None None.

Definition set_current_site (v : string) (s : exec_state) : exec_state :=
  ExecState (Some v) (is_signup_flow s) (has_provided_credentials s)
    (has_generated_data s) (search_query s) (is_search_operation s)
    (result_page_content s) (result_summary s).
Definition set_signup_flow (s : exec_state) : exec_state :=
  ExecState (current_site s) true (has_provided_credentials s)
    (has_generated_data s) (search_query s) (is_search_operation s)
    (result_page_content s) (result_summary s).
Definition set_provided (s : exec_state) : exec_state :=
  ExecState (current_site s) (is_signup_flow s) true
    (has_generated_data s) (search_query s) (is_search_operation s)
    (result_page_content s) (result_summary s).
Definition set_generated (s : exec_state) : exec_state :=
  ExecState (current_site s) (is_signup_flow s) (has_provided_credentials s)
    true (search_query s) (is_search_operation s)
    (result_page_content s) (result_summary s).
Definition set_search (query : string) (s : exec_state) : exec_state :=
  ExecState (current_site s) (is_signup_flow s) (has_provided_credentials s)
    (has_generated_data s) (Some query) true
    (result_page_content s) (result_summary s).

(** [content[:500] + "..." if len(content) > 500 else content] *)
Definition summarize (content : string) : string :=
  if 500 <? String.length content then Py.take 500 content +:+ "..." else content.

(** [if content: state["result_page_content"] = content;
    state["result_summary"] = ...] *)
Definition set_content (content : string) (s : exec_state) : exec_state :=
  if Py.truthy content then
    ExecState (current_site s) (is_signup_flow s) (has_provided_credentials s)
      (has_generated_data s) (search_query s) (is_search_operation s)
      (Some content) (Some (summarize content))
  else s.

(** [d[k] = v] on a dictionary whose order of insertion is observed. *)
Fixpoint dict_set (k v : string) (d : list (string * string)) : list (string * string) :=
  match d with
  | [] => [(k, v)]
  | (k', v') :: r => if String.eqb k k' then (k, v) :: r else (k', v') :: dict_set k v r
  end.

(** The fields of the executor object that [run] reads back. *)
Record engine := Engine {
  execution_state : exec_state;
  generated_data : list (string * string);
  used_provided_data : list (string * string)
}.

Definition initial_engine : engine := Engine initial_state [] [].

(** What the validation handler reports: its body is one [try] whose
    [except] returns a Failed step, so it always returns. *)
Record validation := Validation {
  v_passed : bool;
  v_details : string;
  v_result_content : option string;
  v_extracted : option string
}.

Inductive select_by := ByValue | ByLabel | ByIndex.

(** *** The world outside the engine

    [Page] is the state of the browser page. Every operation returns the
    page it leaves behind; a [bool] or an [option] tells whether the calls
    it stands for completed ([true], [Some]) or raised. *)

Record world (Page : Type) := World {
  (** [page.url] *)
  page_url : Page -> string;
  (** [_wait_for_stability]: swallows every exception *)
  wait_for_stability : Page -> Page;
  (** the [try] body of [_execute_navigate]; [Some e] is the text of the
      exception raised *)
  goto : string -> Page -> option string * Page;
  (** the browser calls of [_perform_type] for a selector and a value *)
  type_into : string -> string -> Page -> bool * Page;
  (** [page.wait_for_selector("input")] and [page.locator("input").all()]:
      the number of inputs found *)
  generic_inputs : Page -> option nat * Page;
  (** [input_elem.fill(value)] on the i-th input *)
  fill_input : nat -> string -> Page -> bool * Page;
  (** [_perform_search] for a selector and a query: the details of the
      Passed result it returns, or [None] when it raises *)
  perform_search : string -> string -> Page -> option string * Page;
  (** [_extract_page_content]: always returns a string *)
  extract_page_content : Page -> string * Page;
  (** [page.wait_for_selector(selector, state="visible")] *)
  wait_for_selector : string -> Page -> bool * Page;
  (** [page.select_option(selector, value=|label=|index=)] *)
  select_option : string -> select_by -> string -> Page -> bool * Page;
  (** the [try] body of the strategy loop of [_execute_click] *)
  click_strategy : string -> Page -> bool * Page;
  (** [page.click(f"text={text}")] *)
  click_text : string -> Page -> bool * Page;
  (** [_execute_validate_page] *)
  validate : action_data -> engine -> Page -> validation * Page;
  (** [time.sleep(seconds)]: the message of the exception it raises, if any *)
  sleep_error : Q -> option string;
  (** [f"{seconds}"] *)
  str_of_seconds : Q -> string;
  (** [self.screenshot_capture] is not [None] *)
  screenshot_capture : bool;
  (** [capture_with_analysis(page, report_id, description, is_final_result)] *)
  capture_with_analysis : string -> string -> bool -> Page -> capture_outcome * Page
}.

Arguments page_url {Page}.
Arguments wait_for_stability {Page}.
Arguments goto {Page}.
Arguments type_into {Page}.
Arguments generic_inputs {Page}.
Arguments fill_input {Page}.
Arguments perform_search {Page}.
Arguments extract_page_content {Page}.
Arguments wait_for_selector {Page}.
Arguments select_option {Page}.
Arguments click_strategy {Page}.
Arguments click_text {Page}.
Arguments validate {Page}.
Arguments sleep_error {Page}.
Arguments str_of_seconds {Page}.
Arguments screenshot_capture {Page}.
Arguments capture_with_analysis {Page}.

(** *** Handlers *)

Section Handlers.
Context {Page : Type} (W : world Page).

(** A selector that was tried, and whether the operation completed. *)
Definition attempt : Type := string * bool.

(** [for sel in cands: try: return op(sel) except: continue]: the result
    of the first candidate that completes, with the attempts made. *)
Fixpoint try_each {A} (op : string -> Page -> option A * Page)
    (cands : list string) (pg : Page) : option A * list attempt * Page :=
  match cands with
  | [] => (None, [], pg)
  | sel :: rest =>
      match op sel pg with
      | (Some r, pg') => (Some r, [(sel, true)], pg')
      | (None, pg') =>
          let '(r, tried, pg'') := try_each op rest pg' in
          (r, (sel, false) :: tried, pg'')
      end
  end.

(** [[s.strip() for s in selector.split(',')]] *)
Definition split_selectors (selector : string) : list string :=
  map Py.strip (Py.split_char "," selector).

Definition _execute_navigate (action_data : action_data) (pg : Page)
    : step_result * Page :=
  let url := default EmptyString (a_url action_data) in
  if negb (Py.truthy url) then (result "navigate" "Failed" "No URL", pg)
  else
    match goto W url pg with
    | (None, pg') => (result "navigate" "Passed" ("Navigated to " +:+ page_url W pg'), pg')
    | (Some e, pg') => (result "navigate" "Failed" ("Failed: " +:+ e), pg')
    end.

(** [_perform_type]: the password is masked in the details. *)
Definition _perform_type (value field_type selector : string) (pg : Page)
    : option step_result * Page :=
  match type_into W selector value pg with
  | (true, pg') =>
      let display_value :=
        if String.eqb field_type "password" then "********" else value in
      (Some (result "type" "Passed" ("Typed " +:+ field_type +:+ ": " +:+ display_value)),
       pg')
  | (false, pg') => (None, pg')
  end.

(** [for input_elem in inputs[:5]: try: input_elem.fill(value); return ..
    except: continue], on the inputs [i], [i+1], ... *)
Fixpoint fill_first (count i : nat) (value : string) (pg : Page) : bool * Page :=
  match count with
  | 0 => (false, pg)
  | S count' =>
      match fill_input W i value pg with
      | (true, pg') => (true, pg')
      | (false, pg') => fill_first count' (S i) value pg'
      end
  end.

(** The last resort of [_execute_type]: the first five [input] elements. *)
Definition generic_input (value : string) (pg : Page) : bool * Page :=
  match generic_inputs W pg with
  | (Some n, pg') => fill_first (Nat.min n 5) 0 value pg'
  | (None, pg') => (false, pg')
  end.

Definition linkedin_selectors : list string :=
  ["input[name='email-address']"; "input[id='email-address']"].

Definition _execute_type (action_data : action_data) (field_type : string) (pg : Page)
    : step_result * list attempt * Page :=
  let selector := default EmptyString (a_selector action_data) in
  let value := default EmptyString (a_value action_data) in
  if negb (Py.truthy value) then (result "type" "Failed" "No value to type", [], pg)
  else
    let pg := wait_for_stability W pg in
    let '(r1, t1, pg) :=
      if String.eqb field_type "email" && Py.contains "linkedin" (page_url W pg)
      then try_each (_perform_type value field_type) linkedin_selectors pg
      else (None, [], pg) in
    match r1 with
    | Some r => (r, t1, pg)
    | None =>
        let '(r2, t2, pg) :=
          if Py.truthy selector
          then try_each (_perform_type value field_type) (split_selectors selector) pg
          else (None, [], pg) in
        match r2 with
        | Some r => (r, t1 ++ t2, pg)
        | None =>
            let '(r3, t3, pg) :=
              match Parser.assoc field_type field_selectors with
              | Some selectors =>
                  if Py.truthy field_type
                  then try_each (_perform_type value field_type) selectors pg
                  else (None, [], pg)
              | None => (None, [], pg)
              end in
            match r3 with
            | Some r => (r, t1 ++ t2 ++ t3, pg)
            | None =>
                match generic_input value pg with
                | (true, pg) =>
                    (result "type" "Passed" ("Typed " +:+ field_type +:+ ": " +:+ value),
                     t1 ++ t2 ++ t3, pg)
                | (false, pg) =>
                    (result "type" "Failed"
                       ("Input field for " +:+ field_type +:+ " not found"),
                     t1 ++ t2 ++ t3, pg)
                end
            end
        end
    end.

(** One candidate of [_execute_search]: [_perform_search], then the page
    content is stored in the execution state. *)
Definition search_with (query : string) (sel : string) (pg : Page)
    : option (step_result * string) * Page :=
  match perform_search W sel query pg with
  | (Some details, pg') =>
      let '(content, pg'') := extract_page_content W pg' in
      (Some (result "search" "Passed" details, content), pg'')
  | (None, pg') => (None, pg')
  end.

Definition _execute_search (action_data : action_data) (st : exec_state) (pg : Page)
    : step_result * list attempt * exec_state * Page :=
  let query := default EmptyString (a_query action_data) in
  let selector := default EmptyString (a_selector action_data) in
  if negb (Py.truthy query) then (result "search" "Failed" "No query", [], st, pg)
  else
    let pg := wait_for_stability W pg in
    let '(r1, t1, pg) :=
      if Py.truthy selector
      then try_each (search_with query) (split_selectors selector) pg
      else (None, [], pg) in
    match r1 with
    | Some (r, content) => (r, t1, set_content content st, pg)
    | None =>
        let '(r2, t2, pg) :=
          try_each (search_with query) (selectors_for "search" field_selectors) pg in
        match r2 with
        | Some (r, content) => (r, t1 ++ t2, set_content content st, pg)
        | None => (result "search" "Failed" "Search box not found", t1 ++ t2, st, pg)
        end
    end.

(** [_execute_select]: one selector, the hint as it is; the option is
    chosen by value, then by label, then by index. *)
Definition _execute_select (action_data : action_data) (field_type : string) (pg : Page)
    : step_result * Page :=
  let selector := default EmptyString (a_selector action_data) in
  let value := default EmptyString (a_value action_data) in
  if negb (Py.truthy value) then (result "select" "Failed" "No value to select", pg)
  else
    let pg := wait_for_stability W pg in
    let passed := result "select" "Passed" ("Selected " +:+ field_type +:+ ": " +:+ value) in
    let failed :=
      result "select" "Failed" ("Could not select " +:+ field_type +:+ ": " +:+ value) in
    match wait_for_selector W selector pg with
    | (false, pg) => (failed, pg)
    | (true, pg) =>
        match select_option W selector ByValue value pg with
        | (true, pg) => (passed, pg)
        | (false, pg) =>
            match select_option W selector ByLabel value pg with
            | (true, pg) => (passed, pg)
            | (false, pg) =>
                if Py.isdigit value then
                  match select_option W selector ByIndex value pg with
                  | (true, pg) => (passed, pg)
                  | (false, pg) => (failed, pg)
                  end
                else (failed, pg)
            end
        end
    end.

(** The strategies of [_execute_click]: the selectors of the hint, then
    the selectors built from the text, then the catalog list the text
    points to. *)
Definition text_strategies (url text : string) : list string :=
  if Py.truthy text then
    let text_lower := Py.lower text in
    [ "button:has-text('" +:+ text +:+ "')";
      "a:has-text('" +:+ text +:+ "')";
      "div[role='button']:has-text('" +:+ text +:+ "')";
      "span:has-text('" +:+ text +:+ "')";
      "input[value='" +:+ text +:+ "']" ] ++
    (if Py.contains "login" text_lower || Py.contains "log in" text_lower
        || Py.contains "sign in" text_lower
     then selectors_for "login_button" action_selectors
     else if Py.contains "sign up" text_lower || Py.contains "create account" text_lower
             || Py.contains "join" text_lower || Py.contains "agree" text_lower
     then selectors_for "signup_button" action_selectors ++
          (if Py.contains "linkedin" url
           then ["button:has-text('Agree & Join')"; "button:has-text('Join now')"]
           else [])
     else if Py.contains "next" text_lower
     then selectors_for "next_button" action_selectors
     else if Py.contains "add to cart" text_lower
     then selectors_for "add_to_cart" action_selectors
     else if Py.contains "search" text_lower
     then selectors_for "search_button" action_selectors
     else [])
  else [].

Definition click_strategies (url selector text : string) : list string :=
  (if Py.truthy selector then split_selectors selector else []) ++
  text_strategies url text.

Definition click_with (text : string) (strategy : string) (pg : Page)
    : option step_result * Page :=
  match click_strategy W strategy pg with
  | (true, pg') =>
      (Some (result "click" "Passed"
               ("Clicked: " +:+ (if Py.truthy text then text else strategy))), pg')
  | (false, pg') => (None, pg')
  end.

Definition _execute_click (action_data : action_data) (pg : Page)
    : step_result * list attempt * Page :=
  let selector := default EmptyString (a_selector action_data) in
  let text := default EmptyString (a_text action_data) in
  let pg := wait_for_stability W pg in
  let strategies := click_strategies (page_url W pg) selector text in
  let '(r, tried, pg) := try_each (click_with text) strategies pg in
  match r with
  | Some r => (r, tried, pg)
  | None =>
      let failed :=
        result "click" "Failed"
          ("Element not found: " +:+ (if Py.truthy text then text else selector)) in
      if Py.truthy text then
        match click_text W text pg with
        | (true, pg) => (result "click" "Passed" ("Clicked text: " +:+ text), tried, pg)
        | (false, pg) => (failed, tried, pg)
        end
      else (failed, tried, pg)
  end.

(** [_execute_validate_page], as the world reports it. *)
Definition _execute_validate_page (action_data : action_data) (en : engine) (pg : Page)
    : step_result * engine * Page :=
  let '(v, pg') := validate W action_data en pg in
  let r := result "validate_page" (if v_passed v then "Passed" else "Failed") (v_details v) in
  let r := StepResult (r_action r) (r_status r) (r_details r) None None None None None None
             (v_result_content v) None None false in
  let st := execution_state en in
  let st := match v_extracted v with Some c => set_content c st | None => st end in
  (r, Engine st (generated_data en) (used_provided_data en), pg').

End Handlers.

(** *** [run] *)

Section Run.
Context {Page : Type} (W : world Page).

(** What the body of the [try] of one iteration does: it yields the
    handler's result, or an exception reaches the [except] clause. *)
Inductive outcome :=
| Returned (r : step_result)
| Raised (e : string).

(** The list returned so far, the executor object, the page. *)
Record run_state := RunState {
  results : list step_result;
  eng : engine;
  page : Page
}.

(** [action_data.get("action", "unknown")] and its neighbours *)
Definition action_name (a : action_data) : string := default "unknown" (a_action a).
Definition field_type_of (a : action_data) : string := default EmptyString (a_field_type a).
Definition description_of (a : action_data) : string := default EmptyString (a_description a).
Definition value_of (a : action_data) : string := default EmptyString (a_value a).

(** The kinds whose failure does not stop the run. *)
Definition soft_actions : list string := ["wait"; "validate_page"; "info"; "generate_data"].
Definition is_soft (action : string) : bool := Parser.mem action soft_actions.

(** The bookkeeping before the [try]: site, flow, search and data usage. *)
Definition update_state (a : action_data) (en : engine) : engine :=
  let action := action_name a in
  let field_type := field_type_of a in
  let description := Py.lower (description_of a) in
  let value := value_of a in
  let st := execution_state en in
  let st :=
    if String.eqb action "navigate" then
      let url := Py.lower (default EmptyString (a_url a)) in
      if Py.contains "linkedin" url then set_current_site "linkedin" st
      else if Py.contains "twitter" url || Py.contains "x.com" url
      then set_current_site "twitter" st
      else if Py.contains "facebook" url then set_current_site "facebook" st
      else if Py.contains "google" url || Py.contains "search" url
      then set_current_site "search_engine" st
      else if Py.contains "wikipedia" url then set_current_site "wikipedia" st
      else st
    else st in
  let st :=
    if Py.contains "signup" description || Py.contains "create account" description
    then set_signup_flow st else st in
  let st :=
    if String.eqb action "search" || Py.contains "search" description
    then set_search value st else st in
  if String.eqb action "type" && Py.truthy value then
    if default false (a_is_random_data a) || Py.contains "random" description then
      Engine (set_generated st)
        (if Py.truthy field_type then dict_set field_type value (generated_data en)
         else generated_data en)
        (used_provided_data en)
    else
      Engine (set_provided st) (generated_data en)
        (if Parser.mem field_type ["email"; "password"]
         then dict_set field_type value (used_provided_data en)
         else used_provided_data en)
  else Engine st (generated_data en) (used_provided_data en).

(** The [if action == ...: ... elif ...] chain inside the [try]. *)
Definition dispatch (a : action_data) (en : engine) (pg : Page)
    : outcome * engine * Page :=
  let action := action_name a in
  let field_type := field_type_of a in
  if String.eqb action "navigate" then
    let '(r, pg') := _execute_navigate W a pg in (Returned r, en, pg')
  else if String.eqb action "search" then
    let '(r, _, st, pg') := _execute_search W a (execution_state en) pg in
    (Returned r, Engine st (generated_data en) (used_provided_data en), pg')
  else if String.eqb action "type" then
    let '(r, _, pg') := _execute_type W a field_type pg in (Returned r, en, pg')
  else if String.eqb action "select" then
    let '(r, pg') := _execute_select W a field_type pg in (Returned r, en, pg')
  else if String.eqb action "click" then
    let '(r, _, pg') := _execute_click W a pg in (Returned r, en, pg')
  else if String.eqb action "wait" then
    let seconds := default 2%Q (a_seconds a) in
    match sleep_error W seconds with
    | Some e => (Raised e, en, pg)
    | None =>
        (Returned (result "wait" "Passed"
                     ("Waited " +:+ str_of_seconds W seconds +:+ " seconds")), en, pg)
    end
  else if String.eqb action "validate_page" then
    let '(r, en', pg') := _execute_validate_page W a en pg in (Returned r, en', pg')
  else if String.eqb action "info" then
    (Returned (result "info" "Passed" (default "Information" (a_message a))), en, pg)
  else if String.eqb action "generate_data" then
    (Returned (result "generate_data" "Passed"
                 (default "Generated random data" (a_details a))), en, pg)
  else
    (Returned (result action "Failed" ("Unknown action: " +:+ action)), en, pg).

(** [description or action] *)
Definition label_of (a : action_data) : string :=
  if Py.truthy (description_of a) then description_of a else action_name a.

Definition some_if_truthy (s : string) : option string :=
  if Py.truthy s then Some s else None.

(** [self.execution_state.get("result_page_content")] when the action is
    a validation and the content is not empty. *)
Definition validated_content (a : action_data) (en : engine) : option string :=
  if String.eqb (action_name a) "validate_page"
  then match result_page_content (execution_state en) with
       | Some c => some_if_truthy c
       | None => None
       end
  else None.

(** The step metadata added after the handler returned. *)
Definition annotate (a : action_data) (step_number : nat) (en : engine)
    (r : step_result) : step_result :=
  StepResult (r_action r) (r_status r) (r_details r)
    (Some step_number)
    (match r_description r with
     | Some d => Some d
     | None => some_if_truthy (description_of a)
     end)
    (match some_if_truthy (field_type_of a) with
     | Some f => Some f
     | None => r_field_type r
     end)
    (r_suggestion r) (r_screenshot r) (r_page_analysis r)
    (match validated_content a en with
     | Some c => Some (summarize c)
     | None => r_result_content r
     end)
    (r_result_summary r) (r_full_content r) (r_is_result_page r).

(** [step_result["screenshot"] = ..; step_result["page_analysis"] = ..] *)
Definition with_screenshot (info : screenshot_info) (with_analysis : bool)
    (r : step_result) : step_result :=
  StepResult (r_action r) (r_status r) (r_details r) (r_step r) (r_description r)
    (r_field_type r) (r_suggestion r)
    (screenshot_path info)
    (if with_analysis
     then match analysis info with
          | Some an => some_if_truthy an
          | None => None
          end
     else r_page_analysis r)
    (r_result_content r) (r_result_summary r) (r_full_content r) (r_is_result_page r).

(** The screenshot attempt that follows a step: nothing is added when
    the module is absent, the capture raises or it returns nothing. *)
Definition take_screenshot (report_id description : string) (with_analysis : bool)
    (r : step_result) (pg : Page) : step_result * Page :=
  if screenshot_capture W then
    match capture_with_analysis W report_id description false pg with
    | (Captured info, pg') => (with_screenshot info with_analysis r, pg')
    | (_, pg') => (r, pg')
    end
  else (r, pg).

(** [f"Step {step_number}: {description or action}"] and its [ERROR]
    variant: the descriptions handed to the screenshot module. *)
Definition step_label (a : action_data) (step_number : nat) : string :=
  "Step " +:+ Py.str_of_nat step_number +:+ ": " +:+ label_of a.
Definition error_label (a : action_data) (step_number : nat) : string :=
  "ERROR Step " +:+ Py.str_of_nat step_number +:+ ": " +:+ label_of a.

(** [{"action": "execution_stopped", "status": "Failed", ...}] *)
Definition execution_stopped (action : string) : step_result :=
  result "execution_stopped" "Failed" ("Stopped due to failed action: " +:+ action).

(** The step the [except] clause records. *)
Definition error_step (a : action_data) (step_number : nat) (e : string) : step_result :=
  StepResult (action_name a) "Failed" ("Error: " +:+ e) (Some step_number)
    (some_if_truthy (description_of a)) (some_if_truthy (field_type_of a))
    None None None None None None false.

(** The [for action_data in parsed_actions] loop; [n] steps were made
    before. A [break] is the end of the recursion. *)
Fixpoint run_loop (report_id : string) (acts : list action_data) (n : nat)
    (s : run_state) : run_state :=
  match acts with
  | [] => s
  | a :: rest =>
      let step_number := S n in
      let action := action_name a in
      let en := update_state a (eng s) in
      match dispatch a en (page s) with
      | (Returned r, en, pg) =>
          let r := annotate a step_number en r in
          let '(r, pg) :=
            take_screenshot report_id (step_label a step_number) true r pg in
          if String.eqb (r_status r) "Failed" && negb (is_soft action)
          then RunState (results s ++ [r; execution_stopped action]) en pg
          else run_loop report_id rest step_number (RunState (results s ++ [r]) en pg)
      | (Raised e, en, pg) =>
          let r := error_step a step_number e in
          let '(r, pg) :=
            take_screenshot report_id (error_label a step_number) false r pg in
          RunState (results s ++ [r]) en pg
      end
  end.

(** The step appended for the final page. *)
Definition result_page_step (step_number : nat) (info : screenshot_info)
    (st : exec_state) : step_result :=
  StepResult "result_page_capture" "Passed"
    "Result page screenshot captured with analysis"
    (Some step_number) (Some "Capture final result page") None None
    (screenshot_path info) (analysis info)
    (result_page_content st) (result_summary st) (full_content info) true.

(** The capture of the final page, after the loop. *)
Definition final_capture (report_id : string) (s : run_state) : run_state :=
  if screenshot_capture W then
    let '(page_content, pg) := extract_page_content W (page s) in
    let st := set_content page_content (execution_state (eng s)) in
    let en := Engine st (generated_data (eng s)) (used_provided_data (eng s)) in
    match capture_with_analysis W report_id "Final Result Page" true pg with
    | (Captured info, pg) =>
        RunState (results s ++ [result_page_step (S (length (results s))) info st]) en pg
    | (_, pg) => RunState (results s) en pg
    end
  else s.

(** [f'{k}={v[:15]}...' if len(v) > 15 else f'{k}={v}'] *)
Definition show_item (kv : string * string) : string :=
  if 15 <? String.length (snd kv)
  then fst kv +:+ "=" +:+ Py.take 15 (snd kv) +:+ "..."
  else fst kv +:+ "=" +:+ snd kv.

Definition nonempty_list {A} (l : list A) : bool :=
  match l with [] => false | _ :: _ => true end.

(** The data usage step. *)
Definition data_summary (s : run_state) : run_state :=
  let used := used_provided_data (eng s) in
  let generated := generated_data (eng s) in
  if nonempty_list generated || nonempty_list used then
    let summary :=
      (if nonempty_list used
       then ["Provided: " +:+ Py.join ", " (map show_item used)] else []) ++
      (if nonempty_list generated
       then ["Generated: " +:+ Py.join ", " (map show_item generated)] else []) in
    RunState
      (results s ++
       [StepResult "data_summary" "Info" (Py.join " | " summary) None
          (Some "Data usage summary") None None None None None None None false])
      (eng s) (page s)
  else s.

(** [run]: [pg] is the page of the browser session the run opens and
    [report_id] the report identifier it settles on. *)
Definition run (parsed_actions : list action_data) (report_id : string) (pg : Page)
    : list step_result :=
  match parsed_actions with
  | [] => [result "error" "Failed" "No actions"]
  | first :: _ =>
      if is_error first then
        [StepResult "error" "Failed" (default "Unknown error" (a_error first))
           None None None (Some (default EmptyString (a_suggestion first)))
           None None None None None false]
      else
        let s := run_loop report_id parsed_actions 0 (RunState [] initial_engine pg) in
        let s := final_capture report_id s in
        let s := data_summary s in
        results s
  end.

End Run.

End Executor.

(** ** A world for the scenarios

    A page that never changes: its address is [url]; the operations on a
    selector complete exactly for the selectors listed in [present]; the
    generic input accepts text when [fillable]; validations fail; the
    screenshot module is loaded when [shots]. [time.sleep] rejects a negative
    length, as Python does. *)

Module Scenario.
Import Executor.

(** A parser without random data, and one with it: the clock stands at
    1700000000 and the k-th draw is 7k. *)
Definition env_off : Parser.env :=
  Parser.Env false false (fun _ field => "random_" +:+ field) (fun _ => 0%Z) (fun _ => 0).
Definition env_random : Parser.env :=
  Parser.Env true true (fun _ field => "random_" +:+ field)
    (fun _ => 1700000000%Z) (fun k => 7 * k).

Definition on (present : list string) (sel : string) : bool := Parser.mem sel present.

(** [f"{seconds}"] for the numbers the parser emits: integers and halves. *)
Definition show_seconds (q : Q) : string :=
  if Pos.eqb (Qden q) 1 then Py.str_of_Z (Qnum q)
  else Py.str_of_Z (Qnum q / Zpos (Qden q)) +:+ ".5".

(** [time.sleep(q)]: the length is first converted to nanoseconds in a
    signed integer of 64 bits, which raises [OverflowError] when they do
    not fit (the text is that of CPython 3.8 to 3.12); a negative length
    then raises [ValueError]. *)
Definition python_sleep_error (q : Q) : option string :=
  let ns := (Qnum q * 10 ^ 9)%Z in
  let bound := (2 ^ 63 * Zpos (Qden q))%Z in
  if (bound <=? ns)%Z || (ns <? - bound)%Z
  then Some "timestamp too large to convert to C _PyTime_t"
  else if (Qnum q <? 0)%Z then Some "sleep length must be non-negative"
  else None.

Definition static_world (url : string) (present : list string) (fillable shots : bool)
    : world unit :=
  World unit
    (fun _ => url)
    (fun pg => pg)
    (fun _ pg => (None, pg))
    (fun sel _ pg => (on present sel, pg))
    (fun pg => (if fillable then Some 1 else None, pg))
    (fun _ _ pg => (fillable, pg))
    (fun sel query pg =>
       (if on present sel then Some ("Search completed: " +:+ query) else None, pg))
    (fun pg => ("Page loaded successfully", pg))
    (fun sel pg => (on present sel, pg))
    (fun sel _ _ pg => (on present sel, pg))
    (fun sel pg => (on present sel, pg))
    (fun _ pg => (false, pg))
    (fun _ _ pg => (Validation false "Validation failed. Need 1 indicators, found 0" None None, pg))
    python_sleep_error
    show_seconds
    shots
    (fun report_id description _ pg =>
       (Captured (ScreenshotInfo (Some (report_id +:+ "/" +:+ description +:+ ".png")) None None),
        pg)).

End Scenario.

(** ** Page validation: the body of [_execute_validate_page]

    The engine above takes the validation of a page from the world. Here
    is what the handler does with the page it reads. Python leaves open the
    order in which [list(set(..))] lists the indicators found; [elements]
    lists them in the order of the finite set library, and no property below
    depends on it. The marks that open the details are written in UTF-8. *)

Module Validation.
Import Executor.

(** [re.findall(r, s)] for a pattern that matches no empty string: the
    matches found from the left, each search resuming where the last match
    ended. *)
Fixpoint findall_go (ic : bool) (r : Re.regex) (s : string) (skip : nat) : list string :=
  match s with
  | EmptyString => []
  | String _ s' =>
      match skip with
      | S k => findall_go ic r s' k
      | 0 =>
          match Re.run_re ic r (s, []) with
          | (rest, _) :: _ =>
              let found := Py.take (String.length s - String.length rest) s in
              found :: findall_go ic r s' (String.length found - 1)
          | [] => findall_go ic r s' 0
          end
      end
  end.
Definition findall (r : Re.regex) (s : string) : list string := findall_go false r s 0.

(** [[a-zA-Z0-9_]] and [\d] *)
Definition handle_char (c : ascii) : bool :=
  Py.is_ascii_letter c || Py.is_digit c || Ascii.eqb c "_".
Definition digit : Re.regex := Re.Cls Py.is_digit.

(** [name\s*\(\d+\)] *)
Definition counter (name : string) : Re.regex :=
  Re.seq [Re.lit name; Re.star Re.space; Re.Lit "("; Re.plus digit; Re.Lit ")"].

(** [self.validation_patterns] *)
Definition login_success : list Re.regex :=
  [ Re.Seq (Re.Lit "@") (Re.Rep 1 (Some 15) true (Re.Cls handle_char));
    Re.lit "profile"; Re.lit "logout"; Re.lit "sign out"; Re.lit "settings";
    Re.lit "account"; Re.lit "dashboard";
    Re.seq [Re.lit "welcome,"; Re.star Re.space; Re.letter];
    Re.lit "inbox"; Re.lit "notifications"; Re.lit "feed";
    counter "home";
    Re.lit "my network"; Re.lit "messaging"; Re.lit "jobs" ].

Definition login_failure_phrases : list string :=
  [ "incorrect password"; "wrong password"; "invalid"; "account not found";
    "doesn't match"; "try again"; "enter your password"; "forgot password";
    "unable to sign in" ].
Definition login_failure : list Re.regex := map Re.lit login_failure_phrases.

Definition signup_success : list Re.regex :=
  map Re.lit
    [ "check your email"; "verify your account"; "enter the code"; "enter code";
      "enter confirmation code"; "we sent you a code"; "verify your email";
      "confirm your email"; "check your inbox"; "account created";
      "registration complete"; "welcome to"; "almost done"; "verify account";
      "email sent"; "verification code"; "confirmation code"; "we've sent a code";
      "enter the verification code"; "enter the 6-digit code" ].

Definition signup_failure_phrases : list string :=
  [ "email already exists"; "invalid email"; "password too weak";
    "phone number invalid"; "birthday invalid"; "already registered";
    "someone already has that"; "enter a valid email"; "password must be";
    "this email is already linked"; "account already exists";
    "use a different email"; "try another email" ].
Definition signup_failure : list Re.regex := map Re.lit signup_failure_phrases.

Definition shopping_success : list Re.regex :=
  [ Re.lit "added to cart"; Re.lit "added to your cart"; Re.lit "item in cart";
    counter "cart";
    Re.lit "proceed to checkout"; Re.lit "checkout"; Re.lit "buy now";
    Re.lit "place order" ].

Definition search_success : list Re.regex :=
  map Re.lit
    [ "results"; "search results"; "showing results for"; "did you mean";
      "related searches"; "search for"; "page you were looking"; "article";
      "contents"; "references"; "edit this page"; "talk"; "view history";
      "no results found"; "no exact matches"; "try different keywords";
      "sorry, we couldn't find"; "wikipedia, the free encyclopedia";
      "from wikipedia"; "this article is about"; "jump to navigation";
      "main page" ].

(** The indicator lists the handler builds itself. *)
Definition linkedin_signup_success : list string :=
  [ "check your email"; "verify your account"; "enter the code"; "enter code";
    "enter confirmation code"; "we sent a code"; "verification";
    "confirm your email"; "check your inbox"; "email sent"; "confirmation code";
    "we've sent a code"; "enter the 6-digit code"; "confirm it's you";
    "enter the verification code"; "verify it's you" ].

Definition wikipedia_indicators : list string :=
  [ "wikipedia, the free encyclopedia"; "from wikipedia"; "main page"; "contents";
    "article"; "talk"; "read"; "edit"; "view history"; "search"; "create account";
    "log in"; "/wiki/" ].

(** [[i for i in indicators if i in full_content]] *)
Definition present (indicators : list string) (full_content : string) : list string :=
  List.filter (fun i => Py.contains i full_content) indicators.

(** [[m.group(0) for each pattern that re.search finds]] *)
Definition matched (patterns : list Re.regex) (full_content : string) : list string :=
  omap (fun p => Re.m_text <$> Re.search_ic p full_content) patterns.

(** A read of the page that may raise. *)
Inductive fallible (A : Type) : Type :=
| Got (a : A)
| Threw (e : string).
Arguments Got {A}.
Arguments Threw {A}.

(** What the handler reads from the page besides what the engine reads. *)
Record reader (Page : Type) := Reader {
  (** [page.content()] *)
  content : Page -> fallible string * Page;
  (** [page.inner_text("body")] *)
  inner_text_body : Page -> fallible string * Page;
  (** [_extract_wikipedia_content]: always returns a string *)
  extract_wikipedia_content : Page -> string * Page
}.
Arguments content {Page}.
Arguments inner_text_body {Page}.
Arguments extract_wikipedia_content {Page}.

Section Validate.
Context {Page : Type} (W : world Page) (V : reader Page).

(** The result of the [except] clause. *)
Definition validation_error (e : string) : validation :=
  Validation false ("Validation error: " +:+ e) None None.

(** [state.get("result_page_content", "")[:500] if
    state.get("result_page_content") else None] *)
Definition result_content_of (st : exec_state) : option string :=
  match result_page_content st with
  | Some c => if Py.truthy c then Some (Py.take 500 c) else None
  | None => None
  end.

(** The later of two extractions that gave some text. *)
Definition latest (first second : option string) : option string :=
  match second with Some c => Some c | None => first end.

Definition store (extracted : option string) (st : exec_state) : exec_state :=
  match extracted with Some c => set_content c st | None => st end.

(** The details of the LinkedIn signup success. *)
Definition linkedin_details (found : list string) (en : engine) : string :=
  let st := execution_state en in
  "✅ LinkedIn signup successful! (" +:+ Py.str_of_nat (length found) +:+
  " indicators found)" +:+
  (if has_provided_credentials st then
     (match Parser.assoc "email" (used_provided_data en) with
      | Some email => " | Used provided email: " +:+ Py.take 15 email +:+ "..."
      | None => EmptyString
      end) +:+
     (match Parser.assoc "password" (used_provided_data en) with
      | Some _ => " | Used provided password"
      | None => EmptyString
      end)
   else EmptyString) +:+
  (if has_generated_data st then
     match map fst (generated_data en) with
     | [] => EmptyString
     | generated_fields => " | Generated: " +:+ Py.join ", " generated_fields
     end
   else EmptyString).

(** The indicators of success for a validation type and a text. *)
Definition success_indicators (validation_type text full_content : string)
    : list string :=
  (if String.eqb validation_type "login" then
     matched login_success full_content ++
     (if String.eqb text "@"
      then take 2 (findall (Re.Seq (Re.Lit "@") (Re.plus (Re.Cls handle_char)))
                     full_content)
      else [])
   else if String.eqb validation_type "signup" then matched signup_success full_content
   else if String.eqb validation_type "shopping" then matched shopping_success full_content
   else if String.eqb validation_type "search" then matched search_success full_content
   else []) ++
  (if Py.truthy text
   then List.filter (fun indicator => Py.contains (Py.lower indicator) full_content)
          (map Py.strip (Py.split_char "," text))
   else []).

(** The failure a login or a signup page shows, if any. *)
Definition failure_details (validation_type full_content : string) : option string :=
  if String.eqb validation_type "login" then
    match matched login_failure full_content with
    | _ :: _ => Some "❌ Login failed: Invalid credentials or account not found"
    | [] => None
    end
  else if String.eqb validation_type "signup" then
    match matched signup_failure full_content with
    | _ :: _ =>
        Some ("❌ Signup failed: " +:+
              (if Py.contains "email already exists" full_content
                  || Py.contains "account already exists" full_content
               then "Email already exists"
               else if Py.contains "password too weak" full_content
                       || Py.contains "password must be" full_content
               then "Password too weak"
               else "Invalid data provided"))
    | [] => None
    end
  else None.

(** The details of a validation that passed on its indicators. *)
Definition passed_details (validation_type : string) (found : list string)
    (en : engine) : string :=
  let st := execution_state en in
  "✅ Validation passed! Found: " +:+ Py.join ", " (take 3 found) +:+
  (if String.eqb validation_type "signup" then
     (if has_provided_credentials st then
        match Parser.assoc "email" (used_provided_data en) with
        | Some email => " | Used provided email: " +:+ Py.take 10 email +:+ "..."
        | None => EmptyString
        end
      else EmptyString) +:+
     (if has_generated_data st
      then " | Used generated data for " +:+
           Py.str_of_nat (length (generated_data en)) +:+ " fields"
      else EmptyString)
   else EmptyString).

(** What follows the reads of the page. *)
Definition judge (action_data : action_data) (en : engine)
    (html body : string) (pg : Page) : validation * Page :=
  let validation_type := default "generic" (a_type action_data) in
  let text := default EmptyString (a_text action_data) in
  let min_indicators := default 1%Z (a_min_indicators action_data) in
  let st := execution_state en in
  let full_content := Py.lower html +:+ " " +:+ Py.lower body in
  let current_url := Py.lower (page_url W pg) in
  let '(extracted, pg) :=
    if String.eqb validation_type "search" || Py.contains "result" validation_type
       || is_search_operation st
    then let '(result_content, pg) := extract_page_content W pg in
         (some_if_truthy result_content, pg)
    else (None, pg) in
  let linkedin_found :=
    if Py.contains "linkedin.com" current_url && is_signup_flow st
    then present linkedin_signup_success full_content
    else [] in
  match linkedin_found with
  | _ :: _ =>
      (Validation true (linkedin_details linkedin_found en)
         (result_content_of (store extracted st)) extracted, pg)
  | [] =>
      let wikipedia_found :=
        if Py.contains "wikipedia.org" current_url
        then present wikipedia_indicators full_content
        else [] in
      if 2 <=? length wikipedia_found then
        let '(article_content, pg) := extract_wikipedia_content V pg in
        let extracted := latest extracted (some_if_truthy article_content) in
        (Validation true
           ("✅ Wikipedia page loaded successfully (" +:+
            Py.str_of_nat (length wikipedia_found) +:+ " indicators found)")
           (result_content_of (store extracted st)) extracted, pg)
      else
        match failure_details validation_type full_content with
        | Some details => (Validation false details None extracted, pg)
        | None =>
            let found : gset string :=
              list_to_set (success_indicators validation_type text full_content) in
            if (min_indicators <=? Z.of_nat (size found))%Z then
              (Validation true (passed_details validation_type (elements found) en)
                 (result_content_of (store extracted st)) extracted, pg)
            else
              (Validation false
                 ("❌ Validation failed. Need " +:+ Py.str_of_Z min_indicators +:+
                  " indicators, found " +:+ Py.str_of_nat (size found))
                 (result_content_of (store extracted st)) extracted, pg)
        end
  end.

(** [_execute_validate_page]: the page is read inside a [try] whose
    [except] returns a Failed step. *)
Definition _execute_validate_page (action_data : action_data) (en : engine) (pg : Page)
    : validation * Page :=
  let pg := wait_for_stability W pg in
  match content V pg with
  | (Threw e, pg) => (validation_error e, pg)
  | (Got html, pg) =>
      match inner_text_body V pg with
      | (Threw e, pg) => (validation_error e, pg)
      | (Got body, pg) => judge action_data en html body pg
      end
  end.

(** The world in which validations are made by this handler. *)
Definition with_validation : world Page :=
  World Page (page_url W) (wait_for_stability W) (goto W) (type_into W)
    (generic_inputs W) (fill_input W) (perform_search W) (extract_page_content W)
    (wait_for_selector W) (select_option W) (click_strategy W) (click_text W)
    _execute_validate_page
    (sleep_error W) (str_of_seconds W) (screenshot_capture W) (capture_with_analysis W).

End Validate.

End Validation.

(** ** The summary of a run: [_generate_execution_summary] *)

Module Summary.
Import Executor.

(** [self.last_failed_step] *)
Record failed_step := FailedStep {
  step_number : nat;
  action : string;
  description : string;
  failed_screenshot_info : screenshot_info;
  error : string
}.

Record execution_summary := ExecutionSummary {
  total_steps : nat;
  passed_steps : nat;
  failed_steps : nat;
  success_rate : Q;
  has_screenshots : bool;
  result_page_captured : bool;
  last_failed_step : option failed_step;
  summary_text : option string
}.

(** [r.get("step")] and [r.get("screenshot")] taken as conditions *)
Definition has_step (r : step_result) : bool :=
  match r_step r with Some (S _) => true | _ => false end.
Definition has_screenshot (r : step_result) : bool :=
  match r_screenshot r with Some path => Py.truthy path | None => false end.

(** [r.get("status", "").lower() == status] *)
Definition status_is (status : string) (r : step_result) : bool :=
  String.eqb (Py.lower (r_status r)) status.

(** [len([r for r in results if ..])] *)
Definition count (p : step_result -> bool) (results : list step_result) : nat :=
  length (List.filter p results).

(** [_generate_execution_summary]. [final_result_page], [last_failed] and
    [state] are the fields of the executor it reads. The rate is the exact
    quotient, which Python rounds to a float. *)
Definition _generate_execution_summary (results : list step_result)
    (final_result_page : option screenshot_info) (last_failed : option failed_step)
    (state : exec_state) : execution_summary :=
  let total_steps := count has_step results in
  let passed_steps := count (status_is "passed") results in
  let failed_steps := count (status_is "failed") results in
  ExecutionSummary total_steps passed_steps failed_steps
    (if 0 <? total_steps
     then (Z.of_nat passed_steps # Pos.of_nat total_steps) * 100
     else 0)%Q
    (0 <? count has_screenshot results)
    (match final_result_page with Some _ => true | None => false end)
    last_failed
    (result_summary state).

End Summary.

(** ** The caller: what [api_run_test] of [app/app.py] reports of a run *)

Module App.
Import Executor.

(** The verdict on a run: FAILED with a failed step, else WARNING with a
    warning, else PASSED. *)
Definition overall_status (execution : list step_result) : string :=
  if existsb (Summary.status_is "failed") execution then "FAILED"
  else if existsb (Summary.status_is "warning") execution then "WARNING"
  else "PASSED".

(** The counts of the response and the rate, over all the entries of the
    list; the rate is the exact quotient. *)
Record step_summary := StepSummary {
  total : nat;
  passed : nat;
  failed : nat;
  warning : nat;
  info : nat;
  rate : Q
}.

Definition summarize_steps (execution : list step_result) : step_summary :=
  let total := length execution in
  let passed := Summary.count (Summary.status_is "passed") execution in
  StepSummary total passed
    (Summary.count (Summary.status_is "failed") execution)
    (Summary.count (Summary.status_is "warning") execution)
    (Summary.count (Summary.status_is "info") execution)
    (if 0 <? total then (Z.of_nat passed # Pos.of_nat total) * 100 else 0)%Q.

(** An entry of the data usage report: [{"field": .., "value": ..}] *)
Record usage := Usage {
  field : string;
  value : string
}.

Record data_usage := DataUsage {
  provided : list usage;
  generated : list usage;
  mode : string
}.

(** [value[:20] + "..." if len(value) > 20 else value], and the mask of a
    password *)
Definition display_value (field_type value : string) : string :=
  if String.eqb field_type "password" then "********"
  else if 20 <? String.length value then Py.take 20 value +:+ "..." else value.

(** The Type actions that carry a field type and a value, flagged as
    random data or not. *)
Definition typed (random : bool) (parsed : list action_data) : list usage :=
  omap (fun a =>
          let field_type := default EmptyString (a_field_type a) in
          let value := default EmptyString (a_value a) in
          if String.eqb (default EmptyString (a_action a)) "type"
             && Py.truthy field_type && Py.truthy value
             && Bool.eqb (default false (a_is_random_data a)) random
          then Some (Usage field_type (display_value field_type value))
          else None)
       parsed.

Definition nonempty {A} (l : list A) : bool :=
  match l with [] => false | _ :: _ => true end.

(** The data usage report of the response. *)
Definition report_data_usage (parsed : list action_data) (use_random_data : bool)
    : data_usage :=
  let provided := typed false parsed in
  let generated := typed true parsed in
  DataUsage provided generated
    (if use_random_data && nonempty generated then
       (if nonempty provided && nonempty generated then "mixed" else "random_only")
     else if nonempty provided then "provided_only"
     else "none").

(** [len(data_usage["generated"]) > 0] *)
Definition was_random_data_used (d : data_usage) : bool := nonempty (generated d).

End App.

(** ** The caller: the request, its compilation and the preview *)

Module Api.

(** The body of the response with status 400 for an instruction that did
    not compile; [e_details] and [e_retry_suggestion] are keys that may be
    absent, and [e_is_linkedin_creation_error] is false for an absent key. *)
Record error_response := ErrorResponse {
  e_error : string;
  e_missing_fields : list string;
  e_suggestion : string;
  e_details : option string;
  e_is_linkedin_creation_error : bool;
  e_retry_suggestion : option string
}.

(** The response built from the error the parser returned. *)
Definition error_response_of (instruction : string) (use_random_data : bool)
    (first : action_data) : error_response :=
  let error_msg := default "Unknown error" (a_error first) in
  let missing := default [] (a_missing_fields first) in
  let suggestion :=
    default "Enable 'Use Random Data' to auto-fill missing fields" (a_suggestion first) in
  let details := default EmptyString (a_details first) in
  let instruction_lower := Py.lower instruction in
  let linkedin_creation :=
    Py.contains "linkedin" instruction_lower && negb use_random_data &&
    Parser.any_in ["create"; "signup"; "join"; "register"] instruction_lower &&
    negb (match Re.search Parser.email_address instruction_lower with
          | Some _ => true
          | None => false
          end &&
          Parser.any_in ["password"; "pass"; "pwd"] instruction_lower) in
  if linkedin_creation then
    ErrorResponse error_msg missing suggestion
      (Some "LinkedIn account creation requires email and password, or enable Random Data")
      true (Some "Enable Random Data and try again")
  else
    ErrorResponse error_msg missing suggestion
      (if Py.truthy details then Some details else None) false None.

(** What becomes of a request before anything is executed. *)
Inductive request_outcome :=
| NoInstruction
| NotCompiled (response : error_response)
| Compiled (parsed : list action_data).

(** The AI client of the parser [api_run_test] builds with its API key.
    [no_client]: no key is set, or the service did not answer when the
    parser was made, and [use_ai] is false. [gemini reply]: the client
    opened; [reply] is [_parse_with_ai] up to its [except] clause: the JSON
    array of the answer, returned unchecked as the list of actions, or
    [None] when the answer raised an exception. An answer that is no array
    of actions lies outside the lists of this development. *)
Inductive client :=
| no_client
| gemini (reply : string -> option (list action_data)).

(** What the AI branch of [parse] returns for a stripped instruction, if
    anything. *)
Definition ai_actions (c : client) (instruction : string) : option (list action_data) :=
  match c with
  | no_client => None
  | gemini reply => reply instruction
  end.

(** [UniversalParser.parse] with its AI branch: the reply of the client is
    returned as it is, and the patterns are tried when there is none. *)
Definition parse (c : client) (E : Parser.env) (instruction : string)
    : list action_data :=
  let instruction := Py.strip instruction in
  if negb (Py.truthy instruction) then
    [error_action "Empty instruction" None None None]
  else
    match ai_actions c instruction with
    | Some actions => actions
    | None => fst (Parser._parse_simple E instruction 0)
    end.

(** The first part of [api_run_test]: the instruction is stripped, an empty
    one is rejected, and the parser made for the request's random data flag
    compiles it. *)
Definition compile_request (c : client) (E : Parser.env) (instruction : string)
    : request_outcome :=
  let instruction := Py.strip instruction in
  if negb (Py.truthy instruction) then NoInstruction
  else
    let parsed := parse c E instruction in
    match parsed with
    | first :: _ =>
        if is_error first
        then NotCompiled (error_response_of instruction (Parser.use_random_data E) first)
        else Compiled parsed
    | [] => Compiled parsed
    end.

(** The type the preview of [api_analyze_instruction] gives for the
    lower-cased instruction. *)
Definition analysis_type (instruction_lower : string) : string :=
  let is_login :=
    Parser.any_in ["login"; "signin"; "sign in"; "log in"] instruction_lower in
  let is_signup :=
    Parser.any_in ["signup"; "register"; "sign up"; "join"; "create account"; "create"]
      instruction_lower in
  if is_signup then "signup"
  else if is_login then "login"
  else if Parser.any_in ["search"; "find"; "look for"] instruction_lower then "search"
  else if Parser.any_in ["go to"; "open"; "visit"; "navigate"] instruction_lower
  then "navigation"
  else "unknown".

End Api.

(** ** The vocabulary of the properties *)

(** No character of [s] is an upper-case letter. *)
Definition no_upper (s : string) : Prop :=
  Py.all_chars (fun c => negb (Py.is_upper c)) s = true.

(** [v] occurs in [s] as a run of consecutive characters. *)
Definition occurs_in (v s : string) : Prop :=
  exists before after, s = before +:+ v +:+ after.


(** A state of the matcher whose remaining subject has [Q] and whose groups
    all have [R]. *)
Definition state_ok (Q R : string -> Prop) (st : Re.mstate) : Prop :=
  Q (fst st) /\ Forall (fun g => R (snd g)) (snd st).

(** The four shapes of the error the parser returns. *)
Inductive compile_error : action_data -> Prop :=
| empty_instruction_error :
    compile_error (error_action "Empty instruction" None None None)
| login_error (msg : string) (missing : list string) :
    Py.truthy msg = true -> missing <> [] ->
    compile_error
      (error_action msg (Some missing) (Some ("Required: " +:+ Py.join ", " missing)) None)
| signup_error (msg suggestion : string) (missing : list string) :
    Py.truthy msg = true -> Py.truthy suggestion = true -> missing <> [] ->
    compile_error (error_action msg (Some missing) None (Some suggestion))
| not_understood_error (msg suggestion : string) :
    Py.truthy msg = true -> Py.truthy suggestion = true ->
    compile_error (error_action msg None None (Some suggestion)).

(** A list of actions without an error. *)
Definition no_error (l : list action_data) : Prop :=
  Forall (fun a => is_error a = false) l.

(** What a handler hands back: actions without an error, or one error. *)
Definition compiled (l : list action_data) : Prop :=
  no_error l \/ exists e, l = [e] /\ compile_error e.




Import Executor.



(** The candidates of a Type action on a page at [url]. *)
Definition type_candidates (url selector field_type : string) : list string :=
  (if String.eqb field_type "email" && Py.contains "linkedin" url
   then linkedin_selectors else []) ++
  (if Py.truthy selector then split_selectors selector else []) ++
  (match Parser.assoc field_type field_selectors with
   | Some selectors => if Py.truthy field_type then selectors else []
   | None => []
   end).

(** The candidates of a Search action. *)
Definition search_candidates (selector : string) : list string :=
  (if Py.truthy selector then split_selectors selector else []) ++
  selectors_for "search" field_selectors.



(** An action the engine's handlers accept as it stands: its kind is one
    [run] dispatches on, and the argument its handler asks for first is
    there. *)
Definition well_formed (a : action_data) : bool :=
  let action := default "unknown" (a_action a) in
  if String.eqb action "navigate" then
    Py.startswith "http" (default EmptyString (a_url a))
  else if String.eqb action "wait" then
    match a_seconds a with Some s => (0 <? Qnum s)%Z | None => false end
  else if String.eqb action "search" then
    Py.truthy (default EmptyString (a_query a))
  else if String.eqb action "type" || String.eqb action "select" then
    Py.truthy (default EmptyString (a_value a))
  else if String.eqb action "click" then
    Py.truthy (default EmptyString (a_selector a)) &&
    Py.truthy (default EmptyString (a_text a))
  else if String.eqb action "validate_page" then
    match a_min_indicators a with Some m => (0 <? m)%Z | None => false end
  else false.

Definition all_well_formed (l : list action_data) : Prop :=
  Forall (fun a => well_formed a = true) l.

Definition navigation_first (l : list action_data) : Prop :=
  exists url rest, l = navigate url :: rest.

(** What the engine can take: one error, which [run] reports without
    opening a page, or a list that starts with a navigation and holds only
    actions its handlers accept. *)
Definition engine_ready (l : list action_data) : Prop :=
  (exists e, l = [e] /\ is_error e = true) \/
  (navigation_first l /\ all_well_formed l).

(** Every value of the dictionary is a string that is not empty. *)
Definition all_truthy (m : gmap string string) : Prop :=
  forall k v, m !! k = Some v -> Py.truthy v = true.

(** Random data is in play for a parser: the flag is set and the module
    was loaded. *)
Definition random_on (E : Parser.env) : bool :=
  Parser.use_random_data E && Parser.RANDOM_DATA_AVAILABLE E.

(** The fields a signup on [site] asks for. *)
Definition required_fields (site : string) : list string :=
  match Parser.config_of site with
  | Some c => default ["email"; "password"] (Parser.signup_fields c)
  | None => ["email"; "password"]
  end.

(** No action of the list is marked as carrying random data. *)
Definition unflagged (l : list action_data) : Prop :=
  Forall (fun a => a_is_random_data a <> Some true) l.

(** Every Search action of [l] searches for [q]. *)
Definition searches_only (q : string) (l : list action_data) : Prop :=
  Forall (fun a => a_action a = Some "search" -> a_query a = Some q) l.

(** The page a validation judges, once [_wait_for_stability] returned and
    both reads completed: the markup, the text of the body and the page
    left behind. *)
Definition page_read {Page : Type} (W : world Page) (V : Validation.reader Page)
    (pg : Page) (html body : string) (pg' : Page) : Prop :=
  exists pg1,
    Validation.content V (wait_for_stability W pg) = (Validation.Got html, pg1) /\
    Validation.inner_text_body V pg1 = (Validation.Got body, pg').

(** [content + " " + page_text], both lower-cased *)
Definition lowered_page (html body : string) : string :=
  Py.lower html +:+ " " +:+ Py.lower body.

(** A page whose reads complete and give the same markup and text each
    time. *)
Definition static_reader (html body : string) : Validation.reader unit :=
  Validation.Reader unit
    (fun pg => (Validation.Got html, pg))
    (fun pg => (Validation.Got body, pg))
    (fun pg => ("Wikipedia article loaded successfully", pg)).

(** A page that cannot be read. *)
Definition broken_reader (e : string) : Validation.reader unit :=
  Validation.Reader unit
    (fun pg => (Validation.Threw e, pg))
    (fun pg => (Validation.Threw e, pg))
    (fun pg => ("Wikipedia article loaded successfully", pg)).

(** The page is none of those the handler passes on sight. *)
Definition no_shortcut {Page : Type} (W : world Page) (pg : Page) : Prop :=
  Py.contains "linkedin.com" (Py.lower (page_url W pg)) = false /\
  Py.contains "wikipedia.org" (Py.lower (page_url W pg)) = false.

(** A step is recorded as passed or as failed. *)
Definition passed_or_failed (r : step_result) : Prop :=
  r_status r = "Passed" \/ r_status r = "Failed".

(** The steps the loop records for [acts], numbered from [S n]: one step per
    action run, in order, each carrying its number and the name of its
    action; [complete] tells whether every action was run and none brought
    the loop to an end. *)
Inductive loop_steps : nat -> list action_data -> list step_result -> bool -> Prop :=
| loop_done (n : nat) : loop_steps n [] [] true
| loop_next (n : nat) (a : action_data) (rest : list action_data) (r : step_result)
    (steps : list step_result) (complete : bool) :
    r_step r = Some (S n) -> r_action r = action_name a -> passed_or_failed r ->
    loop_steps (S n) rest steps complete ->
    loop_steps n (a :: rest) (r :: steps) complete
| loop_end (n : nat) (a : action_data) (rest : list action_data) (r : step_result) :
    r_step r = Some (S n) -> r_action r = action_name a -> r_status r = "Failed" ->
    loop_steps n (a :: rest) [r] false.

(** [time.sleep] accepts every length from nothing to five seconds. *)
Definition sleep_accepts {Page : Type} (W : world Page) : Prop :=
  forall q : Q, (0 <= q)%Q -> (q <= 5)%Q -> sleep_error W q = None.

(** A wait lasts five seconds at most, and no negative time; [2] is the
    length the engine takes for a wait that gives none. *)
Definition brief (a : action_data) : bool :=
  if String.eqb (action_name a) "wait"
  then Qle_bool 0 (default 2%Q (a_seconds a)) && Qle_bool (default 2%Q (a_seconds a)) 5
  else true.

(** A Type action of kind password. *)
Definition types_password (a : action_data) : bool :=
  String.eqb (action_name a) "type" && String.eqb (field_type_of a) "password".

(** The action types [v] as a value the user provided: it is not marked
    as random data and its description does not say "random". *)
Definition provided_value (v : string) (a : action_data) : Prop :=
  a_value a = Some v /\ default false (a_is_random_data a) = false /\
  Py.contains "random" (Py.lower (description_of a)) = false.

(** No action of the list carries the error of an empty instruction. *)
Definition relayed (l : list action_data) : Prop :=
  Forall (fun a => a_error a <> Some "Empty instruction") l.

(** The number of the intents search, login and signup of which the
    instruction holds a keyword. *)
Definition intents_matched (instruction_lower : string) : nat :=
  Nat.b2n (Parser.any_in ["search"; "find"; "look for"] instruction_lower) +
  Nat.b2n (Parser.any_in ["login"; "signin"; "sign in"; "log in"] instruction_lower) +
  Nat.b2n (Parser.any_in
             ["signup"; "register"; "sign up"; "join"; "create account"; "create"]
             instruction_lower).

(** The preview's name for a type of the compiler. *)
Definition preview_name (action_type : string) : string :=
  if String.eqb action_type "navigate" then "navigation" else action_type.

(** ** Facts about strings and patterns *)

Section StringFacts.

Lemma append_nil_l (s : string) : EmptyString +:+ s = s.
Proof. reflexivity. Qed.

Lemma append_cons (c : ascii) (s t : string) : String c s +:+ t = String c (s +:+ t).
Proof. reflexivity. Qed.

Lemma append_assoc (s t u : string) : (s +:+ t) +:+ u = s +:+ (t +:+ u).
Proof.
  induction s as [|c s IH]; [reflexivity|].
  rewrite !append_cons. by rewrite IH.
Qed.

Lemma truthy_append_l (s t : string) : Py.truthy s = true -> Py.truthy (s +:+ t) = true.
Proof. by destruct s. Qed.

Lemma truthy_cons_append (c : ascii) (s t : string) : Py.truthy (String c s +:+ t) = true.
Proof. reflexivity. Qed.


Lemma lower_char_not_upper (c : ascii) : Py.is_upper (Py.lower_char c) = false.
Proof. by destruct c as [[] [] [] [] [] [] [] []]. Qed.

Lemma no_upper_lower (s : string) : no_upper (Py.lower s).
Proof.
  unfold no_upper. induction s as [|c s IH]; [reflexivity|].
  simpl. by rewrite lower_char_not_upper, IH.
Qed.

Lemma no_upper_tail (c : ascii) (s : string) : no_upper (String c s) -> no_upper s.
Proof. unfold no_upper. simpl. by intros [_ ?]%andb_prop. Qed.

Lemma no_upper_take (s : string) (n : nat) : no_upper s -> no_upper (Py.take n s).
Proof.
  unfold no_upper. revert s. induction n as [|n IH]; intros [|c s]; simpl; try done.
  intros [Hc Hs]%andb_prop. by rewrite Hc, IH.
Qed.

Lemma no_upper_rstrip_by (p : ascii -> bool) (s : string) :
  no_upper s -> no_upper (Py.rstrip_by p s).
Proof.
  unfold no_upper. induction s as [|c s IH]; simpl; [done|].
  intros [Hc Hs]%andb_prop. specialize (IH Hs).
  destruct (Py.rstrip_by p s) as [|c' r].
  - destruct (p c); simpl; [done|]. by rewrite Hc.
  - simpl in *. by rewrite Hc, IH.
Qed.



Lemma lower_char_fixed (c : ascii) : Py.is_upper c = false -> Py.lower_char c = c.
Proof. unfold Py.lower_char. by intros ->. Qed.

(** Lower-casing changes nothing in a string without upper-case letters. *)
Lemma lower_fixed (s : string) : no_upper s -> Py.lower s = s.
Proof.
  unfold no_upper. induction s as [|c s IH]; simpl; [done|].
  intros [Hc Hs]%andb_prop. apply negb_true_iff in Hc.
  by rewrite (lower_char_fixed c Hc), IH.
Qed.



End StringFacts.

(** The matcher only ever looks at the subject it is given: what is left to
    match is a tail of it and every group is cut out of it. [Q] is a
    property of subjects kept by tails and [R] the property of groups it
    gives. *)
Section PatternFacts.
Import Re.

Variables (Q R : string -> Prop).
Hypothesis Q_tail : forall c s, Q (String c s) -> Q s.
Hypothesis Q_take : forall s n, Q s -> R (Py.take n s).


Lemma rep_from_ok (step : mstate -> list mstate) :
  (forall st, state_ok Q R st -> Forall (state_ok Q R) (step st)) ->
  forall fuel lo hi greedy st,
    state_ok Q R st -> Forall (state_ok Q R) (rep_from step fuel lo hi greedy st).
Proof using Type.
  intros Hstep fuel. induction fuel as [|fuel IH]; intros lo hi greedy st Hst.
  - simpl. destruct greedy, lo; simpl; auto.
  - assert (Hstop : Forall (state_ok Q R) (match lo with 0 => [st] | S _ => [] end)).
    { destruct lo; auto. }
    assert (Hmore : Forall (state_ok Q R)
              (match hi with
               | Some 0 => []
               | _ => flat_map
                        (fun st' =>
                           if String.length (fst st') <? String.length (fst st)
                           then rep_from step fuel (pred lo) (pred <$> hi) greedy st'
                           else []) (step st)
               end)).
    { assert (Hfm : Forall (state_ok Q R)
                (flat_map
                   (fun st' =>
                      if String.length (fst st') <? String.length (fst st)
                      then rep_from step fuel (pred lo) (pred <$> hi) greedy st'
                      else []) (step st))).
      { apply Forall_flat_map. eapply Forall_impl; [apply Hstep, Hst|].
        intros st' Hst'. simpl. destruct (_ <? _); auto. }
      destruct hi as [[|h]|]; auto. }
    simpl. destruct greedy; apply Forall_app; auto.
Qed.

Lemma run_re_ok (ic : bool) (r : regex) :
  forall st, state_ok Q R st -> Forall (state_ok Q R) (run_re ic r st).
Proof using Q_tail Q_take.
  induction r as [|c|p|a IHa b IHb|a IHa b IHb|lo hi greedy a IHa|i a IHa|];
    intros [s gs] [Hs Hgs].
  - by repeat constructor.
  - simpl. destruct s as [|x s']; [constructor|].
    destruct (char_matches ic c x); repeat constructor; eauto.
  - simpl. destruct s as [|x s']; [constructor|].
    destruct (class_matches ic p x); repeat constructor; eauto.
  - simpl. apply Forall_flat_map. eapply Forall_impl; [by apply IHa|]. auto.
  - simpl. apply Forall_app. split; [by apply IHa | by apply IHb].
  - change (Forall (state_ok Q R)
              (rep_from (run_re ic a) (S (String.length s)) lo hi greedy (s, gs))).
    apply rep_from_ok; [done | by split].
  - simpl. apply Forall_map. eapply Forall_impl; [by apply (IHa (s, gs))|].
    intros [s' gs'] [Hs' Hgs']. split; simpl; [done|].
    constructor; [|done]. simpl. by apply Q_take.
  - simpl. destruct (at_end s); repeat constructor; done.
Qed.

Lemma search_from_groups (ic : bool) (r : regex) (s : string) (pos : nat) (m : match_obj) :
  Q s -> search_from ic r s pos = Some m -> Forall (fun g => R (snd g)) (m_groups m).
Proof using Q_tail Q_take.
  assert (Hinit : forall s', Q s' -> state_ok Q R (s', [])).
  { intros s' Hs'. split; [done | constructor]. }
  revert pos. induction s as [|c s IH]; intros pos Hs; simpl.
  - pose proof (run_re_ok ic r _ (Hinit _ Hs)) as Hok.
    destruct (run_re ic r (EmptyString, [])) as [|[rest gs] l]; [done|].
    intros [= <-]. simpl. by apply Forall_cons in Hok as [[_ ?] _].
  - pose proof (run_re_ok ic r _ (Hinit _ Hs)) as Hok.
    destruct (run_re ic r (String c s, [])) as [|[rest gs] l]; [eauto|].
    intros [= <-]. simpl. by apply Forall_cons in Hok as [[_ ?] _].
Qed.

Lemma lookup_group_ok (i : nat) (gs : list (nat * string)) (v : string) :
  Forall (fun g => R (snd g)) gs -> lookup_group i gs = Some v -> R v.
Proof using Type.
  induction 1 as [|[j w] gs Hw _ IH]; simpl; [done|].
  destruct (i =? j); [by intros [= <-] | done].
Qed.

(** The group that [first_match] extracts from a subject with [Q]. *)
Lemma first_match_ok (ic : bool) (patterns : list regex) (s v : string) :
  Q s -> Parser.first_match ic patterns s = Some v -> R v.
Proof using Q_tail Q_take.
  intros Hs. induction patterns as [|p ps IH]; simpl; [done|].
  destruct (search_from ic p s 0) as [m|] eqn:Hm; [|done].
  intros Hg. eapply lookup_group_ok; [|exact Hg].
  by eapply search_from_groups.
Qed.


End PatternFacts.

(** ** Facts about the parser *)

Section ParserFacts.
Import Parser.


(** A group matched in the lower-cased instruction has no upper-case
    letter. *)
Lemma lowered_group (patterns : list Re.regex) (s v : string) :
  first_match false patterns (Py.lower s) = Some v -> no_upper v.
Proof.
  apply (first_match_ok no_upper no_upper no_upper_tail no_upper_take).
  apply no_upper_lower.
Qed.


(** With random data out of play [_get_field_value] is [provided]. *)
Lemma get_field_value_off (E : env) (field : string) (fields : gmap string string)
    (site : string) (t : nat) :
  use_random_data E && RANDOM_DATA_AVAILABLE E = false ->
  _get_field_value E field fields site t = (provided field fields, t).
Proof.
  intros Hoff. unfold _get_field_value. rewrite Hoff.
  by destruct (provided field fields).
Qed.

Lemma nonempty_provided (field : string) (fields : gmap string string) :
  nonempty (provided field fields) = provided field fields.
Proof.
  unfold provided. destruct (fields !! field) as [v|]; [|done].
  destruct (Py.truthy v) eqn:Hv; [|done]. simpl. by rewrite Hv.
Qed.

Lemma login_credentials_off (E : env) (site : string) (fields : gmap string string)
    (t : nat) :
  use_random_data E && RANDOM_DATA_AVAILABLE E = false ->
  login_credentials E site fields t =
  ((match provided "email" fields with
    | Some v => Some v
    | None => provided "username" fields
    end, provided "password" fields), t).
Proof.
  intros Hoff. unfold login_credentials, bind, ret.
  rewrite (get_field_value_off E "email") by done.
  rewrite nonempty_provided.
  destruct (provided "email" fields); by rewrite !get_field_value_off.
Qed.

Lemma detect_action_type_empty : _detect_action_type (Py.lower EmptyString) = "unknown".
Proof. reflexivity. Qed.

End ParserFacts.



Section ExtractionFacts.
Import Parser.


End ExtractionFacts.


Section ErrorFacts.
Import Parser.

Ltac no_error :=
  unfold no_error;
  repeat first
    [ apply Forall_nil_2
    | apply Forall_cons_2; [reflexivity|]
    | apply Forall_app_2 ].

Lemma no_error_search (instruction instruction_lower site : string)
    (fields : gmap string string) :
  no_error (_handle_search instruction instruction_lower site fields).
Proof.
  unfold _handle_search.
  destruct (Py.truthy _); [|no_error].
  destruct (_ || _); [|no_error].
  destruct (mem site _); no_error.
Qed.

Lemma no_error_login_steps (email password site : string) :
  no_error
    (if mem site ["twitter"; "x.com"] then _handle_twitter_login email password site
     else if String.eqb site "facebook" then _handle_facebook_login email password site
     else if String.eqb site "linkedin" then _handle_linkedin_login email password site
     else _handle_generic_login email password site).
Proof.
  destruct (mem site _); [no_error|].
  destruct (String.eqb site "facebook"); [no_error|].
  destruct (String.eqb site "linkedin"); [no_error|].
  unfold _handle_generic_login. destruct (Py.contains _ _); no_error.
Qed.

Lemma no_error_signup_steps (fields : gmap string string) (site : string) :
  no_error
    (if mem site ["twitter"; "x.com"] then _handle_twitter_signup fields site
     else if String.eqb site "facebook" then _handle_facebook_signup fields site
     else if String.eqb site "linkedin" then _handle_linkedin_signup fields site
     else _handle_generic_signup fields site).
Proof.
  destruct (mem site _); [no_error|].
  destruct (String.eqb site "facebook"); [no_error|].
  destruct (String.eqb site "linkedin"); [no_error|].
  unfold _handle_generic_signup. destruct (Py.truthy _); no_error.
Qed.

Lemma compiled_login (E : env) (instruction instruction_lower site : string)
    (fields : gmap string string) (t : nat) :
  compiled (fst (_handle_login E instruction instruction_lower site fields t)).
Proof.
  unfold _handle_login, bind.
  destruct (login_credentials E site fields t) as [[email password] t'].
  simpl fst. simpl snd.
  destruct (login_missing email password) as [|m ms] eqn:Hmissing; simpl.
  - left. do 2 (apply Forall_cons_2; [reflexivity|]). apply no_error_login_steps.
  - right. eexists. split; [reflexivity|].
    apply login_error; [reflexivity | done].
Qed.

Lemma compiled_signup (E : env) (instruction instruction_lower site : string)
    (fields : gmap string string) (t : nat) :
  compiled (fst (_handle_signup E instruction instruction_lower site fields t)).
Proof.
  unfold _handle_signup, bind.
  destruct (resolve_fields E _ fields site ∅ t) as [generated t1].
  destruct (if String.eqb site "linkedin" then _ else _) as [generated' t2] eqn:Hsecond.
  match goal with
  | |- context [filter ?P ?l] => destruct (filter P l) as [|m ms] eqn:Hmissing
  end; simpl.
  - left. do 2 (apply Forall_cons_2; [reflexivity|]). apply no_error_signup_steps.
  - right. eexists. split; [reflexivity|].
    apply signup_error; [reflexivity | reflexivity | done].
Qed.

Lemma compiled_navigation (instruction instruction_lower site : string)
    (fields : gmap string string) :
  compiled (_handle_navigation instruction instruction_lower site fields).
Proof.
  unfold _handle_navigation.
  destruct (negb _); [left; no_error|].
  destruct (Re.search _ _); [left; no_error|].
  right. eexists. split; [reflexivity|].
  by apply not_understood_error.
Qed.

Lemma compiled_parse (E : env) (instruction : string) : compiled (parse E instruction).
Proof.
  unfold parse. destruct (negb _).
  { right. eexists. split; [reflexivity | constructor]. }
  unfold _parse_simple.
  destruct (String.eqb _ "search"); [left; apply no_error_search|].
  destruct (String.eqb _ "login"); [apply compiled_login|].
  destruct (String.eqb _ "signup"); [apply compiled_signup|].
  destruct (String.eqb _ "navigate"); [apply compiled_navigation|].
  destruct (negb _); [left; no_error|].
  right. eexists. split; [reflexivity|].
  by apply not_understood_error.
Qed.

End ErrorFacts.

Section CauseFacts.
Import Parser.

(** The error of a login: the fields that are missing, and the key
    "details". *)
Lemma login_error_shape (E : env) (instruction instruction_lower site : string)
    (fields : gmap string string) (t : nat) (e : action_data) :
  e ∈ fst (_handle_login E instruction instruction_lower site fields t) ->
  is_error e = true ->
  exists msg missing,
    Py.truthy msg = true /\ missing <> [] /\
    e = error_action msg (Some missing)
          (Some ("Required: " +:+ Py.join ", " missing)) None.
Proof.
  unfold _handle_login, bind.
  destruct (login_credentials E site fields t) as [[email password] t'].
  simpl fst. simpl snd.
  destruct (login_missing email password) as [|m ms] eqn:Hmissing; simpl.
  - intros Hin Herr. exfalso.
    assert (Hnone : no_error
              (navigate
                 match config_of site with
                 | Some c => default (url c) (login_url c)
                 | None => _get_site_url site
                 end
               :: wait 5
               :: (if mem site ["twitter"; "x.com"]
                   then _handle_twitter_login (default EmptyString email)
                          (default EmptyString password) site
                   else if String.eqb site "facebook"
                   then _handle_facebook_login (default EmptyString email)
                          (default EmptyString password) site
                   else if String.eqb site "linkedin"
                   then _handle_linkedin_login (default EmptyString email)
                          (default EmptyString password) site
                   else _handle_generic_login (default EmptyString email)
                          (default EmptyString password) site))).
    { do 2 (apply Forall_cons_2; [reflexivity|]). apply no_error_login_steps. }
    unfold no_error in Hnone. rewrite Forall_forall in Hnone.
    apply Hnone in Hin. congruence.
  - intros Hin _. apply list_elem_of_singleton in Hin as ->.
    eexists _, (m :: ms). split; [|split; [|reflexivity]]; done.
Qed.

(** The error of a signup: the fields that are missing, and a suggestion. *)
Lemma signup_error_shape (E : env) (instruction instruction_lower site : string)
    (fields : gmap string string) (t : nat) (e : action_data) :
  e ∈ fst (_handle_signup E instruction instruction_lower site fields t) ->
  is_error e = true ->
  exists msg missing suggestion,
    Py.truthy msg = true /\ missing <> [] /\ Py.truthy suggestion = true /\
    e = error_action msg (Some missing) None (Some suggestion).
Proof.
  unfold _handle_signup, bind.
  destruct (resolve_fields E _ fields site ∅ t) as [generated t1].
  destruct (if String.eqb site "linkedin" then _ else _) as [generated' t2].
  match goal with
  | |- context [filter ?P ?l] => destruct (filter P l) as [|m ms]
  end; simpl.
  - intros Hin Herr. exfalso.
    apply elem_of_cons in Hin as [->|Hin]; [done|].
    apply elem_of_cons in Hin as [->|Hin]; [done|].
    pose proof (no_error_signup_steps generated' site) as Hnone.
    unfold no_error in Hnone. rewrite Forall_forall in Hnone.
    apply Hnone in Hin. congruence.
  - intros Hin _. apply list_elem_of_singleton in Hin as ->.
    eexists _, (m :: ms), _. split; [|split; [|split; [|reflexivity]]]; done.
Qed.

(** The error of a navigation: no address in the instruction. *)
Lemma navigation_error_shape (instruction instruction_lower site : string)
    (fields : gmap string string) (e : action_data) :
  e ∈ _handle_navigation instruction instruction_lower site fields ->
  is_error e = true ->
  e = error_action ("Could not find URL in: " +:+ instruction) None None
        (Some "Try: 'go to google.com' or 'open wikipedia.org'").
Proof.
  unfold _handle_navigation.
  destruct (negb _).
  { intros Hin Herr. exfalso.
    repeat (apply elem_of_cons in Hin as [->|Hin]; [done|]). by apply elem_of_nil in Hin. }
  destruct (Re.search _ _).
  { intros Hin Herr. exfalso.
    repeat (apply elem_of_cons in Hin as [->|Hin]; [done|]). by apply elem_of_nil in Hin. }
  intros Hin _. by apply list_elem_of_singleton in Hin as ->.
Qed.

Lemma detect_action_type_cases (instruction_lower : string) :
  _detect_action_type instruction_lower ∈
    ["search"; "login"; "signup"; "navigate"; "unknown"].
Proof.
  unfold _detect_action_type.
  repeat match goal with
  | |- context [any_in ?kws ?s] => destruct (any_in kws s)
  end; set_solver.
Qed.

End CauseFacts.


Section CredentialFacts.
Import Parser.

Lemma provided_truthy (field : string) (fields : gmap string string) (v : string) :
  provided field fields = Some v -> Py.truthy v = true.
Proof.
  unfold provided. destruct (fields !! field) as [w|]; [|done].
  destruct (Py.truthy w) eqn:Hw; [|done]. by intros [= <-].
Qed.

(** A value the user provided is used, whatever the random data setting. *)
Lemma get_field_value_provided (E : env) (field : string) (fields : gmap string string)
    (site : string) (t : nat) (v : string) :
  provided field fields = Some v ->
  _get_field_value E field fields site t = (Some v, t).
Proof. intros Hv. unfold _get_field_value. by rewrite Hv. Qed.

Lemma nth_char_truthy (n : nat) (s : string) :
  n < String.length s -> Py.truthy (nth_char n s) = true.
Proof.
  revert n. induction s as [|c s IH]; intros n; simpl; [lia|].
  destruct n as [|n]; [done|]. intros Hn. apply IH. lia.
Qed.

Lemma choices_truthy (E : env) (alphabet : string) (k t : nat) :
  0 < String.length alphabet ->
  Py.truthy (fst (choices E alphabet (S k) t)) = true.
Proof.
  intros Hlen. simpl. destruct (choices E alphabet k (S t)) as [r t'].
  simpl. apply truthy_append_l, nth_char_truthy.
  apply Nat.mod_upper_bound. lia.
Qed.

(** The random e-mail and the random password are never empty. *)
Lemma generate_email_truthy (E : env) (site : string) (t : nat) :
  Py.truthy (fst (generate E "email" site t)) = true.
Proof.
  unfold generate. change (String.eqb "email" "email") with true. cbv iota.
  unfold bind, ret, now.
  destruct (choices E lower_alnum 10 (S t)) as [random_str t1].
  destruct (choice E domains t1) as [domain t2]. simpl fst.
  destruct (String.eqb site "linkedin"); [done|].
  by destruct (String.eqb site "twitter").
Qed.


(** With random data in play, a field that [generate] never leaves empty is
    always resolved. *)
Lemma get_field_value_on (E : env) (field : string) (fields : gmap string string)
    (site : string) (t : nat) :
  use_random_data E && RANDOM_DATA_AVAILABLE E = true ->
  (forall t', Py.truthy (fst (generate E field site t')) = true) ->
  exists v t', _get_field_value E field fields site t = (Some v, t') /\ Py.truthy v = true.
Proof.
  intros Hon Hgen. unfold _get_field_value.
  destruct (provided field fields) as [v|] eqn:Hv.
  - exists v, t. split; [done|]. by eapply provided_truthy.
  - rewrite Hon. unfold bind, ret. specialize (Hgen t).
    destruct (generate E field site t) as [v t']. by exists v, t'.
Qed.



(** A provided field that is asked for ends up in the dictionary of resolved
    fields, and stays there. *)
Lemma resolve_fields_provided (E : env) (k v : string) (fields : gmap string string)
    (site : string) (l : list string) :
  provided k fields = Some v ->
  forall (init : gmap string string) (t : nat),
    In k l \/ init !! k = Some v ->
    fst (resolve_fields E l fields site init t) !! k = Some v.
Proof.
  intros Hv. induction l as [|f rest IH]; intros init t Hk; simpl.
  - by destruct Hk.
  - unfold bind. destruct (decide (f = k)) as [->|Hne].
    + rewrite (get_field_value_provided E k fields site t v Hv).
      unfold nonempty. rewrite (provided_truthy _ _ _ Hv).
      apply IH. right. apply lookup_insert_eq.
    + destruct (_get_field_value E f fields site t) as [value t1].
      apply IH. destruct Hk as [[?|Hin]|Hinit]; [done | by left | right].
      destruct (nonempty value); [by rewrite lookup_insert_ne | done].
  Qed.

(** Every list of required signup fields asks for the password. *)
Lemma password_required (site : string) :
  In "password"
    (match config_of site with
     | Some c => default ["email"; "password"] (signup_fields c)
     | None => ["email"; "password"]
     end).
Proof.
  unfold config_of, site_configs, assoc.
  repeat match goal with
  | |- context [String.eqb site ?k] => destruct (String.eqb site k); [simpl; tauto|]
  end.
  simpl. tauto.
Qed.

End CredentialFacts.

Section PlacementFacts.
Import Parser.










End PlacementFacts.

Section KindFacts.
Import Parser.



(** *** The kind username *)









(** *** The kinds name, first_name and last_name *)











End KindFacts.

(** ** The compiler: claims *)




(** The kinds of the actions compiled are not the five the scenario lists. *)
Lemma C6_counterexample :
  map a_action (Parser.parse Scenario.env_off "search apples on google") <>
  [Some "navigate"; Some "wait"; Some "search"; Some "wait"; Some "validate_page"].
Proof. vm_compute. discriminate. Qed.

(** C6 (amended). Without random data, "search apples on google" compiles
    to four actions: navigate to the Google base URL, wait, search for
    "apples" with Google's search selectors, wait. No validation follows: the
    search handler appends one only with the add-to-cart steps. *)
Theorem C6_search_apples_on_google (available : bool)
    (get_random_data : nat -> string -> string) (clock : nat -> Z) (dice : nat -> nat) :
  Parser.parse (Parser.Env false available get_random_data clock dice)
    "search apples on google" =
  [navigate "https://google.com";
   wait 3;
   search_action "apples" "textarea[name='q'], input[name='q']" "Search for apples on google";
   wait 3].
Proof. vm_compute. reflexivity. Qed.

(** The error for a blank instruction has no missing fields and no
    suggestion. *)
Lemma C8_counterexample :
  exists e, Parser.parse Scenario.env_off "   " = [e] /\ is_error e = true /\
            a_missing_fields e = None /\ a_suggestion e = None.
Proof. eexists. repeat split; vm_compute; reflexivity. Qed.

(** C8 (amended). Every error the compiler returns is the only element of
    the list and carries a message that is not empty. What else it carries
    goes by its cause. The error for an empty instruction carries nothing
    else. The error of a login that lacks a credential carries the list of
    the missing fields, which is not empty, and the key "details" in place
    of a suggestion. The error of a signup that lacks fields carries the
    list of the missing fields, which is not empty, and a suggestion. The
    error of a navigation without an address and the error for an
    instruction that was not understood carry a suggestion and no list. So
    the list of missing fields is there exactly for the login and the
    signup errors, the suggestion exactly for the signup, the navigation
    and the not-understood errors, and "details" exactly for the login
    error. An instruction classified as search never gives an error. *)
Theorem C8_compile_error_contract (E : Parser.env) (instruction : string) (e : action_data) :
  let text := Py.strip instruction in
  let action_type := Parser._detect_action_type (Py.lower text) in
  e ∈ Parser.parse E instruction -> is_error e = true ->
  Parser.parse E instruction = [e] /\
  (exists msg, a_error e = Some msg /\ Py.truthy msg = true) /\
  ((text = EmptyString /\
    e = error_action "Empty instruction" None None None) \/
   (action_type = "login" /\
    exists msg missing,
      Py.truthy msg = true /\ missing <> [] /\
      e = error_action msg (Some missing)
            (Some ("Required: " +:+ Py.join ", " missing)) None) \/
   (action_type = "signup" /\
    exists msg missing suggestion,
      Py.truthy msg = true /\ missing <> [] /\ Py.truthy suggestion = true /\
      e = error_action msg (Some missing) None (Some suggestion)) \/
   (action_type = "navigate" /\
    e = error_action ("Could not find URL in: " +:+ text) None None
          (Some "Try: 'go to google.com' or 'open wikipedia.org'")) \/
   (text <> EmptyString /\ action_type = "unknown" /\
    e = error_action ("Could not understand: " +:+ text) None None
          (Some "Try: 'login to facebook with email test@mail.com password pass123' or 'search laptop on amazon'"))) /\
  (a_missing_fields e <> None <-> action_type = "login" \/ action_type = "signup") /\
  (a_suggestion e <> None <->
   action_type = "signup" \/ action_type = "navigate" \/
   (text <> EmptyString /\ action_type = "unknown")) /\
  (a_details e <> None <-> action_type = "login").
Proof.
  intros text action_type Hin Herr.
  assert (Hone : Parser.parse E instruction = [e]).
  { destruct (compiled_parse E instruction) as [Hnone | (e' & Hparse & _)].
    - unfold no_error in Hnone. rewrite Forall_forall in Hnone.
      apply Hnone in Hin. congruence.
    - rewrite Hparse in Hin. by apply list_elem_of_singleton in Hin as ->. }
  assert (Hcause :
    (text = EmptyString /\
     e = error_action "Empty instruction" None None None) \/
    (action_type = "login" /\
     exists msg missing,
       Py.truthy msg = true /\ missing <> [] /\
       e = error_action msg (Some missing)
             (Some ("Required: " +:+ Py.join ", " missing)) None) \/
    (action_type = "signup" /\
     exists msg missing suggestion,
       Py.truthy msg = true /\ missing <> [] /\ Py.truthy suggestion = true /\
       e = error_action msg (Some missing) None (Some suggestion)) \/
    (action_type = "navigate" /\
     e = error_action ("Could not find URL in: " +:+ text) None None
           (Some "Try: 'go to google.com' or 'open wikipedia.org'")) \/
    (text <> EmptyString /\ action_type = "unknown" /\
     e = error_action ("Could not understand: " +:+ text) None None
           (Some "Try: 'login to facebook with email test@mail.com password pass123' or 'search laptop on amazon'"))).
  { revert Hin. unfold Parser.parse. fold text.
    destruct (Py.truthy text) eqn:Htext; simpl negb; cbv iota.
    2:{ intros Hin. apply list_elem_of_singleton in Hin as ->. left.
        split; [by destruct text|done]. }
    assert (Hne : text <> EmptyString) by (by intros Heq; rewrite Heq in Htext).
    unfold Parser._parse_simple. fold action_type.
    destruct (String.eqb action_type "search") eqn:Hsearch.
    { intros Hin. exfalso.
      pose proof (no_error_search text (Py.lower text)
                    (Parser._detect_site (Py.lower text))
                    (Parser.extract_fields text)) as Hnone.
      unfold no_error in Hnone. rewrite Forall_forall in Hnone.
      apply Hnone in Hin. congruence. }
    destruct (String.eqb action_type "login") eqn:Hlogin.
    { apply String.eqb_eq in Hlogin. intros Hin. right; left. split; [done|].
      by eapply login_error_shape. }
    destruct (String.eqb action_type "signup") eqn:Hsignup.
    { apply String.eqb_eq in Hsignup. intros Hin. right; right; left. split; [done|].
      by eapply signup_error_shape. }
    destruct (String.eqb action_type "navigate") eqn:Hnavigate.
    { apply String.eqb_eq in Hnavigate. intros Hin. right; right; right; left.
      split; [done|]. exact (navigation_error_shape text (Py.lower text) _ _ e Hin Herr). }
    assert (Hunknown : action_type = "unknown").
    { pose proof (detect_action_type_cases (Py.lower text)) as Hcases.
      fold action_type in Hcases.
      apply String.eqb_neq in Hsearch, Hlogin, Hsignup, Hnavigate.
      repeat (apply elem_of_cons in Hcases as [Hcase|Hcases]; [done|]).
      by apply elem_of_nil in Hcases. }
    destruct (negb _).
    { intros Hin. apply list_elem_of_singleton in Hin as ->. done. }
    intros Hin. apply list_elem_of_singleton in Hin as ->.
    right; right; right; right. done. }
  split; [done|].
  assert (Hempty : text = EmptyString -> action_type = "unknown").
  { intros Heq. unfold action_type. by rewrite Heq. }
  destruct Hcause as [[Htext ->]|[[Htype (msg & missing & Hmsg & Hmissing & ->)]
    |[[Htype (msg & missing & suggestion & Hmsg & Hmissing & Hsg & ->)]
    |[[Htype ->]|(Hne & Htype & ->)]]]]; simpl.
  - split; [by eexists|]. split; [by left|]. rewrite (Hempty Htext).
    repeat split; intros H; try done; intuition congruence.
  - split; [by eexists|]. split; [right; left; split; [done|]; by exists msg, missing|].
    rewrite Htype. repeat split; intros H; try done; intuition congruence.
  - split; [by eexists|].
    split; [right; right; left; split; [done|]; by exists msg, missing, suggestion|].
    rewrite Htype. repeat split; intros H; try done; intuition congruence.
  - split; [by eexists|]. split; [right; right; right; left; done|].
    rewrite Htype. repeat split; intros H; try done; intuition congruence.
  - split; [by eexists|]. split; [right; right; right; right; done|].
    rewrite Htype. repeat split; intros H; try done; intuition congruence.
Qed.

(** A navigation without an address. *)
Lemma C8_witness :
  Parser.parse Scenario.env_off "go to my place" =
  [error_action "Could not find URL in: go to my place" None None
     (Some "Try: 'go to google.com' or 'open wikipedia.org'")].
Proof.
  assert (Hin : error_action "Could not find URL in: go to my place" None None
                  (Some "Try: 'go to google.com' or 'open wikipedia.org'")
                ∈ Parser.parse Scenario.env_off "go to my place").
  { vm_compute. constructor. }
  exact (proj1 (C8_compile_error_contract Scenario.env_off "go to my place" _ Hin eq_refl)).
Defined.

(** C9. Without random data, "signup on linkedin" is refused with the
    missing fields first_name, last_name, email, password, in that order. *)
Theorem C9_signup_linkedin_missing_fields (available : bool)
    (get_random_data : nat -> string -> string) (clock : nat -> Z) (dice : nat -> nat) :
  Parser.parse (Parser.Env false available get_random_data clock dice) "signup on linkedin" =
  [error_action
     "Signup failed: Missing required fields: first_name, last_name, email, password. Enable 'Use Random Data' to auto-fill missing fields."
     (Some ["first_name"; "last_name"; "email"; "password"])
     None
     (Some "For linkedin signup, you need: first_name, last_name, email, password")].
Proof. vm_compute. reflexivity. Qed.




(** ** Facts about the engine *)

Section FallbackFacts.
Context {Page : Type} (W : world Page).


Lemma try_each_app {A} (op : string -> Page -> option A * Page)
    (l1 l2 : list string) (pg : Page) :
  try_each op (l1 ++ l2) pg =
  match try_each op l1 pg with
  | (Some r, tried, pg') => (Some r, tried, pg')
  | (None, tried1, pg1) =>
      let '(r2, tried2, pg2) := try_each op l2 pg1 in (r2, tried1 ++ tried2, pg2)
  end.
Proof.
  revert pg. induction l1 as [|sel l1 IH]; intros pg; simpl.
  - by destruct (try_each op l2 pg) as [[r tried] pg'].
  - destruct (op sel pg) as [[r|] pg']; [done|].
    rewrite IH. destruct (try_each op l1 pg') as [[[r1|] tried1] pg1]; [done|].
    by destruct (try_each op l2 pg1) as [[r2 tried2] pg2].
Qed.

(** A property of every result an operation returns holds of the result
    of the first success. *)
Lemma try_each_result {A} (P : A -> Prop) (op : string -> Page -> option A * Page)
    (cands : list string) (pg : Page) (r : A) :
  (forall sel pg r, fst (op sel pg) = Some r -> P r) ->
  fst (fst (try_each op cands pg)) = Some r -> P r.
Proof.
  intros Hop. revert pg. induction cands as [|sel rest IH]; intros pg; simpl; [done|].
  destruct (op sel pg) as [[r'|] pg'] eqn:Hsel; simpl.
  - intros [= <-]. apply (Hop sel pg). by rewrite Hsel.
  - specialize (IH pg'). by destruct (try_each op rest pg') as [[r'' tried] pg''].
Qed.

Lemma perform_type_passed (value field_type sel : string) (pg : Page) (r : step_result) :
  fst (_perform_type W value field_type sel pg) = Some r ->
  r_action r = "type" /\ r_status r = "Passed".
Proof.
  unfold _perform_type. destruct (type_into W sel value pg) as [[] pg']; [|done].
  by intros [= <-].
Qed.

Lemma search_with_passed (query sel : string) (pg : Page) (rc : step_result * string) :
  fst (search_with W query sel pg) = Some rc ->
  r_action (fst rc) = "search" /\ r_status (fst rc) = "Passed".
Proof.
  unfold search_with. destruct (perform_search W sel query pg) as [[d|] pg']; [|done].
  destruct (extract_page_content W pg') as [content pg'']. by intros [= <-].
Qed.

Lemma click_with_passed (text sel : string) (pg : Page) (r : step_result) :
  fst (click_with W text sel pg) = Some r ->
  r_action r = "click" /\ r_status r = "Passed".
Proof.
  unfold click_with. destruct (click_strategy W sel pg) as [[] pg']; [|done].
  by intros [= <-].
Qed.

Lemma try_each_app3 {A} (op : string -> Page -> option A * Page)
    (l1 l2 l3 : list string) (pg : Page) :
  try_each op (l1 ++ l2 ++ l3) pg =
  match try_each op l1 pg with
  | (Some r, tried, pg') => (Some r, tried, pg')
  | (None, tried1, pg1) =>
      match try_each op l2 pg1 with
      | (Some r, tried2, pg2) => (Some r, tried1 ++ tried2, pg2)
      | (None, tried2, pg2) =>
          let '(r3, tried3, pg3) := try_each op l3 pg2 in
          (r3, tried1 ++ tried2 ++ tried3, pg3)
      end
  end.
Proof.
  rewrite try_each_app.
  destruct (try_each op l1 pg) as [[[r1|] t1] pg1]; [done|].
  rewrite try_each_app.
  destruct (try_each op l2 pg1) as [[[r2|] t2] pg2]; [done|].
  by destruct (try_each op l3 pg2) as [[r3 t3] pg3].
Qed.

Local Arguments try_each : simpl never.

Ltac split_attempts :=
  repeat match goal with
  | |- context [try_each ?op ?l ?p] =>
      destruct (try_each op l p) as [[[?|] ?] ?]; cbv beta iota zeta; try reflexivity
  | |- context [generic_input W ?v ?p] =>
      destruct (generic_input W v p) as [[] ?]; cbv beta iota zeta; try reflexivity
  end.

(** [_execute_type] is one pass over [type_candidates], then the generic
    input. *)
Lemma execute_type_unfold (a : action_data) (field_type : string) (pg : Page) :
  let selector := default EmptyString (a_selector a) in
  let value := default EmptyString (a_value a) in
  let pg1 := wait_for_stability W pg in
  Py.truthy value = true ->
  _execute_type W a field_type pg =
  match try_each (_perform_type W value field_type)
          (type_candidates (page_url W pg1) selector field_type) pg1 with
  | (Some r, tried, pg2) => (r, tried, pg2)
  | (None, tried, pg2) =>
      match generic_input W value pg2 with
      | (true, pg3) =>
          (result "type" "Passed" ("Typed " +:+ field_type +:+ ": " +:+ value), tried, pg3)
      | (false, pg3) =>
          (result "type" "Failed" ("Input field for " +:+ field_type +:+ " not found"),
           tried, pg3)
      end
  end.
Proof.
  cbv zeta. intros Hvalue.
  unfold _execute_type, type_candidates. rewrite Hvalue.
  simpl negb. cbv iota zeta.
  rewrite try_each_app3.
  destruct (String.eqb field_type "email" && Py.contains "linkedin" _);
    destruct (Py.truthy (default EmptyString (a_selector a)));
    destruct (Parser.assoc field_type field_selectors) as [sels|];
    try destruct (Py.truthy field_type);
    change (@try_each Page step_result
              (_perform_type W (default EmptyString (a_value a)) field_type) [])
      with (fun pg : Page => (@None step_result, @nil attempt, pg));
    cbv beta iota zeta; split_attempts.
Qed.

Lemma execute_search_unfold (a : action_data) (st : exec_state) (pg : Page) :
  let selector := default EmptyString (a_selector a) in
  let query := default EmptyString (a_query a) in
  let pg1 := wait_for_stability W pg in
  Py.truthy query = true ->
  _execute_search W a st pg =
  match try_each (search_with W query) (search_candidates selector) pg1 with
  | (Some (r, content), tried, pg2) => (r, tried, set_content content st, pg2)
  | (None, tried, pg2) => (result "search" "Failed" "Search box not found", tried, st, pg2)
  end.
Proof.
  cbv zeta. intros Hquery.
  unfold _execute_search, search_candidates. rewrite Hquery.
  simpl negb. cbv iota zeta.
  rewrite try_each_app.
  destruct (Py.truthy (default EmptyString (a_selector a))).
  - destruct (try_each _ (split_selectors _) _) as [[[[r1 c1]|] t1] pg2];
      [reflexivity|].
    by destruct (try_each _ _ pg2) as [[[[r2 c2]|] t2] pg3].
  - change (@try_each Page (step_result * string)
              (search_with W (default EmptyString (a_query a))) [])
      with (fun pg : Page => (@None (step_result * string), @nil attempt, pg)).
    cbv beta iota.
    by destruct (try_each _ _ _) as [[[[r2 c2]|] t2] pg3].
Qed.

End FallbackFacts.

Section RunFacts.
Context {Page : Type} (W : world Page).

Lemma take_screenshot_keeps (report_id description : string) (with_analysis : bool)
    (r : step_result) (pg : Page) :
  let r' := fst (take_screenshot W report_id description with_analysis r pg) in
  r_action r' = r_action r /\ r_status r' = r_status r /\
  r_details r' = r_details r /\ r_step r' = r_step r.
Proof.
  unfold take_screenshot. destruct (screenshot_capture W); [|done].
  by destruct (capture_with_analysis W report_id description false pg) as [[| |info] pg'].
Qed.

Lemma execute_navigate_action (a : action_data) (pg : Page) :
  r_action (fst (_execute_navigate W a pg)) = "navigate".
Proof.
  unfold _execute_navigate. destruct (negb _); [done|].
  by destruct (goto W _ pg) as [[e|] pg'].
Qed.

Lemma execute_type_action (a : action_data) (field_type : string) (pg : Page) :
  r_action (fst (fst (_execute_type W a field_type pg))) = "type".
Proof.
  destruct (Py.truthy (default EmptyString (a_value a))) eqn:Hvalue.
  - rewrite execute_type_unfold by done.
    pose proof (try_each_result (fun r => r_action r = "type" /\ r_status r = "Passed")
                  (_perform_type W (default EmptyString (a_value a)) field_type)
                  (type_candidates (page_url W (wait_for_stability W pg))
                     (default EmptyString (a_selector a)) field_type)
                  (wait_for_stability W pg)) as Hresult.
    destruct (try_each _ _ _) as [[[r1|] t1] pg2]; simpl in *.
    + by destruct (Hresult r1) as [? _]; [apply perform_type_passed | |].
    + by destruct (generic_input W _ pg2) as [[] pg3].
  - unfold _execute_type. by rewrite Hvalue.
Qed.

Lemma execute_search_action (a : action_data) (st : exec_state) (pg : Page) :
  r_action (fst (fst (fst (_execute_search W a st pg)))) = "search".
Proof.
  destruct (Py.truthy (default EmptyString (a_query a))) eqn:Hquery.
  - rewrite execute_search_unfold by done.
    pose proof (try_each_result
                  (fun rc => r_action (fst rc) = "search" /\ r_status (fst rc) = "Passed")
                  (search_with W (default EmptyString (a_query a)))
                  (search_candidates (default EmptyString (a_selector a)))
                  (wait_for_stability W pg)) as Hresult.
    destruct (try_each _ _ _) as [[[[r1 c1]|] t1] pg2]; simpl in *; [|done].
    by destruct (Hresult (r1, c1)) as [? _]; [apply search_with_passed | |].
  - unfold _execute_search. by rewrite Hquery.
Qed.

Lemma execute_select_action (a : action_data) (field_type : string) (pg : Page) :
  r_action (fst (_execute_select W a field_type pg)) = "select".
Proof.
  unfold _execute_select. destruct (negb _); [done|].
  destruct (wait_for_selector W _ _) as [[] pg1]; [|done].
  destruct (select_option W _ ByValue _ pg1) as [[] pg2]; [done|].
  destruct (select_option W _ ByLabel _ pg2) as [[] pg3]; [done|].
  destruct (Py.isdigit _); [|done].
  by destruct (select_option W _ ByIndex _ pg3) as [[] pg4].
Qed.

Lemma execute_click_action (a : action_data) (pg : Page) :
  r_action (fst (fst (_execute_click W a pg))) = "click".
Proof.
  unfold _execute_click.
  pose proof (try_each_result (fun r => r_action r = "click" /\ r_status r = "Passed")
                (click_with W (default EmptyString (a_text a)))
                (click_strategies (page_url W (wait_for_stability W pg))
                   (default EmptyString (a_selector a)) (default EmptyString (a_text a)))
                (wait_for_stability W pg)) as Hresult.
  destruct (try_each _ _ _) as [[[r1|] t1] pg2]; simpl in *.
  - by destruct (Hresult r1) as [? _]; [apply click_with_passed | |].
  - destruct (Py.truthy _); [|done].
    by destruct (click_text W _ pg2) as [[] pg3].
Qed.

Lemma execute_validate_page_action (a : action_data) (en : engine) (pg : Page) :
  r_action (fst (fst (_execute_validate_page W a en pg))) = "validate_page".
Proof.
  unfold _execute_validate_page. by destruct (validate W a en pg) as [v pg'].
Qed.

(** A handler's result carries the name of the action it ran. *)
Lemma dispatch_action (a : action_data) (en en' : engine) (pg pg' : Page)
    (r : step_result) :
  dispatch W a en pg = (Returned r, en', pg') -> r_action r = action_name a.
Proof.
  unfold dispatch.
  destruct (String.eqb (action_name a) "navigate") eqn:Hnav.
  { apply String.eqb_eq in Hnav as ->.
    pose proof (execute_navigate_action a pg) as Hact.
    destruct (_execute_navigate W a pg) as [r0 pg0]. by intros [= <- _ _]. }
  destruct (String.eqb (action_name a) "search") eqn:Hsearch.
  { apply String.eqb_eq in Hsearch as ->.
    pose proof (execute_search_action a (execution_state en) pg) as Hact.
    destruct (_execute_search W a _ pg) as [[[r0 t0] st0] pg0]. by intros [= <- _ _]. }
  destruct (String.eqb (action_name a) "type") eqn:Htype.
  { apply String.eqb_eq in Htype as ->.
    pose proof (execute_type_action a (field_type_of a) pg) as Hact.
    destruct (_execute_type W a _ pg) as [[r0 t0] pg0]. by intros [= <- _ _]. }
  destruct (String.eqb (action_name a) "select") eqn:Hselect.
  { apply String.eqb_eq in Hselect as ->.
    pose proof (execute_select_action a (field_type_of a) pg) as Hact.
    destruct (_execute_select W a _ pg) as [r0 pg0]. by intros [= <- _ _]. }
  destruct (String.eqb (action_name a) "click") eqn:Hclick.
  { apply String.eqb_eq in Hclick as ->.
    pose proof (execute_click_action a pg) as Hact.
    destruct (_execute_click W a pg) as [[r0 t0] pg0]. by intros [= <- _ _]. }
  destruct (String.eqb (action_name a) "wait") eqn:Hwait.
  { apply String.eqb_eq in Hwait as ->.
    destruct (sleep_error W _); [done|]. by intros [= <- _ _]. }
  destruct (String.eqb (action_name a) "validate_page") eqn:Hvalidate.
  { apply String.eqb_eq in Hvalidate as ->.
    pose proof (execute_validate_page_action a en pg) as Hact.
    destruct (_execute_validate_page W a en pg) as [[r0 en0] pg0]. by intros [= <- _ _]. }
  destruct (String.eqb (action_name a) "info") eqn:Hinfo.
  { apply String.eqb_eq in Hinfo as ->. by intros [= <- _ _]. }
  destruct (String.eqb (action_name a) "generate_data") eqn:Hgen.
  { apply String.eqb_eq in Hgen as ->. by intros [= <- _ _]. }
  by intros [= <- _ _].
Qed.





(** The final capture appends the result page step or nothing. *)
Lemma final_capture_results (report_id : string) (s : run_state) :
  results (final_capture W report_id s) = results s \/
  exists info st,
    screenshot_capture W = true /\
    results (final_capture W report_id s) =
    results s ++ [result_page_step (S (length (results s))) info st].
Proof.
  unfold final_capture. destruct (screenshot_capture W); [|by left].
  destruct (extract_page_content W (page s)) as [content pg].
  destruct (capture_with_analysis W report_id _ true pg) as [[| |info] pg'];
    [by left | by left |].
  right. by eexists _, _.
Qed.


(** The data usage step is appended or not; it is tagged [data_summary]. *)
Lemma data_summary_results (s : @run_state Page) :
  exists tail,
    results (data_summary s) = results s ++ tail /\
    Forall (fun r => r_action r = "data_summary") tail.
Proof.
  unfold data_summary. destruct (_ || _).
  - eexists. split; [reflexivity|]. by repeat constructor.
  - exists []. by rewrite app_nil_r.
Qed.

End RunFacts.

Section LoopFacts.
Context {Page : Type} (W : world Page).

(** The selector paths of [_execute_type] mask a password. *)
Lemma perform_type_masks_password (value sel : string) (pg : Page) (r : step_result) :
  fst (_perform_type W value "password" sel pg) = Some r ->
  r_details r = "Typed password: ********".
Proof.
  unfold _perform_type. destruct (type_into W sel value pg) as [[] pg']; [|done].
  by intros [= <-].
Qed.

Lemma run_loop_cons (report_id : string) (a : action_data) (rest : list action_data)
    (n : nat) (s : run_state) :
  run_loop W report_id (a :: rest) n s =
  match dispatch W a (update_state a (eng s)) (page s) with
  | (Returned r, en, pg) =>
      let '(r, pg) :=
        take_screenshot W report_id (step_label a (S n)) true (annotate a (S n) en r) pg in
      if String.eqb (r_status r) "Failed" && negb (is_soft (action_name a))
      then RunState (results s ++ [r; execution_stopped (action_name a)]) en pg
      else run_loop W report_id rest (S n) (RunState (results s ++ [r]) en pg)
  | (Raised e, en, pg) =>
      let '(r, pg) :=
        take_screenshot W report_id (error_label a (S n)) false (error_step a (S n) e) pg in
      RunState (results s ++ [r]) en pg
  end.
Proof. reflexivity. Qed.

Lemma run_unfold (first : action_data) (rest : list action_data) (report_id : string)
    (pg : Page) :
  is_error first = false ->
  run W (first :: rest) report_id pg =
  results (data_summary
             (final_capture W report_id
                (run_loop W report_id (first :: rest) 0 (RunState [] initial_engine pg)))).
Proof. intros Hfirst. unfold run. by rewrite Hfirst. Qed.

End LoopFacts.

(** ** The engine: claims *)

(** C2. The step recorded for a Type action of field kind password shows
    the password unmasked when the generic input did the typing: no hint or
    catalog selector completes, the first [input] of the page accepts the
    text, and the details read "Typed password: hunter2". *)
Theorem C2_generic_input_shows_password :
  exists r rest,
    run (Scenario.static_world "https://example.com" [] true false)
      [type_action "#pw" "hunter2" "password" "Enter password" None] "report" tt = r :: rest /\
    r_action r = "type" /\ r_step r = Some 1 /\ r_field_type r = Some "password" /\
    r_details r = "Typed password: hunter2" /\
    Py.contains "hunter2" (r_details r) = true.
Proof. eexists _, _. repeat split; vm_compute; reflexivity. Qed.

(** A wait whose sleep is refused is a Failed step of a soft kind, and the
    wait that follows it is not run. *)
Lemma C3_counterexample :
  run (Scenario.static_world "https://example.com" [] false false)
    [wait (-1); wait 1] "report" tt =
  [StepResult "wait" "Failed" "Error: sleep length must be non-negative" (Some 1)
     None None None None None None None None false].
Proof. vm_compute. reflexivity. Qed.

(** C3 (amended). At any point of a run, when the handler of an action
    returns a step whose status is Failed: if the action is none of wait,
    validate_page, info, generate_data, the step and then a synthetic
    execution_stopped step are appended and the loop ends, whatever actions
    remain; if it is one of them, the step is appended and the loop goes on
    with the next action. (A step that is Failed because the handler raised
    is not covered: it ends the loop for every kind.) *)
Theorem C3_continuation_policy {Page : Type} (W : world Page) (report_id : string)
    (a : action_data) (rest : list action_data) (n : nat) (s : run_state)
    (r : step_result) (en : engine) (pg : Page) :
  dispatch W a (update_state a (eng s)) (page s) = (Returned r, en, pg) ->
  r_status r = "Failed" ->
  let shot :=
    take_screenshot W report_id (step_label a (S n)) true (annotate a (S n) en r) pg in
  r_status (fst shot) = "Failed" /\ r_step (fst shot) = Some (S n) /\
  r_action (fst shot) = action_name a /\
  (is_soft (action_name a) = false ->
   run_loop W report_id (a :: rest) n s =
   RunState (results s ++ [fst shot; execution_stopped (action_name a)]) en (snd shot) /\
   forall rest', run_loop W report_id (a :: rest') n s = run_loop W report_id (a :: rest) n s) /\
  (is_soft (action_name a) = true ->
   run_loop W report_id (a :: rest) n s =
   run_loop W report_id rest (S n) (RunState (results s ++ [fst shot]) en (snd shot))).
Proof.
  intros Hd Hfailed shot.
  pose proof (take_screenshot_keeps W report_id (step_label a (S n)) true
                (annotate a (S n) en r) pg) as (Hact & Hstatus & _ & Hstep).
  fold shot in Hact, Hstatus, Hstep. simpl in Hact, Hstatus, Hstep.
  rewrite Hfailed in Hstatus. apply dispatch_action in Hd as Hname.
  split; [done|]. split; [done|]. split; [congruence|].
  assert (Hloop : forall l,
    run_loop W report_id (a :: l) n s =
    if negb (is_soft (action_name a))
    then RunState (results s ++ [fst shot; execution_stopped (action_name a)]) en (snd shot)
    else run_loop W report_id l (S n) (RunState (results s ++ [fst shot]) en (snd shot))).
  { intros l. rewrite run_loop_cons, Hd. fold shot.
    destruct shot as [r' pg']. simpl in *. rewrite Hstatus.
    by change (String.eqb "Failed" "Failed") with true. }
  split.
  - intros Hhard. split; [|intros rest']; rewrite !Hloop; by rewrite Hhard.
  - intros Hsoft. rewrite Hloop. by rewrite Hsoft.
Qed.

(** A Type action that finds no field, followed by a wait. *)
Lemma C3_witness :
  run_loop (Scenario.static_world "https://example.com" [] false false) "report"
    [type_action "#user" "bob" "username" "Enter username" None; wait 1] 0
    (RunState [] initial_engine tt) =
  RunState
    [StepResult "type" "Failed" "Input field for username not found" (Some 1)
       (Some "Enter username") (Some "username") None None None None None None false;
     execution_stopped "type"]
    (Engine (ExecState None false true false None false None None) [] []) tt.
Proof.
  exact (proj1 (proj1 (proj2 (proj2 (proj2
    (C3_continuation_policy
       (Scenario.static_world "https://example.com" [] false false) "report"
       (type_action "#user" "bob" "username" "Enter username" None) [wait 1] 0
       (RunState [] initial_engine tt)
       (result "type" "Failed" "Input field for username not found")
       (Engine (ExecState None false true false None false None None) [] []) tt
       eq_refl eq_refl)))) eq_refl)).
Defined.

(** The handler of a wait raises: the navigation that follows is not run,
    though wait is a soft kind, and no execution_stopped step is recorded. *)
Lemma C4_counterexample :
  run (Scenario.static_world "https://example.com" [] false true)
    [wait (-5); navigate "https://example.com"] "report" tt =
  [StepResult "wait" "Failed" "Error: sleep length must be non-negative" (Some 1)
     None None None (Some "report/ERROR Step 1: wait.png") None None None None false;
   StepResult "result_page_capture" "Passed" "Result page screenshot captured with analysis"
     (Some 2) (Some "Capture final result page") None None
     (Some "report/Final Result Page.png") None
     (Some "Page loaded successfully") (Some "Page loaded successfully") None true].
Proof. vm_compute. reflexivity. Qed.

(** C4 (amended). At any point of a run, when the handler of an action
    raises, the exception is caught at the step boundary: one Failed step
    that names the action and carries "Error: " followed by the message is
    appended, after a screenshot attempt, and the loop ends there for every
    kind of action, soft or not, without an execution_stopped step. *)
Theorem C4_exception_ends_loop {Page : Type} (W : world Page) (report_id : string)
    (a : action_data) (rest : list action_data) (n : nat) (s : run_state)
    (e : string) (en : engine) (pg : Page) :
  dispatch W a (update_state a (eng s)) (page s) = (Raised e, en, pg) ->
  let shot :=
    take_screenshot W report_id (error_label a (S n)) false (error_step a (S n) e) pg in
  r_action (fst shot) = action_name a /\ r_status (fst shot) = "Failed" /\
  r_details (fst shot) = "Error: " +:+ e /\ r_step (fst shot) = Some (S n) /\
  run_loop W report_id (a :: rest) n s = RunState (results s ++ [fst shot]) en (snd shot) /\
  forall rest', run_loop W report_id (a :: rest') n s = run_loop W report_id (a :: rest) n s.
Proof.
  intros Hd shot.
  pose proof (take_screenshot_keeps W report_id (error_label a (S n)) false
                (error_step a (S n) e) pg) as (Hact & Hstatus & Hdetails & Hstep).
  fold shot in Hact, Hstatus, Hdetails, Hstep.
  assert (Hloop : forall l,
    run_loop W report_id (a :: l) n s = RunState (results s ++ [fst shot]) en (snd shot)).
  { intros l. rewrite run_loop_cons, Hd. fold shot. by destruct shot. }
  repeat split; try done.
  intros rest'. by rewrite !Hloop.
Qed.

(** The same list, seen from the loop. *)
Lemma C4_witness :
  run_loop (Scenario.static_world "https://example.com" [] false false) "report"
    [wait (-5); navigate "https://example.com"] 0 (RunState [] initial_engine tt) =
  RunState
    [StepResult "wait" "Failed" "Error: sleep length must be non-negative" (Some 1)
       None None None None None None None None false]
    initial_engine tt.
Proof.
  exact (proj1 (proj2 (proj2 (proj2 (proj2
    (C4_exception_ends_loop
       (Scenario.static_world "https://example.com" [] false false) "report"
       (wait (-5)) [navigate "https://example.com"] 0 (RunState [] initial_engine tt)
       "sleep length must be non-negative" initial_engine tt eq_refl)))))).
Defined.







(** ** The compiled list and the engine *)

Section WellFormed.

Import Parser.

Lemma assoc_elem {A} (k : string) (l : list (string * A)) (v : A) :
  assoc k l = Some v -> v ∈ map snd l.
Proof.
  induction l as [|[k' v'] l IH]; simpl; [done|].
  destruct (String.eqb k k').
  - intros [= <-]. apply list_elem_of_here.
  - intros H. apply list_elem_of_further. by apply IH.
Qed.

Lemma config_property (P : site_config -> bool) (site : string) (c : site_config) :
  forallb P (map snd site_configs) = true ->
  config_of site = Some c -> P c = true.
Proof.
  intros Hall Hc. apply assoc_elem in Hc.
  rewrite forallb_forall in Hall. apply Hall. by apply list_elem_of_In.
Qed.

Lemma startswith_append (p s : string) : Py.startswith p (p +:+ s) = true.
Proof.
  induction p as [|c p IH]; simpl; [done|]. by rewrite Ascii.eqb_refl, IH.
Qed.

Lemma startswith_prefix (p q s : string) :
  Py.startswith p q = true -> Py.startswith p (q +:+ s) = true.
Proof.
  revert q. induction p as [|c p IH]; intros q; simpl; [done|].
  destruct q as [|d q]; simpl; [done|].
  intros [Hc Hp]%andb_prop. by rewrite Hc, IH.
Qed.

Lemma get_site_url_http (site : string) :
  Py.startswith "http" (_get_site_url site) = true.
Proof.
  unfold _get_site_url. destruct (config_of site) as [c|] eqn:Hc.
  - by apply (config_property (fun c => Py.startswith "http" (url c)) site c).
  - destruct (Py.contains "." site); [|done].
    destruct (Py.startswith "http" site) eqn:Hs; simpl; [done|done].
Qed.

Lemma login_url_http (site : string) :
  Py.startswith "http"
    (match config_of site with
     | Some c => default (url c) (login_url c)
     | None => _get_site_url site
     end) = true.
Proof.
  destruct (config_of site) as [c|] eqn:Hc.
  - by apply (config_property
                (fun c => Py.startswith "http" (default (url c) (login_url c))) site c).
  - unfold _get_site_url. rewrite Hc.
    destruct (Py.contains "." site); [|done].
    by destruct (Py.startswith "http" site) eqn:Hs.
Qed.

Lemma signup_url_http (site : string) :
  Py.startswith "http"
    (match config_of site with
     | Some c => default (url c) (signup_url c)
     | None => _get_site_url site
     end) = true.
Proof.
  destruct (config_of site) as [c|] eqn:Hc.
  - by apply (config_property
                (fun c => Py.startswith "http" (default (url c) (signup_url c))) site c).
  - unfold _get_site_url. rewrite Hc.
    destruct (Py.contains "." site); [|done].
    by destruct (Py.startswith "http" site) eqn:Hs.
Qed.

Ltac wf_by tac :=
  unfold all_well_formed;
  repeat first
    [ apply Forall_nil_2
    | apply Forall_cons_2; [first [reflexivity | done | by (simpl; tac)]|]
    | apply Forall_app_2 ].

Ltac wf := wf_by idtac.

Lemma well_formed_search (instruction instruction_lower site : string)
    (fields : gmap string string) :
  all_well_formed (_handle_search instruction instruction_lower site fields).
Proof.
  unfold _handle_search.
  assert (Hnav : well_formed (navigate (_get_site_url site)) = true)
    by apply get_site_url_http.
  destruct (Py.truthy (_extract_search_query instruction)) eqn:Hq; [|wf].
  destruct (_ || _); [|wf].
  unfold assoc.
  destruct (String.eqb site "amazon"), (String.eqb site "flipkart"),
    (String.eqb site "default"), (mem site _); wf.
Qed.

Lemma well_formed_login_steps (email password site : string) :
  Py.truthy email = true -> Py.truthy password = true ->
  all_well_formed
    (if mem site ["twitter"; "x.com"] then _handle_twitter_login email password site
     else if String.eqb site "facebook" then _handle_facebook_login email password site
     else if String.eqb site "linkedin" then _handle_linkedin_login email password site
     else _handle_generic_login email password site).
Proof.
  intros He Hp.
  destruct (mem site _); [wf|].
  destruct (String.eqb site "facebook"); [wf|].
  destruct (String.eqb site "linkedin"); [wf|].
  unfold _handle_generic_login. destruct (Py.contains _ _); wf.
Qed.

Lemma all_truthy_insert (m : gmap string string) (k v : string) :
  all_truthy m -> Py.truthy v = true -> all_truthy (<[k := v]> m).
Proof.
  intros Hm Hv k' v'. destruct (decide (k = k')) as [->|Hne].
  - rewrite lookup_insert_eq. by intros [= <-].
  - rewrite lookup_insert_ne by done. apply Hm.
Qed.

Lemma resolve_fields_truthy (E : env) (fields : gmap string string) (site : string)
    (l : list string) :
  forall (init : gmap string string) (t : nat),
    all_truthy init -> all_truthy (fst (resolve_fields E l fields site init t)).
Proof.
  induction l as [|f rest IH]; intros init t Hinit; simpl; [done|].
  unfold bind. destruct (_get_field_value E f fields site t) as [value t1].
  apply IH. unfold nonempty. destruct value as [v|]; [|done].
  destruct (Py.truthy v) eqn:Hv; [|done]. by apply all_truthy_insert.
Qed.

Lemma get_or_truthy (m : gmap string string) (k d : string) :
  all_truthy m -> Py.truthy d = true -> Py.truthy (get_or m k d) = true.
Proof.
  intros Hm Hd. unfold get_or. destruct (m !! k) as [v|] eqn:Hk; [|done].
  by apply (Hm k).
Qed.

Lemma get_or_present (m : gmap string string) (k d : string) :
  all_truthy m -> is_missing m k = false -> Py.truthy (get_or m k d) = true.
Proof.
  intros Hm. unfold is_missing, get_or. destruct (m !! k) as [v|] eqn:Hk; [|done].
  intros _. by apply (Hm k).
Qed.

Lemma capitalize_truthy (s : string) : Py.truthy s = true -> Py.truthy (Py.capitalize s) = true.
Proof.
  destruct s as [|c s]; [done|]. intros _. unfold Py.capitalize.
  by destruct (Py.code c =? 223).
Qed.

Lemma well_formed_signup_steps (fields : gmap string string) (site : string) :
  all_truthy fields ->
  is_missing fields "email" = false -> is_missing fields "password" = false ->
  all_well_formed
    (if mem site ["twitter"; "x.com"] then _handle_twitter_signup fields site
     else if String.eqb site "facebook" then _handle_facebook_signup fields site
     else if String.eqb site "linkedin" then _handle_linkedin_signup fields site
     else _handle_generic_signup fields site).
Proof.
  intros Hall Hemail Hpassword.
  pose proof (get_or_present fields "email" EmptyString Hall Hemail) as He.
  pose proof (get_or_present fields "password" EmptyString Hall Hpassword) as Hp.
  assert (Hd : forall k d, Py.truthy d = true -> Py.truthy (get_or fields k d) = true).
  { intros k d. by apply get_or_truthy. }
  destruct (mem site _).
  { unfold _handle_twitter_signup. wf_by ltac:(apply Hd). }
  destruct (String.eqb site "facebook").
  { unfold _handle_facebook_signup.
    pose proof (Hd "gender" "female" eq_refl) as Hg. rewrite Hg.
    wf_by ltac:(first [apply Hd | apply capitalize_truthy]). }
  destruct (String.eqb site "linkedin").
  { unfold _handle_linkedin_signup. wf_by ltac:(apply Hd). }
  unfold _handle_generic_signup. rewrite (Hd "name" "Test User" eq_refl).
  wf_by ltac:(apply Hd).
Qed.

Lemma email_required (site : string) :
  In "email"
    (match config_of site with
     | Some c => default ["email"; "password"] (signup_fields c)
     | None => ["email"; "password"]
     end).
Proof.
  unfold config_of, site_configs, assoc.
  repeat match goal with
  | |- context [String.eqb site ?k] => destruct (String.eqb site k); [simpl; tauto|]
  end.
  simpl. tauto.
Qed.

Lemma not_missing (generated : gmap string string) (required : list string) (f : string) :
  filter (fun f => is_missing generated f = true) required = [] ->
  In f required -> is_missing generated f = false.
Proof.
  induction required as [|g rest IH]; simpl; [done|].
  rewrite filter_cons. case_decide as Hg; [done|].
  intros Hrest [->|Hin]; [by destruct (is_missing generated f) | by apply IH].
Qed.

Lemma login_missing_nil (email password : option string) :
  login_missing email password = [] ->
  Py.truthy (default EmptyString email) = true /\
  Py.truthy (default EmptyString password) = true.
Proof.
  unfold login_missing, nonempty.
  destruct email as [e|]; [|done]. destruct (Py.truthy e) eqn:He; [|done].
  destruct password as [p|]; [|done]. by destruct (Py.truthy p) eqn:Hp.
Qed.

Lemma well_formed_login (E : env) (instruction instruction_lower site : string)
    (fields : gmap string string) (t : nat) :
  engine_ready (fst (_handle_login E instruction instruction_lower site fields t)).
Proof.
  unfold engine_ready.
  unfold _handle_login, bind.
  destruct (login_credentials E site fields t) as [[email password] t'].
  simpl fst. simpl snd.
  destruct (login_missing email password) as [|m ms] eqn:Hmissing; simpl.
  - right. split; [by eexists _, _|].
    apply login_missing_nil in Hmissing as [He Hp].
    apply Forall_cons_2; [apply login_url_http|].
    apply Forall_cons_2; [done|].
    by apply well_formed_login_steps.
  - left. by eexists.
Qed.

Lemma well_formed_signup (E : env) (instruction instruction_lower site : string)
    (fields : gmap string string) (t : nat) :
  engine_ready (fst (_handle_signup E instruction instruction_lower site fields t)).
Proof.
  unfold _handle_signup, bind.
  pose proof (resolve_fields_truthy E fields site
                (match config_of site with
                 | Some c => default ["email"; "password"] (signup_fields c)
                 | None => ["email"; "password"]
                 end) ∅ t) as Hfirst.
  pose proof (email_required site) as Hemail.
  pose proof (password_required site) as Hpassword.
  destruct (resolve_fields E _ fields site ∅ t) as [generated t1].
  simpl in Hfirst.
  assert (Hgenerated : all_truthy generated).
  { apply Hfirst. intros k v. by rewrite lookup_empty. }
  clear Hfirst.
  assert (Hsteps : forall (generated' : gmap string string) (required' : list string),
             all_truthy generated' ->
             In "email" required' -> In "password" required' ->
             filter (fun f => is_missing generated' f = true) required' = [] ->
             engine_ready
               (navigate
                  match config_of site with
                  | Some c => default (url c) (signup_url c)
                  | None => _get_site_url site
                  end
                :: wait 3
                :: (if mem site ["twitter"; "x.com"]
                    then _handle_twitter_signup generated' site
                    else if String.eqb site "facebook"
                    then _handle_facebook_signup generated' site
                    else if String.eqb site "linkedin"
                    then _handle_linkedin_signup generated' site
                    else _handle_generic_signup generated' site))).
  { intros generated' required' Hall He Hp Hnone. right. split; [by eexists _, _|].
    apply Forall_cons_2; [apply signup_url_http|].
    apply Forall_cons_2; [done|].
    apply well_formed_signup_steps; [done | |]; by eapply not_missing. }
  destruct (String.eqb site "linkedin") eqn:Hlinkedin.
  - pose proof (resolve_fields_truthy E fields site ["first_name"; "last_name"]
                  generated t1 Hgenerated) as Hsecond.
    destruct (resolve_fields E ["first_name"; "last_name"] fields site generated t1)
      as [generated' t2].
    simpl in Hsecond.
    match goal with
    | |- context [filter ?P ?l] => destruct (filter P l) as [|m ms] eqn:Hmissing
    end; [|left; by eexists].
    eapply Hsteps; [done | | | exact Hmissing].
    + destruct (mem "first_name" _); destruct (mem "last_name" _);
        rewrite ?in_app_iff; tauto.
    + destruct (mem "first_name" _); destruct (mem "last_name" _);
        rewrite ?in_app_iff; tauto.
  - unfold ret at 1.
    match goal with
    | |- context [filter ?P ?l] => destruct (filter P l) as [|m ms] eqn:Hmissing
    end; [|left; by eexists].
    by eapply Hsteps.
Qed.

Lemma well_formed_navigation (instruction instruction_lower site : string)
    (fields : gmap string string) :
  engine_ready (_handle_navigation instruction instruction_lower site fields).
Proof.
  unfold engine_ready.
  unfold _handle_navigation.
  destruct (negb _).
  { right. split; [by eexists _, _|].
    apply Forall_cons_2; [apply get_site_url_http|]. wf. }
  destruct (Re.search _ _) as [m|]; [|left; by eexists].
  right. split; [by eexists _, _|].
  apply Forall_cons_2; [|wf].
  change (Py.startswith "http"
            (if negb (Py.startswith "http" (Re.m_text m))
             then "https://" +:+ Re.m_text m else Re.m_text m) = true).
  by destruct (Py.startswith "http" (Re.m_text m)) eqn:Hm.
Qed.

End WellFormed.

Lemma parse_engine_ready (E : Parser.env) (instruction : string) :
  engine_ready (Parser.parse E instruction).
Proof.
  unfold Parser.parse. destruct (negb _); [left; by eexists|].
  unfold Parser._parse_simple.
  destruct (String.eqb _ "search").
  { right. split; [|apply well_formed_search].
    unfold Parser._handle_search. destruct (Py.truthy _); [|by eexists _, _].
    destruct (_ || _); [|by eexists _, _].
    destruct (Parser.mem _ _); by eexists _, _. }
  destruct (String.eqb _ "login"); [apply well_formed_login|].
  destruct (String.eqb _ "signup"); [apply well_formed_signup|].
  destruct (String.eqb _ "navigate"); [apply well_formed_navigation|].
  destruct (negb _); [|left; by eexists].
  right. split; [by eexists _, _|].
  apply Forall_cons_2; [apply get_site_url_http | constructor].
Qed.

(** X1. Whatever the instruction and the random data setting, the compiler
    returns one error, or a list that starts with a navigation and in which
    every action is one the engine's handlers accept: its kind is navigate,
    wait, search, type, select, click or validate_page; a navigation has an
    address that starts with "http"; a wait lasts a positive time; a search
    has a query, a type and a select a value, a click a selector and a text,
    that are not empty; a validation asks for one indicator at least. *)
Theorem compiled_actions_well_formed (E : Parser.env) (instruction : string) :
  engine_ready (Parser.parse E instruction).
Proof. apply parse_engine_ready. Qed.

(** ** The random data setting *)

Section EnvFacts.

Import Parser.

Lemma resolve_fields_off (E E' : env) (fields : gmap string string) (site : string)
    (l : list string) :
  random_on E = false -> random_on E' = false ->
  forall (init : gmap string string) (t : nat),
    resolve_fields E l fields site init t = resolve_fields E' l fields site init t.
Proof.
  intros Hoff Hoff'. induction l as [|f rest IH]; intros init t; simpl; [done|].
  unfold bind. rewrite !get_field_value_off by done. apply IH.
Qed.

Lemma handle_login_off (E E' : env) (instruction instruction_lower site : string)
    (fields : gmap string string) (t : nat) :
  random_on E = false -> random_on E' = false ->
  use_random_data E = use_random_data E' ->
  _handle_login E instruction instruction_lower site fields t =
  _handle_login E' instruction instruction_lower site fields t.
Proof.
  intros Hoff Hoff' Hflag. unfold _handle_login, bind.
  rewrite !login_credentials_off by done. by rewrite Hflag.
Qed.

Lemma handle_signup_off (E E' : env) (instruction instruction_lower site : string)
    (fields : gmap string string) (t : nat) :
  random_on E = false -> random_on E' = false ->
  use_random_data E = use_random_data E' ->
  _handle_signup E instruction instruction_lower site fields t =
  _handle_signup E' instruction instruction_lower site fields t.
Proof.
  intros Hoff Hoff' Hflag. unfold _handle_signup, bind.
  rewrite (resolve_fields_off E E') by done.
  destruct (resolve_fields E' _ fields site ∅ t) as [generated t1].
  destruct (String.eqb site "linkedin").
  - rewrite (resolve_fields_off E E') by done. by rewrite Hflag.
  - by rewrite Hflag.
Qed.

End EnvFacts.

(** X2. Without random data the compiler is a function of the instruction
    alone: two parsers for which random data is not in play, and whose flag
    is the same, return the same list, whatever the clock, the random
    generator and the random data module give. *)
Theorem parse_without_random_data (E E' : Parser.env) (instruction : string) :
  random_on E = false -> random_on E' = false ->
  Parser.use_random_data E = Parser.use_random_data E' ->
  Parser.parse E instruction = Parser.parse E' instruction.
Proof.
  intros Hoff Hoff' Hflag. unfold Parser.parse. destruct (negb _); [done|].
  unfold Parser._parse_simple.
  destruct (String.eqb _ "search"); [done|].
  destruct (String.eqb _ "login"); [by rewrite (handle_login_off E E')|].
  destruct (String.eqb _ "signup"); [by rewrite (handle_signup_off E E')|].
  done.
Qed.

Lemma parse_without_random_data_witness :
  Parser.parse Scenario.env_off
    "login to facebook with email bob@mail.com password secret1" =
  Parser.parse (Parser.Env false true (fun _ _ => "x") (fun t => Z.of_nat t) (fun k => k))
    "login to facebook with email bob@mail.com password secret1".
Proof.
  apply (parse_without_random_data Scenario.env_off
           (Parser.Env false true (fun _ _ => "x") (fun t => Z.of_nat t) (fun k => k)));
    reflexivity.
Defined.

(** ** Search instructions *)

Section SearchFacts.

Import Parser.

Lemma search_keyword_truthy (text : string) :
  _detect_action_type (Py.lower text) <> "unknown" -> Py.truthy text = true.
Proof. destruct text; [|done]. intros H. by destruct H. Qed.

Lemma handle_search_start (instruction instruction_lower site : string)
    (fields : gmap string string) :
  exists rest,
    _handle_search instruction instruction_lower site fields =
    navigate (_get_site_url site) :: wait 3 :: rest.
Proof.
  unfold _handle_search. destruct (Py.truthy _); [|by eexists].
  destruct (_ || _); [|by eexists].
  destruct (mem site _); by eexists.
Qed.

End SearchFacts.

(** X3. An instruction that holds "search", "find" or "look for" is compiled
    as a search whatever else it holds: the compiler never returns an
    error for it and never asks for a credential, the list starts with the
    navigation to the site's address and a wait of three seconds, and it is
    the same for every parser. *)
Theorem search_always_compiles (E E' : Parser.env) (instruction : string) :
  let text := Py.strip instruction in
  Parser.any_in ["search"; "find"; "look for"] (Py.lower text) = true ->
  no_error (Parser.parse E instruction) /\
  (exists rest,
      Parser.parse E instruction =
      navigate (Parser._get_site_url (Parser._detect_site (Py.lower text)))
        :: wait 3 :: rest) /\
  Parser.parse E instruction = Parser.parse E' instruction.
Proof.
  intros text Hkw.
  assert (Htype : Parser._detect_action_type (Py.lower text) = "search").
  { unfold Parser._detect_action_type. by rewrite Hkw. }
  assert (Hparse : forall E0, Parser.parse E0 instruction =
                   Parser._handle_search text (Py.lower text)
                     (Parser._detect_site (Py.lower text)) (Parser.extract_fields text)).
  { intros E0. unfold Parser.parse. fold text.
    rewrite search_keyword_truthy by (rewrite Htype; discriminate).
    simpl negb. cbv iota. unfold Parser._parse_simple. by rewrite Htype. }
  rewrite !Hparse. split; [apply no_error_search|]. split; [|done].
  apply handle_search_start.
Qed.

Lemma search_always_compiles_witness :
  no_error (Parser.parse Scenario.env_off "login to facebook and find my friends") /\
  (exists rest,
      Parser.parse Scenario.env_off "login to facebook and find my friends" =
      navigate "https://facebook.com" :: wait 3 :: rest) /\
  Parser.parse Scenario.env_off "login to facebook and find my friends" =
  Parser.parse Scenario.env_random "login to facebook and find my friends".
Proof.
  apply (search_always_compiles Scenario.env_off Scenario.env_random
           "login to facebook and find my friends").
  vm_compute. reflexivity.
Defined.

(** ** Signup with random data *)

Section SignupFacts.

Import Parser.

Lemma choice_truthy (E : env) (l : list string) (t : nat) :
  l <> [] -> Forall (fun s => Py.truthy s = true) l ->
  Py.truthy (fst (choice E l t)) = true.
Proof.
  intros Hne Hall. unfold choice. simpl.
  assert (Hlt : dice E t mod length l < length l).
  { apply Nat.mod_upper_bound. by destruct l. }
  rewrite Forall_forall in Hall. apply Hall. apply list_elem_of_In, nth_In, Hlt.
Qed.

(** Every value [generate] builds itself is not empty; for the fields it
    leaves to the random data module, the module decides. *)
Lemma generate_truthy (E : env) (field site : string) (t : nat) :
  (forall t' f, Py.truthy (get_random_data E t' f) = true) ->
  Py.truthy (fst (generate E field site t)) = true.
Proof.
  intros Hmodule. unfold generate.
  destruct (String.eqb field "email") eqn:Hemail.
  { apply String.eqb_eq in Hemail as ->. apply generate_email_truthy. }
  destruct (String.eqb field "password") eqn:Hpassword.
  { apply choices_truthy. vm_compute. lia. }
  destruct (mem field _).
  { apply choice_truthy; [done|]. by repeat constructor. }
  destruct (String.eqb field "last_name").
  { apply choice_truthy; [done|]. by repeat constructor. }
  destruct (String.eqb field "username").
  { unfold bind, ret, now. by destruct (choices E lower_alnum 8 (S t)). }
  apply Hmodule.
Qed.

Lemma is_missing_insert (m : gmap string string) (k f v : string) :
  Py.truthy v = true ->
  is_missing (<[k := v]> m) f = if decide (k = f) then false else is_missing m f.
Proof.
  intros Hv. unfold is_missing. case_decide as Hk.
  - subst. by rewrite lookup_insert_eq, Hv.
  - by rewrite lookup_insert_ne.
Qed.

(** With random data in play every field asked for is resolved, and a
    field resolved before stays so. *)
Lemma resolve_fields_on (E : env) (fields : gmap string string) (site : string)
    (l : list string) :
  random_on E = true ->
  (forall t f, Py.truthy (get_random_data E t f) = true) ->
  forall (init : gmap string string) (t : nat) (f : string),
    In f l \/ is_missing init f = false ->
    is_missing (fst (resolve_fields E l fields site init t)) f = false.
Proof.
  intros Hon Hmodule. induction l as [|g rest IH]; intros init t f Hf; simpl.
  - by destruct Hf.
  - unfold bind.
    destruct (get_field_value_on E g fields site t Hon) as (v & t' & -> & Hv).
    { intros t'. by apply generate_truthy. }
    unfold nonempty. rewrite Hv. apply IH.
    rewrite is_missing_insert by done. case_decide; [by right|].
    destruct Hf as [[?|?]|?]; [done | by left | by right].
Qed.

Lemma filter_nil_all {A} (P : A -> Prop) `{!forall x, Decision (P x)} (l : list A) :
  (forall x, In x l -> ~ P x) -> filter P l = [].
Proof.
  induction l as [|x l IH]; intros Hl; [done|].
  rewrite filter_cons. case_decide as Hx.
  - destruct (Hl x); [by left | done].
  - apply IH. intros y Hy. apply Hl. by right.
Qed.

Lemma linkedin_required (l : list string) (f : string) :
  In f (let r := if mem "first_name" l then l else l ++ ["first_name"] in
        if mem "last_name" r then r else r ++ ["last_name"]) ->
  In f l \/ In f ["first_name"; "last_name"].
Proof.
  cbv zeta. destruct (mem "first_name" l); destruct (mem "last_name" _);
    rewrite ?in_app_iff; simpl; tauto.
Qed.

Lemma signup_compiles (E : env) (instruction instruction_lower site : string)
    (fields : gmap string string) (t : nat) :
  random_on E = true ->
  (forall t f, Py.truthy (get_random_data E t f) = true) ->
  no_error (fst (_handle_signup E instruction instruction_lower site fields t)).
Proof.
  intros Hon Hmodule. unfold _handle_signup, bind.
  fold (required_fields site).
  pose proof (fun f => resolve_fields_on E fields site (required_fields site) Hon Hmodule
                         ∅ t f) as Hfirst.
  destruct (resolve_fields E (required_fields site) fields site ∅ t) as [generated t1].
  simpl in Hfirst.
  assert (Hsteps : forall generated' : gmap string string,
             no_error
               (navigate
                  match config_of site with
                  | Some c => default (url c) (signup_url c)
                  | None => _get_site_url site
                  end
                :: wait 3
                :: (if mem site ["twitter"; "x.com"]
                    then _handle_twitter_signup generated' site
                    else if String.eqb site "facebook"
                    then _handle_facebook_signup generated' site
                    else if String.eqb site "linkedin"
                    then _handle_linkedin_signup generated' site
                    else _handle_generic_signup generated' site))).
  { intros generated'. do 2 (apply Forall_cons_2; [reflexivity|]).
    apply no_error_signup_steps. }
  destruct (String.eqb site "linkedin") eqn:Hlinkedin.
  - pose proof (fun f => resolve_fields_on E fields site ["first_name"; "last_name"]
                           Hon Hmodule generated t1 f) as Hsecond.
    destruct (resolve_fields E ["first_name"; "last_name"] fields site generated t1)
      as [generated' t2].
    simpl in Hsecond.
    rewrite filter_nil_all; [apply Hsteps|].
    intros f Hf. rewrite Hsecond; [done|].
    apply linkedin_required in Hf as [Hf|Hf]; [right | by left].
    apply Hfirst. by left.
  - unfold ret at 1.
    rewrite filter_nil_all; [apply Hsteps|].
    intros f Hf. rewrite Hfirst; [done|]. by left.
Qed.

End SignupFacts.

(** X4. With random data in play, and a random data module that returns no
    empty value, an instruction classified as signup always compiles: every
    field the site asks for is taken from the instruction or generated, and
    the compiler returns actions, never an error. *)
Theorem signup_with_random_data (E : Parser.env) (instruction : string) :
  let text := Py.strip instruction in
  Parser._detect_action_type (Py.lower text) = "signup" ->
  random_on E = true ->
  (forall t f, Py.truthy (Parser.get_random_data E t f) = true) ->
  Parser.parse E instruction <> [] /\ no_error (Parser.parse E instruction).
Proof.
  intros text Hsignup Hon Hmodule.
  assert (Hparse : Parser.parse E instruction =
                   fst (Parser._handle_signup E text (Py.lower text)
                          (Parser._detect_site (Py.lower text))
                          (Parser.extract_fields text) 0)).
  { unfold Parser.parse. fold text.
    destruct (Py.truthy text) eqn:Htext.
    2:{ destruct text; [|done]. by rewrite detect_action_type_empty in Hsignup. }
    simpl negb. cbv iota. unfold Parser._parse_simple. by rewrite Hsignup. }
  rewrite Hparse.
  pose proof (signup_compiles E text (Py.lower text)
                (Parser._detect_site (Py.lower text)) (Parser.extract_fields text) 0
                Hon Hmodule) as Hok.
  split; [|done].
  destruct (compiled_signup E text (Py.lower text)
              (Parser._detect_site (Py.lower text)) (Parser.extract_fields text) 0)
    as [_|(e & -> & _)]; [|done].
  unfold Parser._handle_signup, Parser.bind.
  destruct (Parser.resolve_fields E _ _ _ ∅ 0) as [g t1].
  destruct (if String.eqb _ "linkedin" then _ else _) as [g' t2].
  by match goal with
     | |- context [filter ?P ?l] => destruct (filter P l)
     end.
Qed.

Lemma signup_with_random_data_witness :
  Parser.parse Scenario.env_random "create an account on facebook" <> [] /\
  no_error (Parser.parse Scenario.env_random "create an account on facebook").
Proof.
  apply (signup_with_random_data Scenario.env_random "create an account on facebook").
  - vm_compute. reflexivity.
  - reflexivity.
  - intros t f. reflexivity.
Defined.

(** ** Signup without random data *)

Section SignupOffFacts.

Import Parser.

Lemma resolve_fields_absent (E : env) (fields : gmap string string) (site : string)
    (l : list string) (f : string) :
  random_on E = false -> provided f fields = None ->
  forall (init : gmap string string) (t : nat),
    is_missing (fst (resolve_fields E l fields site init t)) f = is_missing init f.
Proof.
  intros Hoff Hf. induction l as [|g rest IH]; intros init t; simpl; [done|].
  unfold bind. rewrite get_field_value_off by done. rewrite IH.
  rewrite nonempty_provided. destruct (provided g fields) as [v|] eqn:Hg; [|done].
  unfold is_missing. rewrite lookup_insert_ne; [done|]. congruence.
Qed.

Lemma resolve_fields_present (E : env) (fields : gmap string string) (site : string)
    (l : list string) (f v : string) :
  provided f fields = Some v ->
  forall (init : gmap string string) (t : nat),
    In f l \/ init !! f = Some v ->
    is_missing (fst (resolve_fields E l fields site init t)) f = false.
Proof.
  intros Hv init t Hf. unfold is_missing.
  rewrite (resolve_fields_provided E f v fields site l Hv init t Hf).
  by rewrite (provided_truthy _ _ _ Hv).
Qed.

Lemma filter_ext_in {A} (P Q : A -> Prop) `{!forall x, Decision (P x)}
    `{!forall x, Decision (Q x)} (l : list A) :
  (forall x, In x l -> P x <-> Q x) -> filter P l = filter Q l.
Proof.
  induction l as [|x l IH]; intros Hl; [done|].
  rewrite !filter_cons. rewrite IH by (intros y Hy; apply Hl; by right).
  destruct (Hl x (or_introl eq_refl)) as [H1 H2].
  repeat case_decide; tauto.
Qed.

Lemma linkedin_required_fields :
  (if mem "last_name"
        (if mem "first_name" (required_fields "linkedin") then required_fields "linkedin"
         else required_fields "linkedin" ++ ["first_name"])
   then (if mem "first_name" (required_fields "linkedin") then required_fields "linkedin"
         else required_fields "linkedin" ++ ["first_name"])
   else (if mem "first_name" (required_fields "linkedin") then required_fields "linkedin"
         else required_fields "linkedin" ++ ["first_name"]) ++ ["last_name"]) =
  required_fields "linkedin".
Proof. reflexivity. Qed.

(** Without random data, the fields a signup lacks are the required fields
    the instruction does not provide. *)
Lemma handle_signup_off_cases (E : env) (instruction instruction_lower site : string)
    (fields : gmap string string) (t : nat) :
  random_on E = false ->
  exists generated : gmap string string,
    fst (_handle_signup E instruction instruction_lower site fields t) =
    match filter (fun f => provided f fields = None) (required_fields site) with
    | [] =>
        navigate
          match config_of site with
          | Some c => default (url c) (signup_url c)
          | None => _get_site_url site
          end
        :: wait 3
        :: (if mem site ["twitter"; "x.com"] then _handle_twitter_signup generated site
            else if String.eqb site "facebook" then _handle_facebook_signup generated site
            else if String.eqb site "linkedin" then _handle_linkedin_signup generated site
            else _handle_generic_signup generated site)
    | missing =>
        [error_action
           ("Signup failed: Missing required fields: " +:+ Py.join ", " missing +:+
            (if use_random_data E then EmptyString
             else ". Enable 'Use Random Data' to auto-fill missing fields."))
           (Some missing) None
           (Some ("For " +:+ site +:+ " signup, you need: " +:+
                  Py.join ", " (required_fields site)))]
    end.
Proof.
  intros Hoff.
  unfold _handle_signup, bind. fold (required_fields site). cbv zeta.
  assert (Hfirst : forall f, In f (required_fields site) ->
            is_missing (fst (resolve_fields E (required_fields site) fields site ∅ t)) f
            = true <-> provided f fields = None).
  { intros f Hf. destruct (provided f fields) as [v|] eqn:Hv.
    - rewrite (resolve_fields_present E fields site _ f v Hv) by (by left). done.
    - rewrite resolve_fields_absent by done. done. }
  destruct (String.eqb site "linkedin") eqn:Hlinkedin.
  - apply String.eqb_eq in Hlinkedin as ->.
    rewrite linkedin_required_fields.
    assert (Hsecond : forall f, In f (required_fields "linkedin") ->
              is_missing
                (fst (resolve_fields E ["first_name"; "last_name"] fields "linkedin"
                        (fst (resolve_fields E (required_fields "linkedin") fields
                                "linkedin" ∅ t))
                        (snd (resolve_fields E (required_fields "linkedin") fields
                                "linkedin" ∅ t)))) f
              = true <-> provided f fields = None).
    { intros f Hf. destruct (provided f fields) as [v|] eqn:Hv.
      - rewrite (resolve_fields_present E fields "linkedin" _ f v Hv); [done|].
        right. apply resolve_fields_provided; [done | by left].
      - rewrite resolve_fields_absent by done.
        split; [done|]. intros _. by apply Hfirst. }
    destruct (resolve_fields E (required_fields "linkedin") fields "linkedin" ∅ t)
      as [generated t1].
    cbn [fst snd] in Hsecond.
    destruct (resolve_fields E ["first_name"; "last_name"] fields "linkedin" generated t1)
      as [generated' t2].
    cbn [fst snd] in Hsecond.
    rewrite (filter_ext_in _ (fun f => provided f fields = None) _ Hsecond).
    exists generated'. by destruct (filter _ (required_fields "linkedin")).
  - destruct (resolve_fields E (required_fields site) fields site ∅ t)
      as [generated t1].
    cbn [fst snd] in Hfirst. unfold ret at 1.
    rewrite (filter_ext_in _ (fun f => provided f fields = None) _ Hfirst).
    exists generated. by destruct (filter _ (required_fields site)).
Qed.

End SignupOffFacts.

(** X5. Without random data, an instruction classified as signup is refused
    exactly when it does not provide a field the site asks for; the error
    then lists the required fields the instruction does not provide, in the
    order of the site's list, and the suggestion names all the required
    fields. When every required field is provided the compiler returns
    actions. *)
Theorem signup_missing_fields (E : Parser.env) (instruction : string) :
  let text := Py.strip instruction in
  let fields := Parser.extract_fields text in
  let site := Parser._detect_site (Py.lower text) in
  let missing := filter (fun f => Parser.provided f fields = None) (required_fields site) in
  Parser._detect_action_type (Py.lower text) = "signup" ->
  random_on E = false ->
  (missing <> [] ->
   Parser.parse E instruction =
   [error_action
      ("Signup failed: Missing required fields: " +:+ Py.join ", " missing +:+
       (if Parser.use_random_data E then EmptyString
        else ". Enable 'Use Random Data' to auto-fill missing fields."))
      (Some missing) None
      (Some ("For " +:+ site +:+ " signup, you need: " +:+
             Py.join ", " (required_fields site)))]) /\
  (missing = [] ->
   Parser.parse E instruction <> [] /\ no_error (Parser.parse E instruction)).
Proof.
  intros text fields site missing Hsignup Hoff.
  assert (Hparse : Parser.parse E instruction =
                   fst (Parser._handle_signup E text (Py.lower text) site fields 0)).
  { unfold Parser.parse. fold text.
    destruct (Py.truthy text) eqn:Htext.
    2:{ destruct text; [|done]. by rewrite detect_action_type_empty in Hsignup. }
    simpl negb. cbv iota. unfold Parser._parse_simple. by rewrite Hsignup. }
  rewrite Hparse.
  destruct (handle_signup_off_cases E text (Py.lower text) site fields 0 Hoff)
    as [generated ->].
  fold missing. split.
  - intros Hmissing. by destruct missing.
  - intros ->. split; [done|].
    do 2 (apply Forall_cons_2; [reflexivity|]). apply no_error_signup_steps.
Qed.

Lemma signup_missing_fields_witness :
  Parser.parse Scenario.env_off "register on github with email bob@mail.com" =
  [error_action
     "Signup failed: Missing required fields: username, password. Enable 'Use Random Data' to auto-fill missing fields."
     (Some ["username"; "password"]) None
     (Some "For github signup, you need: email, username, password")].
Proof.
  apply (signup_missing_fields Scenario.env_off
           "register on github with email bob@mail.com").
  - vm_compute. reflexivity.
  - reflexivity.
  - vm_compute. discriminate.
Defined.

(** ** The flag [is_random_data] *)

Section FlagFacts.

Import Parser.

Ltac unflagged :=
  unfold unflagged;
  repeat first
    [ apply Forall_nil_2
    | apply Forall_cons_2; [simpl; congruence|]
    | apply Forall_app_2 ].

Lemma unflagged_search (instruction instruction_lower site : string)
    (fields : gmap string string) :
  unflagged (_handle_search instruction instruction_lower site fields).
Proof.
  unfold _handle_search.
  destruct (Py.truthy _); [|unflagged].
  destruct (_ || _); [|unflagged].
  destruct (mem site _); unflagged.
Qed.

Lemma unflagged_login_steps (email password site : string) :
  unflagged
    (if mem site ["twitter"; "x.com"] then _handle_twitter_login email password site
     else if String.eqb site "facebook" then _handle_facebook_login email password site
     else if String.eqb site "linkedin" then _handle_linkedin_login email password site
     else _handle_generic_login email password site).
Proof.
  destruct (mem site _); [unflagged|].
  destruct (String.eqb site "facebook"); [unflagged|].
  destruct (String.eqb site "linkedin"); [unflagged|].
  unfold _handle_generic_login. destruct (Py.contains _ _); unflagged.
Qed.

Lemma unflagged_login (E : env) (instruction instruction_lower site : string)
    (fields : gmap string string) (t : nat) :
  unflagged (fst (_handle_login E instruction instruction_lower site fields t)).
Proof.
  unfold _handle_login, bind.
  destruct (login_credentials E site fields t) as [[email password] t'].
  simpl fst. simpl snd.
  destruct (login_missing email password) as [|m ms]; simpl; [|unflagged].
  do 2 (apply Forall_cons_2; [simpl; congruence|]).
  apply unflagged_login_steps.
Qed.

Lemma not_in_present (m : gmap string string) (k : string) :
  is_missing m k = false -> not_in m k = false.
Proof. unfold is_missing, not_in. by destruct (m !! k). Qed.

Lemma unflagged_signup_steps (fields : gmap string string) (site : string) :
  (String.eqb site "linkedin" = true ->
   forall k, In k ["first_name"; "last_name"; "email"; "password"] ->
             is_missing fields k = false) ->
  unflagged
    (if mem site ["twitter"; "x.com"] then _handle_twitter_signup fields site
     else if String.eqb site "facebook" then _handle_facebook_signup fields site
     else if String.eqb site "linkedin" then _handle_linkedin_signup fields site
     else _handle_generic_signup fields site).
Proof.
  intros Hlinkedin.
  destruct (mem site _); [unflagged|].
  destruct (String.eqb site "facebook"); [unflagged|].
  destruct (String.eqb site "linkedin").
  - unfold _handle_linkedin_signup.
    rewrite !not_in_present by (apply Hlinkedin; simpl; tauto).
    unflagged.
  - unfold _handle_generic_signup. destruct (Py.truthy _); unflagged.
Qed.

Lemma unflagged_signup (E : env) (instruction instruction_lower site : string)
    (fields : gmap string string) (t : nat) :
  unflagged (fst (_handle_signup E instruction instruction_lower site fields t)).
Proof.
  unfold _handle_signup, bind. fold (required_fields site). cbv zeta.
  destruct (resolve_fields E _ fields site ∅ t) as [generated t1].
  destruct (String.eqb site "linkedin") eqn:Hlinkedin.
  - destruct (resolve_fields E ["first_name"; "last_name"] fields site generated t1)
      as [generated' t2].
    match goal with
    | |- context [filter ?P ?l] => destruct (filter P l) as [|m ms] eqn:Hmissing
    end; [|unflagged].
    do 2 (apply Forall_cons_2; [simpl; congruence|]).
    pose proof Hlinkedin as Hsite. apply String.eqb_eq in Hsite. subst site.
    rewrite linkedin_required_fields in Hmissing.
    apply (unflagged_signup_steps generated' "linkedin").
    intros _ k Hk. by apply (not_missing generated' (required_fields "linkedin")).
  - unfold ret at 1.
    match goal with
    | |- context [filter ?P ?l] => destruct (filter P l) as [|m ms] eqn:Hmissing
    end; [|unflagged].
    do 2 (apply Forall_cons_2; [simpl; congruence|]).
    pose proof (unflagged_signup_steps generated site) as Hsteps.
    rewrite Hlinkedin in Hsteps. apply Hsteps. intros [=].
Qed.

Lemma unflagged_navigation (instruction instruction_lower site : string)
    (fields : gmap string string) :
  unflagged (_handle_navigation instruction instruction_lower site fields).
Proof.
  unfold _handle_navigation.
  destruct (negb _); [unflagged|].
  destruct (Re.search _ _); unflagged.
Qed.

End FlagFacts.

Lemma parse_unflagged (E : Parser.env) (instruction : string) :
  unflagged (Parser.parse E instruction).
Proof.
  unfold Parser.parse. destruct (negb _); [by repeat constructor|].
  unfold Parser._parse_simple.
  destruct (String.eqb _ "search"); [apply unflagged_search|].
  destruct (String.eqb _ "login"); [apply unflagged_login|].
  destruct (String.eqb _ "signup"); [apply unflagged_signup|].
  destruct (String.eqb _ "navigate"); [apply unflagged_navigation|].
  destruct (negb _); by repeat constructor.
Qed.

(** X6. The compiler marks no action as random data: in every list it
    returns, also when random data is in play and the values typed were
    generated, no action carries [is_random_data = True]. The LinkedIn
    signup handler, the only one that sets the key, tests the dictionary of
    resolved fields, in which every field it types is present. *)
Theorem compiler_never_flags_random_data (E : Parser.env) (instruction : string) :
  unflagged (Parser.parse E instruction).
Proof. apply parse_unflagged. Qed.

(** ** The instruction and the query of a search *)

Section StripFacts.

Lemma rstrip_by_idem (p : ascii -> bool) (s : string) :
  Py.rstrip_by p (Py.rstrip_by p s) = Py.rstrip_by p s.
Proof.
  induction s as [|c s IH]; simpl; [done|].
  destruct (Py.rstrip_by p s) as [|d r] eqn:Hr.
  - destruct (p c) eqn:Hc; simpl; [done|]. by rewrite Hc.
  - simpl in IH. simpl. by rewrite IH.
Qed.

Lemma lstrip_by_head (p : ascii -> bool) (s : string) :
  Py.lstrip_by p s = EmptyString \/
  exists c t, Py.lstrip_by p s = String c t /\ p c = false.
Proof.
  induction s as [|c s IH]; simpl; [by left|].
  destruct (p c) eqn:Hc; [done|]. right. by exists c, s.
Qed.

Lemma strip_by_idem (p : ascii -> bool) (s : string) :
  Py.rstrip_by p (Py.lstrip_by p (Py.rstrip_by p (Py.lstrip_by p s))) =
  Py.rstrip_by p (Py.lstrip_by p s).
Proof.
  destruct (lstrip_by_head p s) as [->|(c & t & -> & Hc)]; [done|].
  assert (Hhead : exists r, Py.rstrip_by p (String c t) = String c r).
  { simpl. destruct (Py.rstrip_by p t); rewrite ?Hc; by eexists. }
  destruct Hhead as [r Hr]. rewrite Hr. simpl Py.lstrip_by. rewrite Hc.
  rewrite <- Hr. apply rstrip_by_idem.
Qed.

(** [s.strip().strip() == s.strip()] *)
Lemma strip_idem (s : string) : Py.strip (Py.strip s) = Py.strip s.
Proof. apply strip_by_idem. Qed.

End StripFacts.

Lemma parse_strips (E : Parser.env) (instruction : string) :
  Parser.parse E (Py.strip instruction) = Parser.parse E instruction.
Proof. unfold Parser.parse. by rewrite strip_idem. Qed.

(** X7. White space around the instruction is ignored: the compiler returns
    for an instruction what it returns for the instruction stripped. *)
Theorem parse_strips_instruction (E : Parser.env) (instruction : string) :
  Parser.parse E (Py.strip instruction) = Parser.parse E instruction.
Proof. apply parse_strips. Qed.

Section CaseFacts.

Lemma no_upper_append (s t : string) : no_upper s -> no_upper t -> no_upper (s +:+ t).
Proof.
  unfold no_upper. induction s as [|c s IH]; simpl; [done|].
  intros [Hc Hs]%andb_prop Ht. by rewrite Hc, IH.
Qed.

Lemma no_upper_cons (c : ascii) (s : string) :
  Py.is_upper c = false -> no_upper s -> no_upper (String c s).
Proof. unfold no_upper. simpl. by intros -> ->. Qed.

Lemma no_upper_head (c : ascii) (s : string) : no_upper (String c s) -> Py.is_upper c = false.
Proof. unfold no_upper. simpl. intros [Hc _]%andb_prop. by destruct (Py.is_upper c). Qed.

Lemma no_upper_lstrip_by (p : ascii -> bool) (s : string) :
  no_upper s -> no_upper (Py.lstrip_by p s).
Proof.
  induction s as [|c s IH]; simpl; [done|].
  intros Hs. destruct (p c); [|done]. apply IH. by eapply no_upper_tail.
Qed.

Lemma no_upper_strip (s : string) : no_upper s -> no_upper (Py.strip s).
Proof. intros Hs. by apply no_upper_rstrip_by, no_upper_lstrip_by. Qed.

Lemma no_upper_replace_go (old new s : string) :
  no_upper new -> forall skip, no_upper s -> no_upper (Py.replace_go old new s skip).
Proof.
  intros Hnew. induction s as [|c s IH]; intros skip Hs; simpl; [done|].
  pose proof (no_upper_tail _ _ Hs) as Htail.
  destruct skip as [|k]; [|by apply IH].
  destruct (Py.startswith old (String c s)).
  - apply no_upper_append; [done | by apply IH].
  - apply no_upper_cons; [by eapply no_upper_head | by apply IH].
Qed.

Lemma no_upper_rev_app (s acc : string) :
  no_upper s -> no_upper acc -> no_upper (String.rev_app s acc).
Proof.
  revert acc. induction s as [|c s IH]; intros acc Hs Hacc; simpl; [done|].
  apply IH; [by eapply no_upper_tail|].
  apply no_upper_cons; [by eapply no_upper_head | done].
Qed.

Lemma no_upper_rev (s : string) : no_upper s -> no_upper (String.rev s).
Proof. intros Hs. by apply no_upper_rev_app. Qed.

Lemma no_upper_split_ws_go (cur : option string) (s : string) :
  no_upper (default EmptyString cur) -> no_upper s ->
  Forall no_upper (Py.split_ws_go cur s).
Proof.
  revert cur. induction s as [|c s IH]; intros cur Hcur Hs; simpl.
  - destruct cur as [w|]; simpl; [|constructor].
    constructor; [by apply no_upper_rev | constructor].
  - pose proof (no_upper_tail _ _ Hs) as Htail.
    destruct (Py.is_space c).
    + apply Forall_app. split; [|by apply IH].
      destruct cur as [w|]; simpl; [|constructor].
      constructor; [by apply no_upper_rev | constructor].
    + apply IH; [|done]. simpl.
      apply no_upper_cons; [by eapply no_upper_head | done].
Qed.

Lemma no_upper_join (sep : string) (l : list string) :
  no_upper sep -> Forall no_upper l -> no_upper (Py.join sep l).
Proof.
  intros Hsep. induction 1 as [|x l Hx Hl IH]; simpl; [done|].
  destruct l as [|y l]; [done|].
  apply no_upper_append; [done|]. by apply no_upper_append.
Qed.

Lemma no_upper_squeeze (s : string) : no_upper s -> no_upper (Py.squeeze s).
Proof.
  intros Hs. apply no_upper_join; [done|]. by apply no_upper_split_ws_go.
Qed.

Lemma no_upper_remove (words : list string) (q : string) :
  no_upper q -> no_upper (fold_left (fun q word => Py.replace word " " q) words q).
Proof.
  revert q. induction words as [|w words IH]; intros q Hq; simpl; [done|].
  apply IH. by apply no_upper_replace_go.
Qed.

Lemma extract_search_query_lower (instruction : string) :
  no_upper (Parser._extract_search_query instruction).
Proof.
  unfold Parser._extract_search_query.
  destruct (Parser.first_match false Parser.query_patterns (Py.lower instruction))
    as [g|] eqn:Hg; [|done].
  apply no_upper_strip, no_upper_squeeze, no_upper_remove, no_upper_strip.
  by eapply lowered_group.
Qed.

End CaseFacts.

Section QueryFacts.

Import Parser.

Ltac searches_only :=
  unfold searches_only;
  repeat first
    [ apply Forall_nil_2
    | apply Forall_cons_2; [simpl; intros; first [discriminate | congruence]|]
    | apply Forall_app_2 ].

Lemma searches_only_search (instruction instruction_lower site : string)
    (fields : gmap string string) :
  searches_only (_extract_search_query instruction)
    (_handle_search instruction instruction_lower site fields).
Proof.
  unfold _handle_search.
  destruct (Py.truthy _); [|searches_only].
  destruct (_ || _); [|searches_only].
  destruct (mem site _); searches_only.
Qed.

Lemma searches_only_login_steps (q email password site : string) :
  searches_only q
    (if mem site ["twitter"; "x.com"] then _handle_twitter_login email password site
     else if String.eqb site "facebook" then _handle_facebook_login email password site
     else if String.eqb site "linkedin" then _handle_linkedin_login email password site
     else _handle_generic_login email password site).
Proof.
  destruct (mem site _); [searches_only|].
  destruct (String.eqb site "facebook"); [searches_only|].
  destruct (String.eqb site "linkedin"); [searches_only|].
  unfold _handle_generic_login. destruct (Py.contains _ _); searches_only.
Qed.

Lemma searches_only_signup_steps (q : string) (fields : gmap string string)
    (site : string) :
  searches_only q
    (if mem site ["twitter"; "x.com"] then _handle_twitter_signup fields site
     else if String.eqb site "facebook" then _handle_facebook_signup fields site
     else if String.eqb site "linkedin" then _handle_linkedin_signup fields site
     else _handle_generic_signup fields site).
Proof.
  destruct (mem site _); [searches_only|].
  destruct (String.eqb site "facebook"); [searches_only|].
  destruct (String.eqb site "linkedin"); [searches_only|].
  unfold _handle_generic_signup. destruct (Py.truthy _); searches_only.
Qed.

Lemma searches_only_login (E : env) (q instruction instruction_lower site : string)
    (fields : gmap string string) (t : nat) :
  searches_only q (fst (_handle_login E instruction instruction_lower site fields t)).
Proof.
  unfold _handle_login, bind.
  destruct (login_credentials E site fields t) as [[email password] t'].
  simpl fst. simpl snd.
  destruct (login_missing email password) as [|m ms]; simpl; [|searches_only].
  do 2 (apply Forall_cons_2; [simpl; intros; discriminate|]).
  apply searches_only_login_steps.
Qed.

Lemma searches_only_signup (E : env) (q instruction instruction_lower site : string)
    (fields : gmap string string) (t : nat) :
  searches_only q (fst (_handle_signup E instruction instruction_lower site fields t)).
Proof.
  unfold _handle_signup, bind.
  destruct (resolve_fields E _ fields site ∅ t) as [generated t1].
  destruct (if String.eqb site "linkedin" then _ else _) as [generated' t2].
  match goal with
  | |- context [filter ?P ?l] => destruct (filter P l) as [|m ms]
  end; simpl; [|searches_only].
  do 2 (apply Forall_cons_2; [simpl; intros; discriminate|]).
  apply searches_only_signup_steps.
Qed.

Lemma searches_only_navigation (q instruction instruction_lower site : string)
    (fields : gmap string string) :
  searches_only q (_handle_navigation instruction instruction_lower site fields).
Proof.
  unfold _handle_navigation.
  destruct (negb _); [searches_only|].
  destruct (Re.search _ _); searches_only.
Qed.

Lemma searches_only_parse (E : env) (instruction : string) :
  searches_only (_extract_search_query (Py.strip instruction)) (parse E instruction).
Proof.
  unfold parse. destruct (negb _); [searches_only|].
  unfold _parse_simple.
  destruct (String.eqb _ "search"); [apply searches_only_search|].
  destruct (String.eqb _ "login"); [apply searches_only_login|].
  destruct (String.eqb _ "signup"); [apply searches_only_signup|].
  destruct (String.eqb _ "navigate"); [apply searches_only_navigation|].
  destruct (negb _); searches_only.
Qed.

End QueryFacts.

(** X8. For an instruction of code points below 256, the query of every
    Search action the compiler emits is the text matched in the lower-cased
    instruction, with the site names and the shopping words taken out:
    lower-casing leaves it as it is, so that it holds no upper-case letter
    whatever capitals the user wrote, and it has no white space at either
    end. *)
Theorem search_query_normalised (E : Parser.env) (instruction : string) (a : action_data) :
  a ∈ Parser.parse E instruction -> a_action a = Some "search" ->
  exists q, a_query a = Some q /\ Py.lower q = q /\ no_upper q /\ Py.strip q = q.
Proof.
  intros Hin Hsearch.
  pose proof (searches_only_parse E instruction) as Hall.
  unfold searches_only in Hall. rewrite Forall_forall in Hall.
  exists (Parser._extract_search_query (Py.strip instruction)).
  split; [by apply Hall|].
  split; [apply lower_fixed, extract_search_query_lower|].
  split; [apply extract_search_query_lower|].
  unfold Parser._extract_search_query.
  destruct (Parser.first_match _ _ _); [apply strip_idem | done].
Qed.

Lemma search_query_normalised_witness :
  exists q,
    a_query (search_action "quantum physics" "#searchInput, input[name='search']"
               "Search for quantum physics on wikipedia") = Some q /\
    Py.lower q = q /\ no_upper q /\ Py.strip q = q.
Proof.
  apply (search_query_normalised Scenario.env_off
           "  Search for Quantum Physics on Wikipedia ").
  - vm_compute. do 2 apply list_elem_of_further. apply list_elem_of_here.
  - reflexivity.
Defined.

(** ** Login and the username *)

Section UsernameFacts.

Import Parser.

Lemma get_field_value_agree (E : env) (field : string)
    (fields fields' : gmap string string) (site : string) (t : nat) :
  fields !! field = fields' !! field ->
  _get_field_value E field fields site t = _get_field_value E field fields' site t.
Proof. intros Hsame. unfold _get_field_value, provided. by rewrite Hsame. Qed.

End UsernameFacts.

(** X9. With random data in play a login never uses the user name the
    instruction gives: the e-mail is resolved first, and when the
    instruction has none a random e-mail is generated, so that the user name
    is not looked at. Two dictionaries of extracted fields that differ in the
    user name only compile to the same list. *)
Theorem login_ignores_username (E : Parser.env)
    (instruction instruction_lower site : string)
    (fields fields' : gmap string string) (t : nat) :
  random_on E = true ->
  (forall k, k <> "username" -> fields !! k = fields' !! k) ->
  Parser._handle_login E instruction instruction_lower site fields t =
  Parser._handle_login E instruction instruction_lower site fields' t.
Proof.
  intros Hon Hsame.
  unfold Parser._handle_login, Parser.bind.
  assert (Hcreds : Parser.login_credentials E site fields t =
                   Parser.login_credentials E site fields' t).
  { unfold Parser.login_credentials, Parser.bind, Parser.ret.
    rewrite (get_field_value_agree E "email" fields fields') by (by apply Hsame).
    destruct (get_field_value_on E "email" fields' site t Hon) as (e & t1 & -> & He).
    { intros t'. apply generate_email_truthy. }
    unfold Parser.nonempty. rewrite He.
    by rewrite (get_field_value_agree E "password" fields fields') by (by apply Hsame). }
  by rewrite Hcreds.
Qed.

Lemma login_ignores_username_witness :
  Parser._handle_login Scenario.env_random "login to github as bob" "login to github as bob"
    "github" {["username" := "bob"; "password" := "secret1"]} 0 =
  Parser._handle_login Scenario.env_random "login to github as bob" "login to github as bob"
    "github" {["password" := "secret1"]} 0.
Proof.
  apply login_ignores_username; [reflexivity|].
  intros k Hk. by rewrite lookup_insert_ne.
Defined.

(** ** Navigation to a known site *)

Section SiteFacts.

Import Parser.

Lemma find_some_contains (il : string) (keys : list string) (key : string) :
  In key keys -> Py.contains key il = true ->
  exists site, find (fun site => Py.contains site il) keys = Some site /\ In site keys.
Proof.
  intros Hin Hkey. induction keys as [|k keys IH]; [done|].
  simpl. destruct (Py.contains k il) eqn:Hk.
  - exists k. split; [done | by left].
  - destruct Hin as [->|Hin]; [congruence|].
    destruct (IH Hin) as (site & Hfind & Hsite). exists site. split; [done | by right].
Qed.

Lemma config_of_key (site : string) :
  In site (map fst site_configs) -> exists c, config_of site = Some c.
Proof.
  unfold config_of. generalize site_configs. intros l.
  induction l as [|[k c] l IH]; simpl; [done|].
  destruct (String.eqb site k) eqn:Hk; [by eauto|].
  intros [Heq|Hin]; [|by apply IH].
  subst k. by rewrite String.eqb_refl in Hk.
Qed.

(** A site is recognised when one of its names occurs in the instruction,
    wherever it occurs. *)
Lemma detect_site_known (il key : string) :
  In key (map fst site_configs) -> Py.contains key il = true ->
  exists c, config_of (_detect_site il) = Some c.
Proof.
  intros Hin Hkey. unfold _detect_site.
  destruct (_ || _); [by eexists|].
  destruct (_ || _); [by eexists|].
  destruct (find_some_contains il _ key Hin Hkey) as (site & -> & Hsite).
  by apply config_of_key.
Qed.

End SiteFacts.

(** X10. A navigation goes to a known site as soon as one of the thirteen site
    names occurs in the instruction, be it inside a word or inside another
    address: the list compiled is the navigation to the home page of a site
    of the table and a wait of three seconds, and the address the
    instruction gives is not used. *)
Theorem navigation_prefers_known_site (E : Parser.env) (instruction key : string) :
  let text := Py.strip instruction in
  In key (map fst Parser.site_configs) ->
  Py.contains key (Py.lower text) = true ->
  Parser._detect_action_type (Py.lower text) = "navigate" ->
  exists site c,
    Parser.config_of site = Some c /\
    Parser.parse E instruction = [navigate (Parser.url c); wait 3].
Proof.
  intros text Hin Hkey Hnavigate.
  destruct (detect_site_known (Py.lower text) key Hin Hkey) as (c & Hc).
  exists (Parser._detect_site (Py.lower text)), c. split; [done|].
  unfold Parser.parse. fold text.
  destruct (Py.truthy text) eqn:Htext.
  2:{ destruct text; [|done]. by rewrite detect_action_type_empty in Hnavigate. }
  simpl negb. cbv iota. unfold Parser._parse_simple. rewrite Hnavigate.
  change (String.eqb "navigate" "search") with false.
  change (String.eqb "navigate" "login") with false.
  change (String.eqb "navigate" "signup") with false.
  change (String.eqb "navigate" "navigate") with true. cbv iota.
  unfold Parser._handle_navigation, Parser._get_site_url. rewrite Hc.
  destruct (String.eqb (Parser._detect_site (Py.lower text)) "unknown") eqn:Hunknown;
    [|done].
  apply String.eqb_eq in Hunknown. rewrite Hunknown in Hc. done.
Qed.

Lemma navigation_prefers_known_site_witness :
  exists site c,
    Parser.config_of site = Some c /\
    Parser.parse Scenario.env_off "open netflix.com" = [navigate (Parser.url c); wait 3].
Proof.
  apply (navigation_prefers_known_site Scenario.env_off "open netflix.com" "x.com").
  - simpl. tauto.
  - vm_compute. reflexivity.
  - vm_compute. reflexivity.
Defined.

Lemma netflix_goes_to_x :
  Parser.parse Scenario.env_off "open netflix.com" = [navigate "https://x.com"; wait 3].
Proof. vm_compute. reflexivity. Qed.

(** ** The verdict of a page validation *)

Section LiteralFacts.

Import Re.

Lemma char_matches_refl (ic : bool) (c : ascii) : char_matches ic c c = true.
Proof. unfold char_matches. destruct ic; apply Ascii.eqb_refl. Qed.

(** A literal matches where the subject starts with it. *)
Lemma run_re_lit (ic : bool) (w s : string) (gs : list (nat * string)) :
  Py.startswith w s = true -> run_re ic (lit w) (s, gs) <> [].
Proof.
  revert s. induction w as [|c w IH]; intros s; simpl; [done|].
  destruct s as [|x s]; [done|].
  intros [Hc Hw]%andb_prop. apply Ascii.eqb_eq in Hc as ->.
  destruct w as [|d w].
  - simpl. by rewrite char_matches_refl.
  - change (run_re ic (Seq (Lit x) (lit (String d w))) (String x s, gs) <> []).
    simpl run_re at 1. simpl fst. rewrite char_matches_refl. simpl flat_map.
    rewrite app_nil_r. by apply IH.
Qed.

Lemma search_from_lit (ic : bool) (w s : string) (pos : nat) :
  Py.contains w s = true -> search_from ic (lit w) s pos <> None.
Proof.
  revert pos. induction s as [|x s IH]; intros pos; simpl.
  - rewrite orb_false_r. intros Hw. pose proof (run_re_lit ic w EmptyString [] Hw).
    by destruct (run_re ic (lit w) (EmptyString, [])) as [|[rest g] l].
  - intros [Hw|Hw]%orb_prop.
    + pose proof (run_re_lit ic w (String x s) [] Hw).
      by destruct (run_re ic (lit w) (String x s, [])) as [|[rest g] l].
    + destruct (run_re ic (lit w) (String x s, [])) as [|[rest g] l]; [|done].
      by apply IH.
Qed.

End LiteralFacts.

Section ValidationFacts.

Context {Page : Type} (W : world Page) (V : Validation.reader Page).

Import Validation.

Lemma matched_phrase (phrases : list string) (phrase text : string) :
  In phrase phrases -> Py.contains phrase text = true ->
  matched (map Re.lit phrases) text <> [].
Proof.
  intros Hin Hphrase. induction phrases as [|p ps IH]; [done|].
  unfold matched. simpl.
  destruct (Re.search_ic (Re.lit p) text) as [m|] eqn:Hm; [done|].
  simpl. destruct Hin as [->|Hin]; [|by apply IH].
  by apply (search_from_lit true phrase text 0) in Hphrase.
Qed.

Lemma execute_validate_page_read (a : action_data) (en : engine) (pg pg' : Page)
    (html body : string) :
  page_read W V pg html body pg' ->
  _execute_validate_page W V a en pg = judge W V a en html body pg'.
Proof.
  intros (pg1 & Hhtml & Hbody). unfold _execute_validate_page.
  by rewrite Hhtml, Hbody.
Qed.

End ValidationFacts.

(** X11. On a page whose address holds "wikipedia.org" and whose content
    shows two of the thirteen Wikipedia indicators, every validation passes:
    whatever its type, its text and the number of indicators it asks for,
    and whatever failure the page reports. *)
Theorem validation_passes_on_wikipedia {Page : Type} (W : world Page)
    (V : Validation.reader Page) (a : action_data) (en : engine) (pg pg' : Page)
    (html body : string) :
  page_read W V pg html body pg' ->
  Py.contains "wikipedia.org" (Py.lower (page_url W pg')) = true ->
  2 <= length (Validation.present Validation.wikipedia_indicators (lowered_page html body)) ->
  v_passed (fst (Validation._execute_validate_page W V a en pg)) = true.
Proof.
  intros Hread Hurl Hcount.
  rewrite (execute_validate_page_read W V a en pg pg' html body Hread).
  unfold Validation.judge. fold (lowered_page html body).
  destruct (if _ || _ || _ then _ else _) as [extracted pg1].
  destruct (if Py.contains "linkedin.com" _ && _ then _ else _); [|done].
  rewrite Hurl. apply Nat.leb_le in Hcount. rewrite Hcount.
  by destruct (Validation.extract_wikipedia_content V pg1).
Qed.

Lemma validation_passes_on_wikipedia_witness :
  v_passed
    (fst (Validation._execute_validate_page
            (Scenario.static_world "https://en.wikipedia.org/wiki/Apple" [] false false)
            (static_reader "<a href='/wiki/Main_Page'>Main page</a>" "Wrong password")
            (validate_page "login" "Feed" 5 "Verify login successful")
            initial_engine tt)) = true.
Proof.
  apply (validation_passes_on_wikipedia _ _ _ _ tt tt
           "<a href='/wiki/Main_Page'>Main page</a>" "Wrong password").
  - by exists tt.
  - reflexivity.
  - vm_compute. lia.
Defined.

(** X12. A login validation fails as soon as the page shows one of the nine
    login failure phrases: the indicators of success are not looked at, so
    that no text and no threshold, not even zero, lets it pass. *)
Theorem login_failure_phrase_wins {Page : Type} (W : world Page)
    (V : Validation.reader Page) (a : action_data) (en : engine) (pg pg' : Page)
    (html body phrase : string) :
  page_read W V pg html body pg' ->
  no_shortcut W pg' ->
  a_type a = Some "login" ->
  In phrase Validation.login_failure_phrases ->
  Py.contains phrase (lowered_page html body) = true ->
  let v := fst (Validation._execute_validate_page W V a en pg) in
  v_passed v = false /\
  v_details v = "❌ Login failed: Invalid credentials or account not found".
Proof.
  intros Hread [Hlinkedin Hwikipedia] Htype Hin Hphrase.
  rewrite (execute_validate_page_read W V a en pg pg' html body Hread).
  unfold Validation.judge. fold (lowered_page html body).
  destruct (if _ || _ || _ then _ else _) as [extracted pg1].
  rewrite Hlinkedin, Hwikipedia. simpl andb. cbv iota.
  change (2 <=? length []) with false. cbv iota.
  unfold Validation.failure_details. rewrite Htype. simpl default.
  change (String.eqb "login" "login") with true. cbv iota.
  pose proof (matched_phrase _ _ _ Hin Hphrase) as Hmatched.
  fold Validation.login_failure in Hmatched.
  by destruct (Validation.matched Validation.login_failure (lowered_page html body)).
Qed.

Lemma login_failure_phrase_wins_witness :
  let v := fst (Validation._execute_validate_page
                  (Scenario.static_world "https://example.com/login" [] false false)
                  (static_reader "<p>Wrong password. Try again</p>"
                     "Profile Settings Logout Dashboard @bob")
                  (validate_page "login" "Profile" 0 "Verify login successful")
                  initial_engine tt) in
  v_passed v = false /\
  v_details v = "❌ Login failed: Invalid credentials or account not found".
Proof.
  apply (login_failure_phrase_wins _ _ _ _ tt tt
           "<p>Wrong password. Try again</p>" "Profile Settings Logout Dashboard @bob"
           "wrong password").
  - by exists tt.
  - split; reflexivity.
  - reflexivity.
  - simpl. tauto.
  - vm_compute. reflexivity.
Defined.

(** X13. A validation that names none of the types login, signup, shopping
    and search, and no text, finds no indicator: away from the LinkedIn and
    Wikipedia pages it passes exactly when it asks for no indicator at all.
    With the defaults of the handler it fails, whatever the page shows. *)
Theorem validation_without_type_or_text {Page : Type} (W : world Page)
    (V : Validation.reader Page) (a : action_data) (en : engine) (pg pg' : Page)
    (html body : string) :
  page_read W V pg html body pg' ->
  no_shortcut W pg' ->
  default "generic" (a_type a) ∉ ["login"; "signup"; "shopping"; "search"] ->
  default EmptyString (a_text a) = EmptyString ->
  let v := fst (Validation._execute_validate_page W V a en pg) in
  let min_indicators := default 1%Z (a_min_indicators a) in
  v_passed v = (min_indicators <=? 0)%Z /\
  ((0 < min_indicators)%Z ->
   v_details v =
   "❌ Validation failed. Need " +:+ Py.str_of_Z min_indicators +:+ " indicators, found 0").
Proof.
  intros Hread [Hlinkedin Hwikipedia] Htype Htext.
  rewrite (execute_validate_page_read W V a en pg pg' html body Hread).
  unfold Validation.judge. fold (lowered_page html body).
  destruct (if _ || _ || _ then _ else _) as [extracted pg1].
  rewrite Hlinkedin, Hwikipedia. simpl andb. cbv iota.
  change (2 <=? length []) with false. cbv iota.
  assert (Hne : forall k, k ∈ ["login"; "signup"; "shopping"; "search"] ->
                          String.eqb (default "generic" (a_type a)) k = false).
  { intros k Hk. apply String.eqb_neq. intros Heq. apply Htype. by rewrite Heq. }
  unfold Validation.failure_details, Validation.success_indicators.
  rewrite !Hne by (repeat constructor). rewrite Htext. simpl Py.truthy. cbv iota.
  simpl app. change (size (list_to_set [] : gset string)) with 0.
  change (Z.of_nat 0) with 0%Z. change (Py.str_of_nat 0) with "0".
  destruct (default 1%Z (a_min_indicators a) <=? 0)%Z eqn:Hmin; simpl.
  - split; [done|]. apply Z.leb_le in Hmin. lia.
  - done.
Qed.

Lemma validation_without_type_or_text_witness :
  let v := fst (Validation._execute_validate_page
                  (Scenario.static_world "https://example.com" [] false false)
                  (static_reader "<h1>Welcome</h1>" "Welcome, Bob. Profile Settings")
                  (ActionData (Some "validate_page") None None None None None None None
                     None None None None None None None None None)
                  initial_engine tt) in
  v_passed v = false /\
  v_details v = "❌ Validation failed. Need 1 indicators, found 0".
Proof.
  destruct (validation_without_type_or_text
              (Scenario.static_world "https://example.com" [] false false)
              (static_reader "<h1>Welcome</h1>" "Welcome, Bob. Profile Settings")
              (ActionData (Some "validate_page") None None None None None None None
                 None None None None None None None None None)
              initial_engine tt tt "<h1>Welcome</h1>" "Welcome, Bob. Profile Settings")
    as [Hpassed Hdetails].
  - by exists tt.
  - split; reflexivity.
  - compute_done.
  - reflexivity.
  - split; [exact Hpassed | apply Hdetails; reflexivity].
Defined.

(** X14. When the page cannot be read the validation is recorded as failed
    with the message of the exception, and nothing else happens: the page
    content is not extracted and the execution state is left as it was. *)
Theorem validation_of_unreadable_page {Page : Type} (W : world Page)
    (V : Validation.reader Page) (a : action_data) (en : engine) (pg pg' : Page)
    (e : string) :
  Validation.content V (wait_for_stability W pg) = (Validation.Threw e, pg') ->
  _execute_validate_page (Validation.with_validation W V) a en pg =
  (StepResult "validate_page" "Failed" ("Validation error: " +:+ e)
     None None None None None None None None None false,
   en, pg').
Proof.
  intros Hcontent. unfold _execute_validate_page. simpl validate.
  unfold Validation._execute_validate_page. rewrite Hcontent.
  by destruct en.
Qed.

Lemma validation_of_unreadable_page_witness :
  _execute_validate_page
    (Validation.with_validation
       (Scenario.static_world "https://example.com" [] false false)
       (broken_reader "Target page, context or browser has been closed"))
    (validate_page "login" "Profile" 2 "Verify login successful") initial_engine tt =
  (StepResult "validate_page" "Failed"
     "Validation error: Target page, context or browser has been closed"
     None None None None None None None None None false,
   initial_engine, tt).
Proof.
  by apply (validation_of_unreadable_page
              (Scenario.static_world "https://example.com" [] false false)
              (broken_reader "Target page, context or browser has been closed")).
Defined.

(** ** The indicators of the text of a validation *)

Section LiteralText.

Import Re.

Lemma lower_no_upper (s : string) : no_upper s -> Py.lower s = s.
Proof.
  unfold no_upper. induction s as [|c s IH]; simpl; [done|].
  intros [Hc Hs]%andb_prop. rewrite IH by done.
  unfold Py.lower_char. by destruct (Py.is_upper c).
Qed.

Lemma string_length_append (s t : string) :
  String.length (s +:+ t) = String.length s + String.length t.
Proof. induction s as [|c s IH]; simpl; [done|]. by rewrite IH. Qed.

Lemma take_append (s t : string) : Py.take (String.length s) (s +:+ t) = s.
Proof. induction s as [|c s IH]; simpl; [by destruct t|]. by rewrite IH. Qed.

(** Whatever a literal matches without regard to case is the literal up to
    case. *)
Lemma run_re_lit_text (w s : string) (gs : list (nat * string)) :
  Forall (fun st => exists x, s = x +:+ fst st /\ Py.lower x = Py.lower w)
    (run_re true (lit w) (s, gs)).
Proof.
  revert s. induction w as [|c w IH]; intros s.
  - simpl. constructor; [|constructor]. by exists EmptyString.
  - destruct w as [|d w].
    + simpl. destruct s as [|x s]; [constructor|].
      unfold char_matches.
      destruct (Ascii.eqb (Py.lower_char c) (Py.lower_char x)) eqn:Hx; [|constructor].
      apply Ascii.eqb_eq in Hx.
      constructor; [|constructor]. exists (String x EmptyString).
      split; [done|]. simpl. by rewrite Hx.
    + change (Forall (fun st => exists x, s = x +:+ fst st /\
                                Py.lower x = Py.lower (String c (String d w)))
                (flat_map (run_re true (lit (String d w)))
                   (run_re true (Lit c) (s, gs)))).
      simpl run_re at 2. simpl fst.
      destruct s as [|x s]; [constructor|].
      unfold char_matches.
      destruct (Ascii.eqb (Py.lower_char c) (Py.lower_char x)) eqn:Hx; [|constructor].
      apply Ascii.eqb_eq in Hx.
      simpl flat_map. rewrite app_nil_r.
      eapply Forall_impl; [apply IH|].
      intros st (y & -> & Hy). exists (String x y). split; [done|].
      change (String (Py.lower_char x) (Py.lower y) =
              String (Py.lower_char c) (Py.lower (String d w))).
      by rewrite Hx, Hy.
Qed.

Lemma no_upper_prefix (x rest : string) : no_upper (x +:+ rest) -> no_upper x.
Proof.
  unfold no_upper. induction x as [|c x IH]; simpl; [done|].
  intros [Hc Hx]%andb_prop. by rewrite Hc, IH.
Qed.

Lemma first_state_text (w s rest : string) (g : list (nat * string))
    (l : list mstate) :
  no_upper w -> no_upper s ->
  run_re true (lit w) (s, []) = (rest, g) :: l ->
  Py.take (String.length s - String.length rest) s = w.
Proof.
  intros Hw Hs Hrun. pose proof (run_re_lit_text w s []) as Hall.
  rewrite Hrun in Hall. apply Forall_cons in Hall as [(y & Hy & Hlow) _].
  simpl in Hy. subst s.
  assert (y = w) as ->.
  { rewrite <- (lower_no_upper w Hw), <- Hlow. symmetry.
    apply lower_no_upper. by eapply no_upper_prefix. }
  rewrite string_length_append.
  replace (String.length w + String.length rest - String.length rest)
    with (String.length w) by lia.
  apply take_append.
Qed.

Lemma search_from_unfold (ic : bool) (r : regex) (s : string) (pos : nat) :
  search_from ic r s pos =
  match run_re ic r (s, []) with
  | (rest, gs) :: _ =>
      Some (MatchObj pos (Py.take (String.length s - String.length rest) s) gs)
  | [] =>
      match s with
      | EmptyString => None
      | String _ s' => search_from ic r s' (S pos)
      end
  end.
Proof. by destruct s. Qed.

Lemma search_from_lit_text (w s : string) (pos : nat) :
  no_upper w -> no_upper s -> Py.contains w s = true ->
  exists m, search_from true (lit w) s pos = Some m /\ m_text m = w.
Proof.
  intros Hw. revert pos. induction s as [|x s IH]; intros pos Hs Hin.
  - rewrite search_from_unfold. simpl in Hin. rewrite orb_false_r in Hin.
    pose proof (run_re_lit true w EmptyString [] Hin) as Hne.
    destruct (run_re true (lit w) (EmptyString, [])) as [|[rest g] l] eqn:Hrun; [done|].
    eexists. split; [reflexivity|]. by eapply first_state_text.
  - rewrite search_from_unfold.
    destruct (run_re true (lit w) (String x s, [])) as [|[rest g] l] eqn:Hrun.
    + simpl in Hin. apply orb_prop in Hin as [Hin|Hin].
      * pose proof (run_re_lit true w (String x s) [] Hin) as Hne. by rewrite Hrun in Hne.
      * apply IH; [by eapply no_upper_tail | done].
    + eexists. split; [reflexivity|]. by eapply first_state_text.
Qed.

End LiteralText.

Section CountFacts.

Lemma size_two (x y : string) (l : list string) :
  x ∈ l -> y ∈ l -> x <> y -> 2 <= size (list_to_set l : gset string).
Proof.
  intros Hx Hy Hne.
  assert (Hsub : ({[x; y]} : gset string) ⊆ list_to_set l).
  { intros z [->%elem_of_singleton| ->%elem_of_singleton]%elem_of_union;
      by apply elem_of_list_to_set. }
  apply subseteq_size in Hsub.
  rewrite size_union in Hsub by set_solver.
  by rewrite !size_singleton in Hsub.
Qed.

Lemma no_upper_lowered_page (html body : string) : no_upper (lowered_page html body).
Proof.
  unfold lowered_page. apply no_upper_append; [apply no_upper_lower|].
  apply no_upper_append; [done | apply no_upper_lower].
Qed.

End CountFacts.

(** X15. In a login validation a word of the text that is written with a
    capital, and whose lower-case form is one of the literal success
    patterns, counts as two indicators when the page shows it: the pattern
    contributes the word as matched, the text contributes it as written,
    and the two differ. With no failure phrase on the page, the validations
    "Feed" and "Profile" that the compiler emits with a threshold of two
    therefore pass on the one word. *)
Theorem text_indicator_counts_twice {Page : Type} (W : world Page)
    (V : Validation.reader Page) (a : action_data) (en : engine) (pg pg' : Page)
    (html body text word : string) :
  page_read W V pg html body pg' ->
  a_type a = Some "login" -> a_text a = Some text ->
  (default 1 (a_min_indicators a) <= 2)%Z ->
  map Py.strip (Py.split_char "," text) = [text] ->
  Py.lower text = word -> text <> word ->
  Re.lit word ∈ Validation.login_success ->
  Validation.matched Validation.login_failure (lowered_page html body) = [] ->
  Py.contains word (lowered_page html body) = true ->
  v_passed (fst (Validation._execute_validate_page W V a en pg)) = true.
Proof.
  intros Hread Htype Htext Hmin Hsplit Hlower Hne Hpattern Hfailure Hword.
  rewrite (execute_validate_page_read W V a en pg pg' html body Hread).
  unfold Validation.judge. fold (lowered_page html body).
  destruct (if _ || _ || _ then _ else _) as [extracted pg1].
  destruct (if Py.contains "linkedin.com" _ && _ then _ else _); [|done].
  destruct (2 <=? _).
  { by destruct (Validation.extract_wikipedia_content V pg1). }
  unfold Validation.failure_details. rewrite Htype. simpl default.
  change (String.eqb "login" "login") with true. cbv iota. rewrite Hfailure.
  assert (Hsize : 2 <= size (list_to_set
                               (Validation.success_indicators "login"
                                  (default EmptyString (a_text a))
                                  (lowered_page html body)) : gset string)).
  { rewrite Htext. simpl default.
    assert (Hw : no_upper word) by (rewrite <- Hlower; apply no_upper_lower).
    apply (size_two word text); [| |congruence].
    - unfold Validation.success_indicators.
      change (String.eqb "login" "login") with true. cbv iota.
      apply elem_of_app. left. apply elem_of_app. left.
      unfold Validation.matched. apply list_elem_of_omap.
      exists (Re.lit word). split; [done|].
      destruct (search_from_lit_text word (lowered_page html body) 0 Hw
                  (no_upper_lowered_page html body) Hword) as (m & Hm & Hmtext).
      unfold Re.search_ic. rewrite Hm. simpl. by rewrite Hmtext.
    - unfold Validation.success_indicators. apply elem_of_app. right.
      assert (Htruthy : Py.truthy text = true).
      { destruct text; [|done]. simpl in Hlower. subst word. done. }
      rewrite Htruthy, Hsplit. simpl. rewrite Hlower, Hword.
      apply list_elem_of_here. }
  destruct (_ <=? _)%Z eqn:Hle; [done|].
  apply Z.leb_gt in Hle. lia.
Qed.

Lemma text_indicator_counts_twice_witness :
  v_passed
    (fst (Validation._execute_validate_page
            (Scenario.static_world "https://www.example.com/" [] false false)
            (static_reader "<a>RSS feed</a>" "Sign in to continue")
            (validate_page "login" "Feed" 2 "Verify login successful")
            initial_engine tt)) = true.
Proof.
  apply (text_indicator_counts_twice _ _ _ _ tt tt
           "<a>RSS feed</a>" "Sign in to continue" "Feed" "feed").
  - by exists tt.
  - reflexivity.
  - reflexivity.
  - simpl. lia.
  - reflexivity.
  - reflexivity.
  - discriminate.
  - do 10 apply list_elem_of_further. apply list_elem_of_here.
  - vm_compute. reflexivity.
  - vm_compute. reflexivity.
Defined.

(** ** The steps of a run *)

Section StatusFacts.

Context {Page : Type} (W : world Page).

Lemma execute_navigate_status (a : action_data) (pg : Page) :
  passed_or_failed (fst (_execute_navigate W a pg)).
Proof.
  unfold _execute_navigate, passed_or_failed. destruct (negb _); [by right|].
  destruct (goto W _ pg) as [[e|] pg']; [by right | by left].
Qed.

Lemma execute_type_status (a : action_data) (field_type : string) (pg : Page) :
  passed_or_failed (fst (fst (_execute_type W a field_type pg))).
Proof.
  unfold passed_or_failed.
  destruct (Py.truthy (default EmptyString (a_value a))) eqn:Hvalue.
  - rewrite execute_type_unfold by done.
    pose proof (try_each_result (fun r => r_action r = "type" /\ r_status r = "Passed")
                  (_perform_type W (default EmptyString (a_value a)) field_type)
                  (type_candidates (page_url W (wait_for_stability W pg))
                     (default EmptyString (a_selector a)) field_type)
                  (wait_for_stability W pg)) as Hresult.
    destruct (try_each _ _ _) as [[[r1|] t1] pg2]; simpl in *.
    + left. by destruct (Hresult r1) as [_ ?]; [apply perform_type_passed | |].
    + destruct (generic_input W _ pg2) as [[] pg3]; [by left | by right].
  - unfold _execute_type. rewrite Hvalue. by right.
Qed.

Lemma execute_search_status (a : action_data) (st : exec_state) (pg : Page) :
  passed_or_failed (fst (fst (fst (_execute_search W a st pg)))).
Proof.
  unfold passed_or_failed.
  destruct (Py.truthy (default EmptyString (a_query a))) eqn:Hquery.
  - rewrite execute_search_unfold by done.
    pose proof (try_each_result
                  (fun rc => r_action (fst rc) = "search" /\ r_status (fst rc) = "Passed")
                  (search_with W (default EmptyString (a_query a)))
                  (search_candidates (default EmptyString (a_selector a)))
                  (wait_for_stability W pg)) as Hresult.
    destruct (try_each _ _ _) as [[[[r1 c1]|] t1] pg2]; simpl in *; [|by right].
    left. by destruct (Hresult (r1, c1)) as [_ ?]; [apply search_with_passed | |].
  - unfold _execute_search. rewrite Hquery. by right.
Qed.

Lemma execute_select_status (a : action_data) (field_type : string) (pg : Page) :
  passed_or_failed (fst (_execute_select W a field_type pg)).
Proof.
  unfold _execute_select, passed_or_failed. destruct (negb _); [by right|].
  destruct (wait_for_selector W _ _) as [[] pg1]; [|by right].
  destruct (select_option W _ ByValue _ pg1) as [[] pg2]; [by left|].
  destruct (select_option W _ ByLabel _ pg2) as [[] pg3]; [by left|].
  destruct (Py.isdigit _); [|by right].
  destruct (select_option W _ ByIndex _ pg3) as [[] pg4]; [by left | by right].
Qed.

Lemma execute_click_status (a : action_data) (pg : Page) :
  passed_or_failed (fst (fst (_execute_click W a pg))).
Proof.
  unfold _execute_click, passed_or_failed.
  pose proof (try_each_result (fun r => r_action r = "click" /\ r_status r = "Passed")
                (click_with W (default EmptyString (a_text a)))
                (click_strategies (page_url W (wait_for_stability W pg))
                   (default EmptyString (a_selector a)) (default EmptyString (a_text a)))
                (wait_for_stability W pg)) as Hresult.
  destruct (try_each _ _ _) as [[[r1|] t1] pg2]; simpl in *.
  - left. by destruct (Hresult r1) as [_ ?]; [apply click_with_passed | |].
  - destruct (Py.truthy _); [|by right].
    destruct (click_text W _ pg2) as [[] pg3]; [by left | by right].
Qed.

Lemma execute_validate_page_status (a : action_data) (en : engine) (pg : Page) :
  passed_or_failed (fst (fst (_execute_validate_page W a en pg))).
Proof.
  unfold _execute_validate_page, passed_or_failed.
  destruct (validate W a en pg) as [v pg']. simpl.
  destruct (v_passed v); [by left | by right].
Qed.

(** Every handler records its step as Passed or as Failed. *)
Lemma dispatch_status (a : action_data) (en en' : engine) (pg pg' : Page)
    (r : step_result) :
  dispatch W a en pg = (Returned r, en', pg') -> passed_or_failed r.
Proof.
  unfold dispatch.
  destruct (String.eqb (action_name a) "navigate").
  { pose proof (execute_navigate_status a pg) as Hs.
    destruct (_execute_navigate W a pg) as [r0 pg0]. by intros [= <- _ _]. }
  destruct (String.eqb (action_name a) "search").
  { pose proof (execute_search_status a (execution_state en) pg) as Hs.
    destruct (_execute_search W a _ pg) as [[[r0 t0] st0] pg0]. by intros [= <- _ _]. }
  destruct (String.eqb (action_name a) "type").
  { pose proof (execute_type_status a (field_type_of a) pg) as Hs.
    destruct (_execute_type W a _ pg) as [[r0 t0] pg0]. by intros [= <- _ _]. }
  destruct (String.eqb (action_name a) "select").
  { pose proof (execute_select_status a (field_type_of a) pg) as Hs.
    destruct (_execute_select W a _ pg) as [r0 pg0]. by intros [= <- _ _]. }
  destruct (String.eqb (action_name a) "click").
  { pose proof (execute_click_status a pg) as Hs.
    destruct (_execute_click W a pg) as [[r0 t0] pg0]. by intros [= <- _ _]. }
  destruct (String.eqb (action_name a) "wait").
  { destruct (sleep_error W _); [done|]. intros [= <- _ _]. by left. }
  destruct (String.eqb (action_name a) "validate_page").
  { pose proof (execute_validate_page_status a en pg) as Hs.
    destruct (_execute_validate_page W a en pg) as [[r0 en0] pg0]. by intros [= <- _ _]. }
  destruct (String.eqb (action_name a) "info"); [intros [= <- _ _]; by left|].
  destruct (String.eqb (action_name a) "generate_data"); [intros [= <- _ _]; by left|].
  intros [= <- _ _]. by right.
Qed.

End StatusFacts.

Section ShapeFacts.

Context {Page : Type} (W : world Page).

Lemma annotate_keeps (a : action_data) (n : nat) (en : engine) (r : step_result) :
  r_action (annotate a n en r) = r_action r /\
  r_status (annotate a n en r) = r_status r /\
  r_step (annotate a n en r) = Some n.
Proof. done. Qed.

(** The results of the loop: the steps, then [execution_stopped] when a
    step that is not soft failed. *)
Lemma run_loop_shape (report_id : string) (acts : list action_data) :
  forall (n : nat) (s : run_state),
  exists steps complete stop,
    results (run_loop W report_id acts n s) = results s ++ steps ++ stop /\
    loop_steps n acts steps complete /\
    (stop = [] \/
     complete = false /\ exists a, stop = [execution_stopped a]).
Proof.
  induction acts as [|a rest IH]; intros n s.
  - exists [], true, []. simpl. rewrite app_nil_r. split; [done|]. split; [constructor | by left].
  - rewrite run_loop_cons.
    destruct (dispatch W a (update_state a (eng s)) (page s)) as [[[r|e] en] pg] eqn:Hd.
    + pose proof (dispatch_action W a _ _ _ _ r Hd) as Haction.
      pose proof (dispatch_status W a _ _ _ _ r Hd) as Hstatus.
      pose proof (take_screenshot_keeps W report_id (step_label a (S n)) true
                    (annotate a (S n) en r) pg) as (Hact & Hst & _ & Hstep).
      destruct (take_screenshot W _ _ true _ pg) as [r' pg'].
      simpl in Hact, Hst, Hstep.
      assert (Hr' : r_step r' = Some (S n) /\ r_action r' = action_name a /\
                    passed_or_failed r').
      { unfold passed_or_failed. rewrite Hst. by rewrite Hact. }
      destruct Hr' as (Hn & Ha & Hpf).
      destruct (String.eqb (r_status r') "Failed" && negb (is_soft (action_name a)))
        eqn:Hstop.
      * apply andb_prop in Hstop as [Hfailed%String.eqb_eq _].
        exists [r'], false, [execution_stopped (action_name a)].
        simpl. split; [done|]. split; [by apply loop_end|]. right. by eauto.
      * destruct (IH (S n) (RunState (results s ++ [r']) en pg'))
          as (steps & complete & stop & -> & Hsteps & Hstopped).
        exists (r' :: steps), complete, stop. simpl. rewrite <- app_assoc.
        split; [done|]. split; [by apply loop_next | done].
    + pose proof (take_screenshot_keeps W report_id (error_label a (S n)) false
                    (error_step a (S n) e) pg) as (Hact & Hst & _ & Hstep).
      destruct (take_screenshot W _ _ false _ pg) as [r' pg'].
      simpl in Hact, Hst, Hstep.
      exists [r'], false, []. simpl. split; [done|].
      split; [by apply loop_end | by left].
Qed.

End ShapeFacts.

Section NumberFacts.

Context {Page : Type} (W : world Page).




End NumberFacts.


Section SummaryFacts.

Import Summary.

Lemma count_app (p : step_result -> bool) (l1 l2 : list step_result) :
  count p (l1 ++ l2) = count p l1 + count p l2.
Proof. unfold count. by rewrite List.filter_app, length_app. Qed.

Lemma count_none (p : step_result -> bool) (l : list step_result) :
  Forall (fun r => p r = false) l -> count p l = 0.
Proof.
  unfold count. induction 1 as [|r l Hr _ IH]; simpl; [done|]. by rewrite Hr.
Qed.

Lemma count_all (p : step_result -> bool) (l : list step_result) :
  Forall (fun r => p r = true) l -> count p l = length l.
Proof.
  unfold count. induction 1 as [|r l Hr _ IH]; simpl; [done|]. rewrite Hr. simpl.
  by rewrite IH.
Qed.

Lemma count_le (p : step_result -> bool) (l : list step_result) : count p l <= length l.
Proof.
  unfold count. induction l as [|r l IH]; simpl; [done|].
  destruct (p r); simpl; lia.
Qed.

Lemma loop_steps_stepped (n : nat) (acts : list action_data) (steps : list step_result)
    (complete : bool) :
  loop_steps n acts steps complete -> Forall (fun r => has_step r = true) steps.
Proof.
  induction 1 as [n|n a rest r steps complete Hn Ha Hpf Hrest IH|n a rest r Hn Ha Hf].
  - constructor.
  - constructor; [|done]. unfold has_step. by rewrite Hn.
  - constructor; [|constructor]. unfold has_step. by rewrite Hn.
Qed.

End SummaryFacts.

(** ** The counts of the summary *)

Section PartFacts.

Context {Page : Type} (W : world Page).

Import Summary.

(** The list [run] returns for actions that are not an error: the steps
    of the loop, [execution_stopped] or nothing, the result page step or
    nothing, the data usage step or nothing. *)
Lemma run_parts (first : action_data) (rest : list action_data) (report_id : string)
    (pg : Page) :
  is_error first = false ->
  exists steps complete stop capture tail,
    run W (first :: rest) report_id pg = steps ++ stop ++ capture ++ tail /\
    loop_steps 0 (first :: rest) steps complete /\
    (stop = [] \/ complete = false /\ exists a, stop = [execution_stopped a]) /\
    (capture = [] \/ exists n info st, capture = [result_page_step (S n) info st]) /\
    (tail = [] \/
     exists details,
       tail = [StepResult "data_summary" "Info" details None (Some "Data usage summary")
                 None None None None None None None false]).
Proof.
  intros Hfirst. rewrite run_unfold by done.
  destruct (run_loop_shape W report_id (first :: rest) 0 (RunState [] initial_engine pg))
    as (steps & complete & stop & Hloop & Hsteps & Hstop).
  cbn [results app] in Hloop.
  set (s1 := run_loop W report_id (first :: rest) 0 (RunState [] initial_engine pg)) in *.
  exists steps, complete, stop.
  assert (Hcapture : exists capture,
             results (final_capture W report_id s1) = results s1 ++ capture /\
             (capture = [] \/
              exists n info st, capture = [result_page_step (S n) info st])).
  { destruct (final_capture_results W report_id s1) as [Hsame|(info & st & _ & Hcap)].
    - exists []. rewrite app_nil_r. split; [done | by left].
    - eexists. split; [exact Hcap|]. right. by eauto. }
  destruct Hcapture as (capture & Hcap & Hshape).
  assert (Htail : exists tail,
             results (data_summary (final_capture W report_id s1)) =
             results (final_capture W report_id s1) ++ tail /\
             (tail = [] \/
              exists details,
                tail = [StepResult "data_summary" "Info" details None
                          (Some "Data usage summary") None None None None None None None
                          false])).
  { unfold data_summary. destruct (_ || _).
    - eexists. split; [reflexivity|]. right. by eauto.
    - exists []. rewrite app_nil_r. split; [done | by left]. }
  destruct Htail as (tail & Htail & Hsummary).
  exists capture, tail. rewrite Htail, Hcap, Hloop, <- !app_assoc.
  by repeat split.
Qed.

Lemma loop_steps_counts (n : nat) (acts : list action_data) (steps : list step_result)
    (complete : bool) :
  loop_steps n acts steps complete ->
  count has_step steps = length steps /\
  count (status_is "passed") steps + count (status_is "failed") steps = length steps.
Proof.
  intros Hsteps. split; [by eapply count_all, loop_steps_stepped|].
  induction Hsteps as [n|n a rest r steps complete Hn Ha Hpf Hrest IH|n a rest r Hn Ha Hf].
  - done.
  - assert (Hr : status_is "passed" r = true /\ status_is "failed" r = false \/
                 status_is "passed" r = false /\ status_is "failed" r = true).
    { unfold status_is. destruct Hpf as [-> | ->]; [by left | by right]. }
    unfold count in *. simpl. destruct Hr as [[-> ->] | [-> ->]]; simpl; lia.
  - unfold count. simpl. unfold status_is. by rewrite Hf.
Qed.

End PartFacts.

Lemma rate_at_most_100 (passed total : nat) :
  passed <= total -> 0 < total ->
  ((Z.of_nat passed # Pos.of_nat total) * 100 <= 100)%Q.
Proof.
  intros Hle Hpos. unfold Qle, Qmult. simpl.
  rewrite Pos.mul_1_r. rewrite Z.mul_1_r.
  assert (Htotal : Z.pos (Pos.of_nat total) = Z.of_nat total).
  { lia. }
  rewrite Htotal. lia.
Qed.

(** X17. In the summary [_generate_execution_summary] gives of a list [run]
    returns, the steps counted as passed never outnumber the steps counted
    in total, so that the success rate is at most 100; the steps counted as
    failed and as passed together exceed the total by one at most:
    [execution_stopped] is counted as failed but carries no step number, as
    does the one step of a list that was refused. *)
Theorem execution_summary_counts {Page : Type} (W : world Page)
    (acts : list action_data) (report_id : string) (pg : Page)
    (final_result_page : option screenshot_info)
    (last_failed : option Summary.failed_step) (state : exec_state) :
  let s := Summary._generate_execution_summary (run W acts report_id pg)
             final_result_page last_failed state in
  Summary.passed_steps s <= Summary.total_steps s /\
  Summary.passed_steps s + Summary.failed_steps s <= Summary.total_steps s + 1 /\
  (Summary.success_rate s <= 100)%Q.
Proof.
  cbv zeta. unfold Summary._generate_execution_summary. simpl.
  assert (Hcounts :
            Summary.count (Summary.status_is "passed") (run W acts report_id pg) <=
            Summary.count Summary.has_step (run W acts report_id pg) /\
            Summary.count (Summary.status_is "passed") (run W acts report_id pg) +
            Summary.count (Summary.status_is "failed") (run W acts report_id pg) <=
            Summary.count Summary.has_step (run W acts report_id pg) + 1).
  { destruct acts as [|first rest]; [by vm_compute; lia|].
    destruct (is_error first) eqn:Hfirst.
    { unfold run. rewrite Hfirst. vm_compute. lia. }
    destruct (run_parts W first rest report_id pg Hfirst)
      as (steps & complete & stop & capture & tail & -> & Hsteps & Hstop & Hcap & Htail).
    rewrite !count_app.
    destruct (loop_steps_counts _ _ _ _ Hsteps) as [Hstepped Hstatus].
    rewrite Hstepped.
    assert (Hs : Summary.count Summary.has_step stop = 0 /\
                 Summary.count (Summary.status_is "passed") stop = 0 /\
                 Summary.count (Summary.status_is "failed") stop <= 1).
    { destruct Hstop as [->|(_ & a & ->)]; vm_compute; lia. }
    assert (Hc : Summary.count (Summary.status_is "passed") capture =
                 Summary.count Summary.has_step capture /\
                 Summary.count (Summary.status_is "failed") capture = 0).
    { by destruct Hcap as [->|(n & info & st & ->)]. }
    assert (Ht : Summary.count Summary.has_step tail = 0 /\
                 Summary.count (Summary.status_is "passed") tail = 0 /\
                 Summary.count (Summary.status_is "failed") tail = 0).
    { destruct Htail as [->|(details & ->)]; by vm_compute. }
    lia. }
  destruct Hcounts as [Hpassed Hboth]. split; [done|]. split; [done|].
  destruct (0 <? _) eqn:Hpos; [|done].
  apply rate_at_most_100; [done|]. by apply Nat.ltb_lt.
Qed.

(** ** The verdict of the caller *)

Section VerdictFacts.

Import Summary.

Lemma loop_steps_passed (n : nat) (acts : list action_data) (steps : list step_result)
    (complete : bool) :
  loop_steps n acts steps complete ->
  Forall (fun r => status_is "failed" r = false) steps ->
  complete = true /\
  Forall2 (fun a r => r_action r = action_name a /\ r_status r = "Passed") acts steps.
Proof.
  induction 1 as [n|n a rest r steps complete Hn Ha Hpf Hrest IH|n a rest r Hn Ha Hf];
    intros Hall.
  - split; [done | constructor].
  - apply Forall_cons in Hall as [Hr Hall]. destruct (IH Hall) as [-> Hsteps].
    split; [done|]. constructor; [|done]. split; [done|].
    destruct Hpf as [Hp|Hfailed]; [done|].
    unfold status_is in Hr. by rewrite Hfailed in Hr.
  - apply Forall_cons in Hall as [Hr _].
    unfold status_is in Hr. by rewrite Hf in Hr.
Qed.

Lemma existsb_false {A} (p : A -> bool) (l : list A) :
  existsb p l = false -> Forall (fun x => p x = false) l.
Proof.
  induction l as [|x l IH]; simpl; [constructor|].
  intros [Hx Hl]%orb_false_elim. constructor; auto.
Qed.

End VerdictFacts.

(** X18. The verdict PASSED that [api_run_test] gives on a run means what it
    says: the list of actions was not empty and not refused, every action
    of it was run, in order, and the step of each is recorded as Passed. *)
Theorem passed_verdict_is_sound {Page : Type} (W : world Page)
    (acts : list action_data) (report_id : string) (pg : Page) :
  App.overall_status (run W acts report_id pg) = "PASSED" ->
  acts <> [] /\
  exists steps tail,
    run W acts report_id pg = steps ++ tail /\
    Forall2 (fun a r => r_action r = action_name a /\ r_status r = "Passed") acts steps.
Proof.
  unfold App.overall_status.
  destruct (existsb (Summary.status_is "failed") (run W acts report_id pg)) eqn:Hfailed;
    [done|].
  intros _. apply existsb_false in Hfailed.
  destruct acts as [|first rest]; [by apply Forall_cons in Hfailed as [? _]|].
  split; [done|].
  destruct (is_error first) eqn:Hfirst.
  { unfold run in Hfailed. rewrite Hfirst in Hfailed.
    by apply Forall_cons in Hfailed as [? _]. }
  destruct (run_parts W first rest report_id pg Hfirst)
    as (steps & complete & stop & capture & tail & Hrun & Hsteps & Hstop & _ & _).
  rewrite Hrun in Hfailed. apply Forall_app in Hfailed as [Hloop _].
  destruct (loop_steps_passed _ _ _ _ Hsteps Hloop) as [_ Hall].
  exists steps, (stop ++ capture ++ tail). by split.
Qed.

Lemma passed_verdict_is_sound_witness :
  [navigate "https://example.com"; wait 1] <> [] /\
  exists steps tail,
    run (Scenario.static_world "https://example.com" [] false false)
      [navigate "https://example.com"; wait 1] "r1" tt = steps ++ tail /\
    Forall2 (fun a r => r_action r = action_name a /\ r_status r = "Passed")
      [navigate "https://example.com"; wait 1] steps.
Proof.
  apply (passed_verdict_is_sound
           (Scenario.static_world "https://example.com" [] false false)).
  vm_compute. reflexivity.
Defined.

Section WaitFacts.
Import Parser.

Ltac brief :=
  repeat first
    [ apply Forall_nil_2
    | apply Forall_cons_2; [reflexivity|]
    | apply Forall_app_2 ].

Lemma brief_search (instruction instruction_lower site : string)
    (fields : gmap string string) :
  Forall (fun a => brief a = true)
    (_handle_search instruction instruction_lower site fields).
Proof.
  unfold _handle_search.
  destruct (Py.truthy _); [|brief].
  destruct (_ || _); [|brief].
  destruct (mem site _); brief.
Qed.

Lemma brief_login_steps (email password site : string) :
  Forall (fun a => brief a = true)
    (if mem site ["twitter"; "x.com"] then _handle_twitter_login email password site
     else if String.eqb site "facebook" then _handle_facebook_login email password site
     else if String.eqb site "linkedin" then _handle_linkedin_login email password site
     else _handle_generic_login email password site).
Proof.
  destruct (mem site _); [brief|].
  destruct (String.eqb site "facebook"); [brief|].
  destruct (String.eqb site "linkedin"); [brief|].
  unfold _handle_generic_login. destruct (Py.contains _ _); brief.
Qed.

Lemma brief_signup_steps (fields : gmap string string) (site : string) :
  Forall (fun a => brief a = true)
    (if mem site ["twitter"; "x.com"] then _handle_twitter_signup fields site
     else if String.eqb site "facebook" then _handle_facebook_signup fields site
     else if String.eqb site "linkedin" then _handle_linkedin_signup fields site
     else _handle_generic_signup fields site).
Proof.
  destruct (mem site _); [brief|].
  destruct (String.eqb site "facebook"); [brief|].
  destruct (String.eqb site "linkedin"); [brief|].
  unfold _handle_generic_signup. destruct (Py.truthy _); brief.
Qed.

Lemma brief_login (E : env) (instruction instruction_lower site : string)
    (fields : gmap string string) (t : nat) :
  Forall (fun a => brief a = true)
    (fst (_handle_login E instruction instruction_lower site fields t)).
Proof.
  unfold _handle_login, bind.
  destruct (login_credentials E site fields t) as [[email password] t'].
  simpl fst. simpl snd.
  destruct (login_missing email password) as [|m ms]; simpl; [|brief].
  do 2 (apply Forall_cons_2; [reflexivity|]). apply brief_login_steps.
Qed.

Lemma brief_signup (E : env) (instruction instruction_lower site : string)
    (fields : gmap string string) (t : nat) :
  Forall (fun a => brief a = true)
    (fst (_handle_signup E instruction instruction_lower site fields t)).
Proof.
  unfold _handle_signup, bind.
  destruct (resolve_fields E _ fields site ∅ t) as [generated t1].
  destruct (if String.eqb site "linkedin" then _ else _) as [generated' t2].
  match goal with
  | |- context [filter ?P ?l] => destruct (filter P l) as [|m ms]
  end; simpl; [|brief].
  do 2 (apply Forall_cons_2; [reflexivity|]). apply brief_signup_steps.
Qed.

Lemma brief_navigation (instruction instruction_lower site : string)
    (fields : gmap string string) :
  Forall (fun a => brief a = true)
    (_handle_navigation instruction instruction_lower site fields).
Proof.
  unfold _handle_navigation.
  destruct (negb _); [brief|].
  destruct (Re.search _ _); brief.
Qed.

(** Every wait the compiler emits lasts five seconds at most. *)
Lemma brief_parse (E : env) (instruction : string) :
  Forall (fun a => brief a = true) (parse E instruction).
Proof.
  unfold parse. destruct (negb _); [brief|].
  unfold _parse_simple.
  destruct (String.eqb _ "search"); [apply brief_search|].
  destruct (String.eqb _ "login"); [apply brief_login|].
  destruct (String.eqb _ "signup"); [apply brief_signup|].
  destruct (String.eqb _ "navigate"); [apply brief_navigation|].
  destruct (negb _); brief.
Qed.

End WaitFacts.

Section ReturnFacts.

Context {Page : Type} (W : world Page).

(** Only a wait can raise, and only when [time.sleep] does. *)
Lemma dispatch_returns (a : action_data) (en : engine) (pg : Page) :
  (action_name a = "wait" -> sleep_error W (default 2%Q (a_seconds a)) = None) ->
  exists r en' pg', dispatch W a en pg = (Returned r, en', pg').
Proof.
  intros Hwait. unfold dispatch.
  destruct (String.eqb (action_name a) "navigate").
  { destruct (_execute_navigate W a pg) as [r0 pg0]. by eauto. }
  destruct (String.eqb (action_name a) "search").
  { destruct (_execute_search W a _ pg) as [[[r0 t0] st0] pg0]. by eauto. }
  destruct (String.eqb (action_name a) "type").
  { destruct (_execute_type W a _ pg) as [[r0 t0] pg0]. by eauto. }
  destruct (String.eqb (action_name a) "select").
  { destruct (_execute_select W a _ pg) as [r0 pg0]. by eauto. }
  destruct (String.eqb (action_name a) "click").
  { destruct (_execute_click W a pg) as [[r0 t0] pg0]. by eauto. }
  destruct (String.eqb (action_name a) "wait") eqn:Hw.
  { apply String.eqb_eq in Hw. rewrite (Hwait Hw). by eauto. }
  destruct (String.eqb (action_name a) "validate_page").
  { destruct (_execute_validate_page W a en pg) as [[r0 en0] pg0]. by eauto. }
  destruct (String.eqb (action_name a) "info"); [by eauto|].
  destruct (String.eqb (action_name a) "generate_data"); by eauto.
Qed.

End ReturnFacts.

(** The scenarios' [time.sleep] accepts the lengths up to five seconds. *)
Lemma python_sleep_accepts (q : Q) :
  (0 <= q)%Q -> (q <= 5)%Q -> Scenario.python_sleep_error q = None.
Proof.
  unfold Qle, Scenario.python_sleep_error. destruct q as [n d]. simpl.
  intros Hlow Hhigh.
  change (2 ^ 63)%Z with 9223372036854775808%Z.
  change (10 ^ 9)%Z with 1000000000%Z.
  destruct (_ <=? _)%Z eqn:H1; [apply Z.leb_le in H1; lia|].
  destruct (_ <? _)%Z eqn:H2; [apply Z.ltb_lt in H2; lia|].
  simpl. destruct (n <? 0)%Z eqn:H3; [apply Z.ltb_lt in H3; lia|]. done.
Qed.

(** X19. No action the compiler emits in regex mode makes its handler
    raise: every wait of a compiled list lasts between nothing and five
    seconds, so in a world where [time.sleep] accepts such lengths, whatever
    the state of the engine and of the page, the handler of every action of
    the list returns a step, and the [except] clause of [run] is not
    reached. *)
Theorem compiled_actions_never_raise {Page : Type} (W : world Page) (E : Parser.env)
    (instruction : string) (a : action_data) (en : engine) (pg : Page) :
  sleep_accepts W ->
  a ∈ Parser.parse E instruction ->
  brief a = true /\
  exists r en' pg', dispatch W a en pg = (Returned r, en', pg').
Proof.
  intros Hsleep Hin.
  pose proof (brief_parse E instruction) as Hall. rewrite Forall_forall in Hall.
  specialize (Hall a Hin). split; [done|].
  apply dispatch_returns. intros Hwait.
  unfold brief in Hall. rewrite Hwait in Hall.
  change (String.eqb "wait" "wait") with true in Hall. cbv iota in Hall.
  apply andb_prop in Hall as [Hlow Hhigh].
  apply Hsleep; by apply Qle_bool_iff.
Qed.

Lemma compiled_actions_never_raise_witness :
  brief (wait 3) = true /\
  exists r en' pg',
    dispatch (Scenario.static_world "https://google.com" [] false false)
      (wait 3) initial_engine tt = (Returned r, en', pg').
Proof.
  apply (compiled_actions_never_raise
           (Scenario.static_world "https://google.com" [] false false)
           Scenario.env_off "search apples on google").
  - intros q Hlow Hhigh. by apply python_sleep_accepts.
  - vm_compute. apply list_elem_of_further, list_elem_of_here.
Defined.

(** X20. The data usage report of [api_run_test] never shows generated data
    for a list the compiler returned: no entry is reported as generated, the
    mode is never "mixed" or "random_only" and [was_random_data_used] is
    false, also when every value typed was generated; and a password is
    reported as eight asterisks. *)
Theorem data_usage_of_compiled_list (E : Parser.env) (instruction : string)
    (use_random_data : bool) :
  let d := App.report_data_usage (Parser.parse E instruction) use_random_data in
  App.generated d = [] /\
  App.was_random_data_used d = false /\
  (App.mode d = "provided_only" \/ App.mode d = "none") /\
  (forall u, u ∈ App.provided d -> App.field u = "password" -> App.value u = "********").
Proof.
  cbv zeta.
  assert (Hgenerated : App.typed true (Parser.parse E instruction) = []).
  { pose proof (parse_unflagged E instruction) as Hall.
    unfold unflagged in Hall. unfold App.typed.
    induction Hall as [|a l Ha _ IH]; [done|].
    change (match (if String.eqb (default EmptyString (a_action a)) "type"
                      && Py.truthy (default EmptyString (a_field_type a))
                      && Py.truthy (default EmptyString (a_value a))
                      && Bool.eqb (default false (a_is_random_data a)) true
                   then Some (App.Usage (default EmptyString (a_field_type a))
                                (App.display_value (default EmptyString (a_field_type a))
                                   (default EmptyString (a_value a))))
                   else None) with
            | Some y => y :: App.typed true l
            | None => App.typed true l
            end = []).
    destruct (a_is_random_data a) as [[]|]; [done | |];
      simpl; rewrite andb_false_r; apply IH. }
  unfold App.report_data_usage, App.was_random_data_used. simpl.
  rewrite Hgenerated. simpl. rewrite andb_false_r.
  split; [done|]. split; [done|]. split.
  - destruct (App.nonempty _); [by left | by right].
  - intros u Hu Hfield. unfold App.typed in Hu.
    apply list_elem_of_omap in Hu as (a & _ & Ha).
    destruct (_ && _); [|done]. injection Ha as <-. simpl in *.
    unfold App.display_value. by rewrite Hfield.
Qed.

(** ** The data summary of a run *)

Section SummaryStepFacts.

Context {Page : Type} (W : world Page).

Lemma append_nil_r (s : string) : s +:+ EmptyString = s.
Proof. induction s as [|c s IH]; [done|]. by rewrite append_cons, IH. Qed.

Lemma occurs_in_refl (s : string) : occurs_in s s.
Proof. exists EmptyString, EmptyString. by rewrite append_nil_l, append_nil_r. Qed.

Lemma occurs_in_append_l (v s t : string) : occurs_in v s -> occurs_in v (s +:+ t).
Proof.
  intros (before & after & ->). exists before, (after +:+ t).
  by rewrite !append_assoc.
Qed.

Lemma occurs_in_append_r (v s t : string) : occurs_in v t -> occurs_in v (s +:+ t).
Proof.
  intros (before & after & ->). exists (s +:+ before), after.
  by rewrite !append_assoc.
Qed.

Lemma occurs_in_join (sep v x : string) (l : list string) :
  In x l -> occurs_in v x -> occurs_in v (Py.join sep l).
Proof.
  intros Hin Hv. induction l as [|y l IH]; [done|].
  simpl. destruct l as [|z l].
  - destruct Hin as [->|[]]. done.
  - destruct Hin as [->|Hin].
    + by apply occurs_in_append_l.
    + apply occurs_in_append_r, occurs_in_append_r. by apply IH.
Qed.

Lemma assoc_in {A} (k : string) (l : list (string * A)) (v : A) :
  Parser.assoc k l = Some v -> In (k, v) l.
Proof.
  induction l as [|[k' v'] l IH]; simpl; [done|].
  destruct (String.eqb k k') eqn:Hk.
  - apply String.eqb_eq in Hk as ->. intros [= ->]. by left.
  - intros H. right. by apply IH.
Qed.

Lemma assoc_dict_set (k k' v : string) (d : list (string * string)) :
  Parser.assoc k' (dict_set k v d) =
  if String.eqb k' k then Some v else Parser.assoc k' d.
Proof.
  induction d as [|[k0 v0] d IH]; simpl.
  - done.
  - destruct (String.eqb k k0) eqn:Hk0; simpl.
    + apply String.eqb_eq in Hk0 as <-. by destruct (String.eqb k' k).
    + destruct (String.eqb k' k0) eqn:Hk'; [|done].
      apply String.eqb_eq in Hk' as ->.
      rewrite String.eqb_sym in Hk0. by rewrite Hk0.
Qed.

(** The data usage step shows every provided value. *)
Lemma data_summary_shows (s : @run_state Page) (k v : string) :
  Parser.assoc k (used_provided_data (eng s)) = Some v ->
  exists r,
    last (results (data_summary s)) = Some r /\
    r_action r = "data_summary" /\
    occurs_in (show_item (k, v)) (r_details r).
Proof.
  intros Hk. apply assoc_in in Hk. unfold data_summary.
  destruct (used_provided_data (eng s)) as [|kv used] eqn:Hused; [done|].
  change (nonempty_list (kv :: used)) with true. rewrite orb_true_r. cbv iota.
  cbn [results]. rewrite last_snoc. eexists. split; [done|]. split; [done|].
  cbn [r_details app].
  apply (occurs_in_join " | " _ ("Provided: " +:+ Py.join ", " (map show_item (kv :: used)))).
  - simpl. by left.
  - apply occurs_in_append_r. apply (occurs_in_join ", " _ (show_item (k, v))).
    + by apply (in_map show_item) in Hk.
    + apply occurs_in_refl.
Qed.

(** The bookkeeping of a provided password, and of anything else. *)
Lemma update_state_password (a : action_data) (en : engine) (v : string) :
  types_password a = true -> provided_value v a -> Py.truthy v = true ->
  Parser.assoc "password" (used_provided_data (update_state a en)) = Some v.
Proof.
  unfold types_password. intros [Ht Hf]%andb_prop (Hv & Hr & Hd) Htruthy.
  apply String.eqb_eq in Hf. unfold update_state.
  rewrite Ht. unfold value_of. rewrite Hv. simpl default. rewrite Htruthy.
  simpl andb. cbv iota. rewrite Hr, Hd. simpl orb. cbv iota.
  simpl used_provided_data. rewrite Hf. simpl.
  by rewrite assoc_dict_set.
Qed.

Lemma update_state_other (a : action_data) (en : engine) :
  types_password a = false ->
  Parser.assoc "password" (used_provided_data (update_state a en)) =
  Parser.assoc "password" (used_provided_data en).
Proof.
  unfold types_password, update_state. intros Hp.
  cbv zeta.
  destruct (String.eqb (action_name a) "type" && Py.truthy (value_of a)) eqn:Ht;
    [|reflexivity].
  destruct (default false (a_is_random_data a) || _); [reflexivity|].
  simpl used_provided_data.
  destruct (String.eqb (field_type_of a) "email" || _) eqn:Hm; [|done].
  rewrite assoc_dict_set.
  destruct (String.eqb "password" (field_type_of a)) eqn:Hf; [|done].
  apply andb_prop in Ht as [Ht _]. rewrite Ht in Hp. simpl in Hp.
  rewrite String.eqb_sym in Hf. congruence.
Qed.

Lemma execute_validate_page_used (a : action_data) (en : engine) (pg : Page) :
  used_provided_data (snd (fst (_execute_validate_page W a en pg))) =
  used_provided_data en.
Proof.
  unfold _execute_validate_page. by destruct (validate W a en pg) as [v pg'].
Qed.

Lemma dispatch_used (a : action_data) (en en' : engine) (pg pg' : Page) (o : outcome) :
  dispatch W a en pg = (o, en', pg') ->
  used_provided_data en' = used_provided_data en.
Proof.
  unfold dispatch.
  destruct (String.eqb (action_name a) "navigate").
  { destruct (_execute_navigate W a pg) as [r0 pg0]. by intros [= _ <- _]. }
  destruct (String.eqb (action_name a) "search").
  { destruct (_execute_search W a _ pg) as [[[r0 t0] st0] pg0]. by intros [= _ <- _]. }
  destruct (String.eqb (action_name a) "type").
  { destruct (_execute_type W a _ pg) as [[r0 t0] pg0]. by intros [= _ <- _]. }
  destruct (String.eqb (action_name a) "select").
  { destruct (_execute_select W a _ pg) as [r0 pg0]. by intros [= _ <- _]. }
  destruct (String.eqb (action_name a) "click").
  { destruct (_execute_click W a pg) as [[r0 t0] pg0]. by intros [= _ <- _]. }
  destruct (String.eqb (action_name a) "wait").
  { destruct (sleep_error W _); by intros [= _ <- _]. }
  destruct (String.eqb (action_name a) "validate_page").
  { pose proof (execute_validate_page_used a en pg) as Hu.
    destruct (_execute_validate_page W a en pg) as [[r0 en0] pg0].
    by intros [= _ <- _]. }
  destruct (String.eqb (action_name a) "info"); [by intros [= _ <- _]|].
  destruct (String.eqb (action_name a) "generate_data"); by intros [= _ <- _].
Qed.

End SummaryStepFacts.

Section FieldFacts.

Context {Page : Type} (W : world Page).

(** No handler names a field in the step it returns: [run] does. *)
Lemma dispatch_field_type (a : action_data) (en en' : engine) (pg pg' : Page)
    (r : step_result) :
  dispatch W a en pg = (Returned r, en', pg') -> r_field_type r = None.
Proof.
  unfold dispatch.
  destruct (String.eqb (action_name a) "navigate").
  { unfold _execute_navigate. destruct (negb _); [by intros [= <- _ _]|].
    destruct (goto W _ pg) as [[e|] pg0]; by intros [= <- _ _]. }
  destruct (String.eqb (action_name a) "search").
  { destruct (Py.truthy (default EmptyString (a_query a))) eqn:Hquery.
    - rewrite execute_search_unfold by done.
      pose proof (try_each_result (fun rc => r_field_type (fst rc) = None)
                    (search_with W (default EmptyString (a_query a)))
                    (search_candidates (default EmptyString (a_selector a)))
                    (wait_for_stability W pg)) as Hresult.
      destruct (try_each _ _ _) as [[[[r1 c1]|] t1] pg2]; simpl in *;
        [|by intros [= <- _ _]].
      intros [= <- _ _]. apply (Hresult (r1, c1)); [|done].
      intros sel pg0 rc. unfold search_with.
      destruct (perform_search W sel _ pg0) as [[d|] pg1]; [|done].
      destruct (extract_page_content W pg1) as [content pg3]. by intros [= <-].
    - unfold _execute_search. rewrite Hquery. by intros [= <- _ _]. }
  destruct (String.eqb (action_name a) "type").
  { destruct (Py.truthy (default EmptyString (a_value a))) eqn:Hvalue.
    - rewrite execute_type_unfold by done.
      pose proof (try_each_result (fun r => r_field_type r = None)
                    (_perform_type W (default EmptyString (a_value a)) (field_type_of a))
                    (type_candidates (page_url W (wait_for_stability W pg))
                       (default EmptyString (a_selector a)) (field_type_of a))
                    (wait_for_stability W pg)) as Hresult.
      destruct (try_each _ _ _) as [[[r1|] t1] pg2]; simpl in *.
      + intros [= <- _ _]. apply Hresult; [|done].
        intros sel pg0 r0. unfold _perform_type.
        destruct (type_into W sel _ pg0) as [[] pg1]; [|done]. by intros [= <-].
      + destruct (generic_input W _ pg2) as [[] pg3]; by intros [= <- _ _].
    - unfold _execute_type. rewrite Hvalue. by intros [= <- _ _]. }
  destruct (String.eqb (action_name a) "select").
  { unfold _execute_select. destruct (negb _); [by intros [= <- _ _]|].
    destruct (wait_for_selector W _ _) as [[] pg1]; [|by intros [= <- _ _]].
    destruct (select_option W _ ByValue _ pg1) as [[] pg2]; [by intros [= <- _ _]|].
    destruct (select_option W _ ByLabel _ pg2) as [[] pg3]; [by intros [= <- _ _]|].
    destruct (Py.isdigit _); [|by intros [= <- _ _]].
    destruct (select_option W _ ByIndex _ pg3) as [[] pg4]; by intros [= <- _ _]. }
  destruct (String.eqb (action_name a) "click").
  { unfold _execute_click.
    pose proof (try_each_result (fun r => r_field_type r = None)
                  (click_with W (default EmptyString (a_text a)))
                  (click_strategies (page_url W (wait_for_stability W pg))
                     (default EmptyString (a_selector a)) (default EmptyString (a_text a)))
                  (wait_for_stability W pg)) as Hresult.
    destruct (try_each _ _ _) as [[[r1|] t1] pg2]; simpl in *.
    - intros [= <- _ _]. apply Hresult; [|done].
      intros sel pg0 r0. unfold click_with.
      destruct (click_strategy W sel pg0) as [[] pg1]; [|done]. by intros [= <-].
    - destruct (Py.truthy _); [|by intros [= <- _ _]].
      destruct (click_text W _ pg2) as [[] pg3]; by intros [= <- _ _]. }
  destruct (String.eqb (action_name a) "wait").
  { destruct (sleep_error W _); [done|]. by intros [= <- _ _]. }
  destruct (String.eqb (action_name a) "validate_page").
  { unfold _execute_validate_page. destruct (validate W a en pg) as [v pg0].
    by intros [= <- _ _]. }
  destruct (String.eqb (action_name a) "info"); [by intros [= <- _ _]|].
  destruct (String.eqb (action_name a) "generate_data"); by intros [= <- _ _].
Qed.

Lemma take_screenshot_field_type (report_id description : string) (with_analysis : bool)
    (r : step_result) (pg : Page) :
  r_field_type (fst (take_screenshot W report_id description with_analysis r pg)) =
  r_field_type r.
Proof.
  unfold take_screenshot. destruct (screenshot_capture W); [|done].
  by destruct (capture_with_analysis W report_id description false pg) as [[| |info] pg'].
Qed.

Lemma some_if_truthy_password (s : string) :
  some_if_truthy s = Some "password" -> s = "password".
Proof. unfold some_if_truthy. destruct (Py.truthy s); [by intros [= ->] | done]. Qed.

(** The provided password the engine has on record after the loop: the
    one recorded before, or the one of a password step made. *)
Lemma run_loop_password (report_id : string) (v : string) (acts : list action_data) :
  Py.truthy v = true ->
  Forall (fun a => types_password a = true -> provided_value v a) acts ->
  forall (n : nat) (s : run_state),
  exists new,
    results (run_loop W report_id acts n s) = results s ++ new /\
    (Parser.assoc "password" (used_provided_data (eng s)) = Some v \/
     (exists r, r ∈ new /\ r_action r = "type" /\ r_field_type r = Some "password") ->
     Parser.assoc "password"
       (used_provided_data (eng (run_loop W report_id acts n s))) = Some v).
Proof.
  intros Hv Hacts. induction Hacts as [|a rest Ha _ IH]; intros n s.
  - exists []. simpl. rewrite app_nil_r. split; [done|].
    intros [Hs|(r & Hr & _)]; [done|]. by apply elem_of_nil in Hr.
  - rewrite run_loop_cons.
    assert (Hstate : forall r' : step_result,
               r_action r' = action_name a ->
               r_field_type r' = some_if_truthy (field_type_of a) ->
               Parser.assoc "password" (used_provided_data (eng s)) = Some v \/
               r_action r' = "type" /\ r_field_type r' = Some "password" ->
               Parser.assoc "password"
                 (used_provided_data (update_state a (eng s))) = Some v).
    { intros r' Hact Hfield Hor.
      destruct (types_password a) eqn:Hp.
      - by apply update_state_password; [|apply Ha|].
      - rewrite update_state_other by done.
        destruct Hor as [Hs|[Htype Hpassword]]; [done|].
        rewrite Hfield in Hpassword. apply some_if_truthy_password in Hpassword.
        unfold types_password in Hp. rewrite <- Hact, Htype, Hpassword in Hp. done. }
    destruct (dispatch W a (update_state a (eng s)) (page s)) as [[[r|e] en] pg] eqn:Hd.
    + pose proof (dispatch_action W a _ _ _ _ r Hd) as Haction.
      pose proof (dispatch_field_type a _ _ _ _ r Hd) as Hfield.
      pose proof (dispatch_used W a _ _ _ _ _ Hd) as Hused.
      pose proof (take_screenshot_keeps W report_id (step_label a (S n)) true
                    (annotate a (S n) en r) pg) as (Hact & _).
      pose proof (take_screenshot_field_type report_id (step_label a (S n)) true
                    (annotate a (S n) en r) pg) as Hft.
      destruct (take_screenshot W _ _ true _ pg) as [r' pg'].
      simpl in Hact, Hft.
      assert (Hr' : r_action r' = action_name a /\
                    r_field_type r' = some_if_truthy (field_type_of a)).
      { split; [congruence|]. rewrite Hft, Hfield.
        by destruct (some_if_truthy (field_type_of a)). }
      destruct Hr' as [Hra Hrf].
      destruct (String.eqb (r_status r') "Failed" && negb (is_soft (action_name a))).
      * eexists. cbn [results eng]. split; [reflexivity|].
        rewrite Hused. intros [Hs|(r0 & Hr0 & Htype & Hpassword)].
        { apply (Hstate r' Hra Hrf). by left. }
        apply elem_of_cons in Hr0 as [->|Hr0].
        { apply (Hstate r' Hra Hrf). by right. }
        apply list_elem_of_singleton in Hr0 as ->. done.
      * destruct (IH (S n) (RunState (results s ++ [r']) en pg')) as (new & Hnew & Hinv).
        exists (r' :: new). cbn [results eng] in *. rewrite Hnew, <- app_assoc.
        split; [done|]. intros Hor. apply Hinv. rewrite Hused.
        destruct Hor as [Hs|(r0 & Hr0 & Htype & Hpassword)].
        { left. apply (Hstate r' Hra Hrf). by left. }
        apply elem_of_cons in Hr0 as [->|Hr0].
        { left. apply (Hstate r' Hra Hrf). by right. }
        right. by exists r0.
    + pose proof (dispatch_used W a _ _ _ _ _ Hd) as Hused.
      pose proof (take_screenshot_keeps W report_id (error_label a (S n)) false
                    (error_step a (S n) e) pg) as (Hact & _).
      pose proof (take_screenshot_field_type report_id (error_label a (S n)) false
                    (error_step a (S n) e) pg) as Hft.
      destruct (take_screenshot W _ _ false _ pg) as [r' pg'].
      simpl in Hact, Hft.
      eexists. cbn [results eng]. split; [reflexivity|].
      rewrite Hused. intros [Hs|(r0 & Hr0 & Htype & Hpassword)].
      { apply (Hstate r' Hact Hft). by left. }
      apply list_elem_of_singleton in Hr0 as ->.
      apply (Hstate r' Hact Hft). by right.
Qed.

Lemma final_capture_used (report_id : string) (s : run_state) :
  used_provided_data (eng (final_capture W report_id s)) = used_provided_data (eng s).
Proof.
  unfold final_capture. destruct (screenshot_capture W); [|done].
  destruct (extract_page_content W (page s)) as [content pg].
  by destruct (capture_with_analysis W report_id _ true pg) as [[| |info] pg'].
Qed.

End FieldFacts.

(** X21. The data usage step shows a provided password in clear. When every
    Type action of kind password in the list types the value [v] as provided
    data, and a step of such an action is in the list [run] returns, that
    list ends with the data usage step, and its details hold "password="
    followed by [v], or by the first fifteen characters of [v] and three
    dots when [v] is longer. *)
Theorem data_summary_shows_password {Page : Type} (W : world Page)
    (acts : list action_data) (report_id : string) (pg : Page) (v : string) :
  Py.truthy v = true ->
  Forall (fun a => types_password a = true -> provided_value v a) acts ->
  (exists r, r ∈ run W acts report_id pg /\
             r_action r = "type" /\ r_field_type r = Some "password") ->
  exists r,
    last (run W acts report_id pg) = Some r /\
    r_action r = "data_summary" /\
    occurs_in ("password=" +:+
               (if 15 <? String.length v then Py.take 15 v +:+ "..." else v))
      (r_details r).
Proof.
  intros Hv Hacts (r & Hr & Htype & Hfield).
  destruct acts as [|first rest].
  { apply list_elem_of_singleton in Hr as ->. done. }
  destruct (is_error first) eqn:Hfirst.
  { unfold run in Hr. rewrite Hfirst in Hr. apply list_elem_of_singleton in Hr as ->. done. }
  rewrite run_unfold in * by done.
  set (s0 := RunState [] initial_engine pg) in *.
  destruct (run_loop_password W report_id v (first :: rest) Hv Hacts 0 s0)
    as (new & Hnew & Hinv).
  cbn [results app] in Hnew.
  set (s1 := run_loop W report_id (first :: rest) 0 s0) in *.
  assert (Hin : r ∈ new).
  { destruct (data_summary_results (final_capture W report_id s1))
      as (tail & Htail & Hsummary).
    rewrite Htail in Hr. apply elem_of_app in Hr as [Hr|Hr].
    2:{ rewrite Forall_forall in Hsummary. apply Hsummary in Hr. congruence. }
    destruct (final_capture_results W report_id s1) as [Hsame|(info & st & _ & Hcap)].
    - by rewrite Hsame, Hnew in Hr.
    - rewrite Hcap, Hnew in Hr. apply elem_of_app in Hr as [Hr|Hr]; [done|].
      apply list_elem_of_singleton in Hr as ->. done. }
  assert (Hpassword : Parser.assoc "password"
                        (used_provided_data (eng (final_capture W report_id s1))) = Some v).
  { rewrite final_capture_used. apply Hinv. right. by exists r. }
  destruct (data_summary_shows (final_capture W report_id s1) "password" v Hpassword)
    as (r' & Hlast & Haction & Hshown).
  exists r'. split; [done|]. split; [done|].
  unfold show_item in Hshown. simpl in Hshown.
  by destruct (15 <? String.length v).
Qed.

Lemma data_summary_shows_password_witness :
  exists r,
    last (run (Scenario.static_world "https://example.com/login"
                 ["input[type='password']"] false false)
            [navigate "https://example.com/login";
             type_action "input[type='password'], input[name='password']" "hunter2"
               "password" "Enter password" None]
            "r1" tt) = Some r /\
    r_action r = "data_summary" /\
    occurs_in "password=hunter2" (r_details r).
Proof.
  apply (data_summary_shows_password
           (Scenario.static_world "https://example.com/login"
              ["input[type='password']"] false false)
           [navigate "https://example.com/login";
            type_action "input[type='password'], input[name='password']" "hunter2"
              "password" "Enter password" None]
           "r1" tt "hunter2").
  - reflexivity.
  - repeat constructor; try discriminate.
  - eexists. split; [|split].
    + vm_compute. apply list_elem_of_further, list_elem_of_here.
    + reflexivity.
    + reflexivity.
Defined.

(** ** The answer to a request *)

Section ApiFacts.

Lemma compile_error_message (e : action_data) :
  compile_error e -> exists msg, a_error e = Some msg /\ Py.truthy msg = true.
Proof. destruct 1; simpl; by eauto. Qed.

Lemma compile_error_suggestion (e : action_data) :
  compile_error e ->
  Py.truthy (default "Enable 'Use Random Data' to auto-fill missing fields"
               (a_suggestion e)) = true.
Proof. by destruct 1. Qed.

Ltac relayed :=
  unfold relayed;
  repeat first
    [ apply Forall_nil_2
    | apply Forall_cons_2; [simpl; discriminate|]
    | apply Forall_app_2 ].

Lemma relayed_search (instruction instruction_lower site : string)
    (fields : gmap string string) :
  relayed (Parser._handle_search instruction instruction_lower site fields).
Proof.
  unfold Parser._handle_search.
  destruct (Py.truthy _); [|relayed].
  destruct (_ || _); [|relayed].
  destruct (Parser.mem site _); relayed.
Qed.

Lemma relayed_login_steps (email password site : string) :
  relayed
    (if Parser.mem site ["twitter"; "x.com"]
     then Parser._handle_twitter_login email password site
     else if String.eqb site "facebook"
     then Parser._handle_facebook_login email password site
     else if String.eqb site "linkedin"
     then Parser._handle_linkedin_login email password site
     else Parser._handle_generic_login email password site).
Proof.
  destruct (Parser.mem site _); [relayed|].
  destruct (String.eqb site "facebook"); [relayed|].
  destruct (String.eqb site "linkedin"); [relayed|].
  unfold Parser._handle_generic_login. destruct (Py.contains _ _); relayed.
Qed.

Lemma relayed_signup_steps (fields : gmap string string) (site : string) :
  relayed
    (if Parser.mem site ["twitter"; "x.com"] then Parser._handle_twitter_signup fields site
     else if String.eqb site "facebook" then Parser._handle_facebook_signup fields site
     else if String.eqb site "linkedin" then Parser._handle_linkedin_signup fields site
     else Parser._handle_generic_signup fields site).
Proof.
  destruct (Parser.mem site _); [relayed|].
  destruct (String.eqb site "facebook"); [relayed|].
  destruct (String.eqb site "linkedin"); [relayed|].
  unfold Parser._handle_generic_signup. destruct (Py.truthy _); relayed.
Qed.

Lemma relayed_login (E : Parser.env) (instruction instruction_lower site : string)
    (fields : gmap string string) (t : nat) :
  relayed (fst (Parser._handle_login E instruction instruction_lower site fields t)).
Proof.
  unfold Parser._handle_login, Parser.bind.
  destruct (Parser.login_credentials E site fields t) as [[email password] t'].
  simpl fst. simpl snd.
  destruct (Parser.login_missing email password) as [|m ms]; simpl; [|relayed].
  do 2 (apply Forall_cons_2; [simpl; discriminate|]).
  apply relayed_login_steps.
Qed.

Lemma relayed_signup (E : Parser.env) (instruction instruction_lower site : string)
    (fields : gmap string string) (t : nat) :
  relayed (fst (Parser._handle_signup E instruction instruction_lower site fields t)).
Proof.
  unfold Parser._handle_signup, Parser.bind.
  destruct (Parser.resolve_fields E _ fields site ∅ t) as [generated t1].
  destruct (if String.eqb site "linkedin" then _ else _) as [generated' t2].
  match goal with
  | |- context [filter ?P ?l] => destruct (filter P l) as [|m ms]
  end; simpl; [|relayed].
  do 2 (apply Forall_cons_2; [simpl; discriminate|]).
  apply relayed_signup_steps.
Qed.

Lemma relayed_navigation (instruction instruction_lower site : string)
    (fields : gmap string string) :
  relayed (Parser._handle_navigation instruction instruction_lower site fields).
Proof.
  unfold Parser._handle_navigation.
  destruct (negb _); [relayed|].
  destruct (Re.search _ _); relayed.
Qed.

Lemma relayed_parse (E : Parser.env) (text : string) :
  Py.truthy (Py.strip text) = true -> relayed (Parser.parse E text).
Proof.
  intros Htext. unfold Parser.parse. rewrite Htext. simpl negb. cbv iota.
  unfold Parser._parse_simple.
  destruct (String.eqb _ "search"); [apply relayed_search|].
  destruct (String.eqb _ "login"); [apply relayed_login|].
  destruct (String.eqb _ "signup"); [apply relayed_signup|].
  destruct (String.eqb _ "navigate"); [apply relayed_navigation|].
  destruct (negb _); relayed.
Qed.

End ApiFacts.

Lemma api_parse_patterns (c : Api.client) (E : Parser.env) (instruction : string) :
  Api.ai_actions c (Py.strip instruction) = None ->
  Api.parse c E instruction = Parser.parse E instruction.
Proof. intros Hnone. unfold Api.parse, Parser.parse. by rewrite Hnone. Qed.

(** X22. When the AI branch of the parser gives nothing for the
    instruction (no client opened, or its answer raised an exception) and
    the patterns compile it, what [api_run_test] answers for an instruction
    that does not compile always carries a message and a suggestion that
    are not empty, and a list of missing fields: where the parser's error
    has no suggestion or no list, the caller fills in its own. The parser's
    "Empty instruction" is never relayed: an empty instruction is rejected
    before the parser is called. *)
Theorem error_response_is_complete (c : Api.client) (E : Parser.env)
    (instruction : string) (response : Api.error_response) :
  Api.ai_actions c (Py.strip instruction) = None ->
  Api.compile_request c E instruction = Api.NotCompiled response ->
  Py.truthy (Api.e_error response) = true /\
  Api.e_error response <> "Empty instruction" /\
  Py.truthy (Api.e_suggestion response) = true /\
  exists e,
    Parser.parse E instruction = [e] /\
    Api.e_error response = default "Unknown error" (a_error e) /\
    Api.e_missing_fields response = default [] (a_missing_fields e).
Proof.
  intros Hpatterns. unfold Api.compile_request.
  destruct (Py.truthy (Py.strip instruction)) eqn:Htext; [|done].
  simpl negb. cbv iota.
  rewrite api_parse_patterns by (by rewrite strip_idem).
  pose proof (relayed_parse E (Py.strip instruction)) as Hrelayed.
  rewrite strip_idem in Hrelayed. specialize (Hrelayed Htext).
  rewrite parse_strips in *.
  destruct (compiled_parse E instruction) as [Hnone|(e & Hparse & Hshape)].
  - destruct (Parser.parse E instruction) as [|first rest]; [done|].
    apply Forall_cons in Hnone as [-> _]. done.
  - rewrite Hparse in *. destruct (is_error e); [|done].
    intros [= <-]. apply Forall_cons in Hrelayed as [Hempty _].
    destruct (compile_error_message e Hshape) as (msg & Hmsg & Htruthy).
    pose proof (compile_error_suggestion e Hshape) as Hsuggestion.
    assert (Hfields :
              forall details linkedin retry,
                let r := Api.ErrorResponse (default "Unknown error" (a_error e))
                           (default [] (a_missing_fields e))
                           (default "Enable 'Use Random Data' to auto-fill missing fields"
                              (a_suggestion e)) details linkedin retry in
                Py.truthy (Api.e_error r) = true /\
                Api.e_error r <> "Empty instruction" /\
                Py.truthy (Api.e_suggestion r) = true /\
                exists e0, [e] = [e0] /\
                  Api.e_error r = default "Unknown error" (a_error e0) /\
                  Api.e_missing_fields r = default [] (a_missing_fields e0)).
    { intros details linkedin retry. simpl. rewrite Hmsg in *. simpl.
      split; [done|]. split; [congruence|]. split; [done|]. exists e.
      by rewrite Hmsg. }
    unfold Api.error_response_of. destruct (_ && _ && _ && _); apply Hfields.
Qed.

Lemma error_response_is_complete_witness :
  Py.truthy "Login failed: Missing required fields: password. Enable 'Use Random Data' to auto-fill missing fields." = true /\
  "Login failed: Missing required fields: password. Enable 'Use Random Data' to auto-fill missing fields."
    <> "Empty instruction" /\
  Py.truthy "Enable 'Use Random Data' to auto-fill missing fields" = true /\
  exists e,
    Parser.parse Scenario.env_off "login to twitter with username bob" = [e] /\
    "Login failed: Missing required fields: password. Enable 'Use Random Data' to auto-fill missing fields."
      = default "Unknown error" (a_error e) /\
    ["password"] = default [] (a_missing_fields e).
Proof.
  apply (error_response_is_complete Api.no_client Scenario.env_off
           "login to twitter with username bob"
           (Api.ErrorResponse
              "Login failed: Missing required fields: password. Enable 'Use Random Data' to auto-fill missing fields."
              ["password"] "Enable 'Use Random Data' to auto-fill missing fields"
              (Some "Required: password") false None)).
  - reflexivity.
  - vm_compute. reflexivity.
Defined.

(** X23. When the AI branch of the parser gives nothing for the
    instruction (no client opened, or its answer raised an exception) and
    the patterns compile it, what [api_run_test] hands to the executor is a
    list that starts with a navigation and holds only actions the handlers
    accept: [run] is then never called from there with an empty list or
    with an error, the two cases it answers without opening a page. *)
Theorem executor_gets_runnable_list (c : Api.client) (E : Parser.env)
    (instruction : string) (parsed : list action_data) :
  Api.ai_actions c (Py.strip instruction) = None ->
  Api.compile_request c E instruction = Api.Compiled parsed ->
  parsed = Parser.parse E instruction /\
  navigation_first parsed /\ all_well_formed parsed /\
  parsed <> [] /\ existsb is_error parsed = false.
Proof.
  intros Hpatterns. unfold Api.compile_request.
  destruct (Py.truthy (Py.strip instruction)) eqn:Htext; [|done].
  simpl negb. cbv iota.
  rewrite api_parse_patterns by (by rewrite strip_idem).
  rewrite parse_strips.
  destruct (parse_engine_ready E instruction) as [(e & Hparse & Herror)|[Hnav Hall]].
  { rewrite Hparse, Herror. done. }
  destruct Hnav as (url & rest & Hparse). rewrite Hparse in *.
  change (is_error (navigate url)) with false. cbv iota. intros [= <-].
  split; [done|]. split; [by eexists _, _|]. split; [done|]. split; [done|].
  apply not_true_is_false. intros Hex. apply existsb_exists in Hex as (a & Ha & Herr).
  unfold all_well_formed in Hall. rewrite Forall_forall in Hall.
  apply list_elem_of_In, Hall in Ha. unfold well_formed, is_error in *.
  destruct (a_action a) as [name|]; [|done]. apply String.eqb_eq in Herr. subst name.
  done.
Qed.

Lemma executor_gets_runnable_list_witness :
  Parser.parse Scenario.env_off "search apples on google" =
  Parser.parse Scenario.env_off "search apples on google" /\
  navigation_first (Parser.parse Scenario.env_off "search apples on google") /\
  all_well_formed (Parser.parse Scenario.env_off "search apples on google") /\
  Parser.parse Scenario.env_off "search apples on google" <> [] /\
  existsb is_error (Parser.parse Scenario.env_off "search apples on google") = false.
Proof.
  apply (executor_gets_runnable_list Api.no_client Scenario.env_off
           "search apples on google").
  - reflexivity.
  - vm_compute. reflexivity.
Defined.

(** ** The preview of an instruction *)

(** X24. The preview of [api_analyze_instruction] and the compiler test the
    same keywords in a different order: signup, login, search in the
    preview, search, login, signup in the compiler. For an instruction
    without "launch" and "move to", which only the compiler knows, the
    preview shows the type the compiler will choose exactly when the
    instruction holds keywords of at most one of the three intents. *)
Theorem preview_agrees_with_compiler (instruction_lower : string) :
  Parser.any_in ["launch"; "move to"] instruction_lower = false ->
  Api.analysis_type instruction_lower =
    preview_name (Parser._detect_action_type instruction_lower)
  <-> intents_matched instruction_lower <= 1.
Proof.
  intros Hlaunch.
  unfold Api.analysis_type, Parser._detect_action_type, intents_matched.
  change (Parser.any_in ["go to"; "open"; "visit"; "navigate"; "launch"; "move to"]
            instruction_lower)
    with (existsb (fun kw => Py.contains kw instruction_lower)
            (["go to"; "open"; "visit"; "navigate"] ++ ["launch"; "move to"])).
  rewrite existsb_app. fold (Parser.any_in ["launch"; "move to"] instruction_lower).
  fold (Parser.any_in ["go to"; "open"; "visit"; "navigate"] instruction_lower).
  rewrite Hlaunch, orb_false_r.
  destruct (Parser.any_in ["search"; "find"; "look for"] instruction_lower),
    (Parser.any_in ["login"; "signin"; "sign in"; "log in"] instruction_lower),
    (Parser.any_in ["signup"; "register"; "sign up"; "join"; "create account"; "create"]
       instruction_lower),
    (Parser.any_in ["go to"; "open"; "visit"; "navigate"] instruction_lower);
    cbn; split; intros H; first [done | lia].
Qed.

Lemma preview_agrees_with_compiler_witness :
  Api.analysis_type "sign in to github" =
    preview_name (Parser._detect_action_type "sign in to github")
  <-> intents_matched "sign in to github" <= 1.
Proof.
  apply (preview_agrees_with_compiler "sign in to github").
  vm_compute. reflexivity.
Defined.
